(** * OCR confidence scoring, document status and webhook delivery

    A shallow embedding of the backend's two pieces of real logic:

    - [app/services/ocr_service.py], [app/schemas/ocr.py] and
      [app/tasks/ocr_tasks.py]: confidence scoring, the score-to-status
      mapping and the task that drives one document through the pipeline;
    - [app/services/webhook_service.py] and [app/tasks/webhook_tasks.py]:
      formatting, sending and retrying a webhook delivery.

    Modelling conventions.

    - Python floats are idealised as exact rationals ([Q]); equality of
      scores is [Qeq].  [np.std(a) < k] is decided on the variance, which is
      executable.
    - The database row of a document (or webhook) is a record; a function
      that receives the ORM object receives the record and returns the
      updated one, so the mutation of the shared object is visible to the
      caller exactly as in the source.
    - The calls that leave the modelled functions (the image library, the
      OCR engine, the uploader, payload validation, token signing, the HTTP
      endpoint, the database, the clock) are fields of an environment
      record, and a theorem that quantifies over the environment holds
      whatever those calls do.  Two of them are answered by the repository
      itself: [app/utils/storage.py] and [app/utils/validation.py] are
      embedded too, and [repository.ocr] and [repository.webhook] single
      out the environments in which validation is done by
      [validate_document_data] as the call sites call it.
    - Exceptions are values of [exn]; fallible code returns [result]. *)

From Stdlib Require Import QArith Qround ZArith String Ascii List Bool Lia Lqa.
From Stdlib Require Import Setoid Permutation.
Import ListNotations.

#[global] Set Warnings "-register-all".

(* ------------------------------------------------------------------ *)
(** ** Exceptions *)

Module exceptions.

(** The exception classes that the modelled code raises or tests with
    [isinstance].  [CustomException] carries [message] and [code] as in
    [app/core/exceptions.py]; [ValidationException] is its subclass;
    [RequestException] is [requests.exceptions.RequestException];
    [RetryError] is tenacity's, [Retry] is Celery's (with its countdown). *)
Inductive exn : Type :=
| ValueError (msg : string)
| KeyError (msg : string)
| CustomException (message code : string)
| ValidationException (message : string)
| RequestException (msg : string)
| RetryError (last : exn)
| Retry (countdown : Z)
| OtherException (type_name msg : string).

Inductive result (A : Type) : Type :=
| Return (a : A)
| Raise (e : exn).
Arguments Return {A} a.
Arguments Raise {A} e.

(** [isinstance(exc, (ValueError, KeyError))] *)
Definition is_ValueError_or_KeyError (e : exn) : bool :=
  match e with
  | ValueError _ | KeyError _ => true
  | _ => false
  end.

(** [isinstance(exc, requests.exceptions.RequestException)] *)
Definition is_RequestException (e : exn) : bool :=
  match e with
  | RequestException _ => true
  | _ => false
  end.

(** [isinstance(exc, CustomException)], subclasses included. *)
Definition is_CustomException (e : exn) : bool :=
  match e with
  | CustomException _ _ | ValidationException _ => true
  | _ => false
  end.

(** [str(exc)] *)
Fixpoint str (e : exn) : string :=
  match e with
  | ValueError m | KeyError m | RequestException m => m
  | CustomException m _ | ValidationException m => m
  | RetryError last => append "RetryError: " (str last)
  | Retry _ => "Retry"
  | OtherException _ m => m
  end.

(** [type(exc).__name__] *)
Definition type_name (e : exn) : string :=
  match e with
  | ValueError _ => "ValueError"
  | KeyError _ => "KeyError"
  | CustomException _ _ => "CustomException"
  | ValidationException _ => "ValidationException"
  | RequestException _ => "RequestException"
  | RetryError _ => "RetryError"
  | Retry _ => "Retry"
  | OtherException n _ => n
  end.

End exceptions.
Export exceptions.

(* ------------------------------------------------------------------ *)
(** ** Python and numpy primitives used by the code *)

Module Py.

Local Open Scope Q_scope.

Definition Qltb (x y : Q) : bool := negb (Qle_bool y x).

(** [min(a, b)] and [max(a, b)] on two arguments: the second argument is
    returned only when it is strictly smaller (larger). *)
Definition min (a b : Q) : Q := if Qltb b a then b else a.
Definition max (a b : Q) : Q := if Qltb a b then b else a.

(** Rounding of a rational to the nearest integer, ties to the even one. *)
Definition round_half_even (x : Q) : Z :=
  let f := Qfloor x in
  let r := x - inject_Z f in
  if Qltb r (1 # 2) then f
  else if Qltb (1 # 2) r then (f + 1)%Z
  else if Z.even f then f else (f + 1)%Z.

(** [round(value, ndigits)] *)
Definition round (value : Q) (ndigits : nat) : Q :=
  let scale := inject_Z (10 ^ Z.of_nat ndigits) in
  inject_Z (round_half_even (value * scale)) / scale.

Definition sum (a : list Q) : Q := fold_right Qplus 0 a.

(** [np.mean(a)] for a non-empty [a] (the code never calls it on an
    empty array). *)
Definition np_mean (a : list Q) : Q :=
  sum a / inject_Z (Z.of_nat (length a)).

(** The population variance, [np.var(a)]: the mean of the squared
    deviations from the mean. *)
Definition np_var (a : list Q) : Q :=
  let m := np_mean a in
  np_mean (map (fun x => (x - m) * (x - m)) a).

(** [np.std(a) < bound] for a literal [bound >= 0].  [np.std(a)] is the
    non-negative square root of [np_var a], so the comparison is decided
    on the squares. *)
Definition np_std_lt (a : list Q) (bound : Q) : bool :=
  Qltb (np_var a) (bound * bound).

(** Characters for which [str.isspace] holds (ASCII range). *)
Definition isspace (c : ascii) : bool :=
  let n := nat_of_ascii c in
  ((9 <=? n) && (n <=? 13) || (28 <=? n) && (n <=? 32))%nat.

(** [s.split()]: the maximal runs of non-whitespace characters.
    [cur] is the run being read, if any. *)
Fixpoint split_from (cur : option string) (s : string) : list string :=
  match s with
  | EmptyString =>
      match cur with Some w => [w] | None => [] end
  | String c s' =>
      if isspace c then
        match cur with
        | Some w => w :: split_from None s'
        | None => split_from None s'
        end
      else
        split_from
          (Some (append (match cur with Some w => w | None => EmptyString end)
                        (String c EmptyString))) s'
  end.

Definition split (s : string) : list string := split_from None s.

(** [c.lower()] on one ASCII character. *)
Definition lower_char (c : ascii) : ascii :=
  let n := nat_of_ascii c in
  if ((65 <=? n) && (n <=? 90))%nat then ascii_of_nat (n + 32) else c.

Fixpoint lower (s : string) : string :=
  match s with
  | EmptyString => EmptyString
  | String c s' => String (lower_char c) (lower s')
  end.

(** [s.rfind(c)]: the index of the last occurrence of [c], or [-1]. *)
Fixpoint rfind_from (i : Z) (c : ascii) (s : string) (found : Z) : Z :=
  match s with
  | EmptyString => found
  | String d s' =>
      rfind_from (i + 1) c s' (if Ascii.eqb c d then i else found)
  end.

Definition rfind (s : string) (c : ascii) : Z := rfind_from 0 c s (-1).

(** [s[i:]] and [s[i:i+1] != c] *)
Definition slice_from (s : string) (i : Z) : string :=
  substring (Z.to_nat i) (String.length s - Z.to_nat i) s.

Definition char_at_is (s : string) (i : Z) (c : ascii) : bool :=
  match get (Z.to_nat i) s with
  | Some d => Ascii.eqb c d
  | None => false
  end.

(** The [while] loop of [genericpath._splitext]: is there a character
    other than the dot in [p[filenameIndex:dotIndex]]? *)
Fixpoint has_non_dot (p : string) (filenameIndex : Z) (n : nat) : bool :=
  match n with
  | O => false
  | S n' =>
      if negb (char_at_is p filenameIndex ".") then true
      else has_non_dot p (filenameIndex + 1) n'
  end.

(** [os.path.splitext(p)[1]] (POSIX): the extension starts at the last dot
    of the last path component, leading dots of that component skipped. *)
Definition splitext_ext (p : string) : string :=
  let sepIndex := rfind p "/" in
  let dotIndex := rfind p "." in
  if (sepIndex <? dotIndex)%Z then
    let filenameIndex := (sepIndex + 1)%Z in
    if has_non_dot p filenameIndex (Z.to_nat (dotIndex - filenameIndex))
    then slice_from p dotIndex
    else EmptyString
  else EmptyString.

(** [sep.join(l)] *)
Fixpoint join (sep : string) (l : list string) : string :=
  match l with
  | [] => EmptyString
  | [w] => w
  | w :: l' => append w (append sep (join sep l'))
  end.

(** [x in l] for a list of strings. *)
Definition str_in (x : string) (l : list string) : bool :=
  existsb (String.eqb x) l.

End Py.

(* ------------------------------------------------------------------ *)
(** ** JSON values and Python dictionaries *)

Module json.

(** JSON columns and request bodies.  A dictionary is an association list
    in insertion order without duplicate keys, as in Python. *)
Inductive value : Type :=
| Null
| Bool (b : bool)
| Int (z : Z)
| Float (q : Q)
| Str (s : string)
| List (l : list value)
| Dict (fields : list (string * value)).

Definition dict : Type := list (string * value).

(** [d[k] = v]: replaces the value of an existing key in place, appends a
    new key.  [{**d, k: v}] and [d.update({k: v})] are instances. *)
Fixpoint set (k : string) (v : value) (d : dict) : dict :=
  match d with
  | [] => [(k, v)]
  | (k', v') :: d' =>
      if String.eqb k k' then (k, v) :: d' else (k', v') :: set k v d'
  end.

Fixpoint get (k : string) (d : dict) : option value :=
  match d with
  | [] => None
  | (k', v') :: d' => if String.eqb k k' then Some v' else get k d'
  end.

Definition keys (d : dict) : list string := map fst d.

End json.

(* ------------------------------------------------------------------ *)
(** ** app/utils/validation.py *)

Module utils_validation.

Local Open Scope string_scope.

(** The part of Python's regular expressions that the patterns use.  A
    character is a code point below 256. *)
Inductive regex : Type :=
| Eps
| Chr (p : ascii -> bool)
| Seq (a b : regex)
| Opt (a : regex)
| Dollar.

(** [a{n}] *)
Fixpoint times (n : nat) (a : regex) : regex :=
  match n with
  | O => Eps
  | S n' => Seq a (times n' a)
  end.

(** The backtracking matcher: [r] is matched at the start of [s] and [k]
    decides on the rest.  [a?] is greedy: it tries [a] first.  [$] takes
    nothing and holds at the end of the string and just before a newline
    that ends the string. *)
Fixpoint match_from (r : regex) (k : string -> bool) (s : string) : bool :=
  match r with
  | Eps => k s
  | Chr p =>
      match s with
      | String c s' => p c && k s'
      | EmptyString => false
      end
  | Seq a b => match_from a (match_from b k) s
  | Opt a => match_from a k s || k s
  | Dollar =>
      match s with
      | EmptyString => k s
      | String c EmptyString => Ascii.eqb c "010" && k s
      | _ => false
      end
  end.

(** [re.match(pattern, s) is not None] for a pattern that starts
    with [^]. *)
Definition re_match (pattern : regex) (s : string) : bool :=
  match_from pattern (fun _ => true) s.

(** [\d] on code points below 256: the ASCII digits. *)
Definition d : ascii -> bool :=
  fun c => let n := nat_of_ascii c in ((48 <=? n) && (n <=? 57))%nat.

(** [str.isdigit] on one code point below 256: the ASCII digits and the
    superscripts two, three and one. *)
Definition isdigit (c : ascii) : bool :=
  let n := nat_of_ascii c in
  (d c || (n =? 178) || (n =? 179) || (n =? 185))%nat.

Definition lit (c : ascii) : regex := Chr (Ascii.eqb c).

(** [[-.]] *)
Definition sep : regex :=
  Chr (fun c => Ascii.eqb c "-" || Ascii.eqb c ".").

Fixpoint seq (l : list regex) : regex :=
  match l with
  | [] => Eps
  | r :: l' => Seq r (seq l')
  end.

(** The keys of [VALIDATION_PATTERNS], and the three patterns that the
    validators below match: [^\d{2}-\d{7}$], [^\d{3}-\d{2}-\d{4}$] and
    [^\+?1?[-.]?\d{3}[-.]?\d{3}[-.]?\d{4}$]. *)
Definition VALIDATION_PATTERNS : list string :=
  ["EIN"; "SSN"; "PHONE"; "EMAIL"].

Definition EIN : regex :=
  seq [times 2 (Chr d); lit "-"; times 7 (Chr d); Dollar].

Definition SSN : regex :=
  seq [times 3 (Chr d); lit "-"; times 2 (Chr d); lit "-";
       times 4 (Chr d); Dollar].

Definition PHONE : regex :=
  seq [Opt (lit "+"); Opt (lit "1"); Opt sep; times 3 (Chr d);
       Opt sep; times 3 (Chr d); Opt sep; times 4 (Chr d); Dollar].

Definition REVENUE_MAX_DIGITS : nat := 12.
Definition PHONE_MIN_DIGITS : nat := 10.
Definition PHONE_MAX_DIGITS : nat := 11.

(** [type(v).__name__] of a Python value that came out of JSON. *)
Definition type_name_of (v : json.value) : string :=
  match v with
  | json.Null => "NoneType"
  | json.Bool _ => "bool"
  | json.Int _ => "int"
  | json.Float _ => "float"
  | json.Str _ => "str"
  | json.List _ => "list"
  | json.Dict _ => "dict"
  end.

(** [v.attribute] on a value that has no such attribute. *)
Definition AttributeError (v : json.value) (attribute : string) : exn :=
  OtherException "AttributeError"
    (append "'"
       (append (type_name_of v)
          (append "' object has no attribute '" (append attribute "'")))).

(** [re.match(pattern, v)]: a [TypeError] unless [v] is a string. *)
Definition re_match_value (pattern : regex) (v : json.value) : result bool :=
  match v with
  | json.Str s => Return (re_match pattern s)
  | _ => Raise (OtherException "TypeError"
                  "expected string or bytes-like object")
  end.

(** [validate_ein(ein)] *)
Definition validate_ein (ein : json.value) : result bool :=
  match re_match_value EIN ein with
  | Raise e => Raise e
  | Return false => Raise (ValidationException "Invalid EIN format")
  | Return true => Return true
  end.

(** [validate_ssn(ssn)] *)
Definition validate_ssn (ssn : json.value) : result bool :=
  match re_match_value SSN ssn with
  | Raise e => Raise e
  | Return false => Raise (ValidationException "Invalid SSN format")
  | Return true => Return true
  end.

(** [''.join(filter(str.isdigit, phone))] *)
Fixpoint filter_isdigit (phone : string) : string :=
  match phone with
  | EmptyString => EmptyString
  | String c s => if isdigit c then String c (filter_isdigit s)
                  else filter_isdigit s
  end.

(** [validate_phone(phone)] for a string. *)
Definition validate_phone (phone : string) : result bool :=
  let digits := filter_isdigit phone in
  if negb ((PHONE_MIN_DIGITS <=? String.length digits)%nat
           && (String.length digits <=? PHONE_MAX_DIGITS)%nat)
  then Raise (ValidationException "Invalid phone number length")
  else if negb (re_match PHONE phone)
  then Raise (ValidationException "Invalid phone number format")
  else Return true.

(** What [pydantic] and [decimal] do is left open.  A model is built from
    the field definitions and the data is validated against it: the data
    is valid, or [pydantic.ValidationError] is raised, or something else
    is.  [Decimal(revenue)] gives a number, of which the code looks at the
    length of [str(d)] without the point and at [d <= 0] (which raises
    [InvalidOperation] for a NaN), or raises [InvalidOperation], or raises
    something else. *)
Inductive model_outcome : Type :=
| ModelValid
| ValidationError (errors : string)
| ModelError (e : exn).

Inductive decimal_outcome : Type :=
| Decimal (str_length : nat) (le_zero : option bool)
| InvalidOperation
| DecimalError (e : exn).

(** One entry of [field_definitions]: [field_spec.get('type', str)], with
    [None] for the default, and [field_spec.get('validation', {})]. *)
Record field_definition : Type := {
  field_type : option json.value;
  field_validation : json.value
}.

Record Libraries : Type := {
  (** [create_model('DynamicValidationModel', **field_definitions,
      __base__=BaseModel)] followed by [ValidationModel] applied to the items of [document_data] *)
  create_and_validate :
    list (string * field_definition) -> json.dict -> model_outcome;
  (** [Decimal(revenue)] *)
  decimal : json.value -> decimal_outcome
}.

(** [validate_revenue(revenue)] *)
Definition validate_revenue (lib : Libraries) (revenue : json.value)
    : result bool :=
  match decimal lib revenue with
  | InvalidOperation =>
      Raise (ValidationException "Invalid revenue amount format")
  | DecimalError e => Raise e
  | Decimal str_length le_zero =>
      if (REVENUE_MAX_DIGITS <? str_length)%nat then
        Raise (ValidationException "Revenue amount exceeds maximum digits")
      else
        match le_zero with
        | None => Raise (ValidationException "Invalid revenue amount format")
        | Some true =>
            Raise (ValidationException "Revenue amount must be positive")
        | Some false => Return true
        end
  end.

(** [field_spec.get('pattern') in VALIDATION_PATTERNS]: a value that
    cannot be hashed raises [TypeError]. *)
Definition pattern_is_named (pattern : option json.value) : result bool :=
  match pattern with
  | Some (json.Str s) => Return (Py.str_in s VALIDATION_PATTERNS)
  | Some (json.List _) =>
      Raise (OtherException "TypeError" "unhashable type: 'list'")
  | Some (json.Dict _) =>
      Raise (OtherException "TypeError" "unhashable type: 'dict'")
  | _ => Return false
  end.

(** The loop of [create_validation_model] over the items of a
    dictionary: every [field_spec] must have a [get], so it must be a
    dictionary itself.  (The pattern that the loop writes back into
    [field_spec] is not read again.) *)
Fixpoint field_definitions (items : list (string * json.value))
    : result (list (string * field_definition)) :=
  match items with
  | [] => Return []
  | (field_name, field_spec) :: items' =>
      match field_spec with
      | json.Dict spec =>
          match pattern_is_named (json.get "pattern" spec) with
          | Raise e => Raise e
          | Return _ =>
              match field_definitions items' with
              | Raise e => Raise e
              | Return definitions =>
                  Return
                    ((field_name,
                      {| field_type := json.get "type" spec;
                         field_validation :=
                           match json.get "validation" spec with
                           | Some v => v
                           | None => json.Dict []
                           end |}) :: definitions)
              end
          end
      | v => Raise (AttributeError v "get")
      end
  end.

(** [create_validation_model(field_specs)], up to the call of
    [create_model]: [field_specs.items()] needs a dictionary. *)
Definition create_validation_model (field_specs : json.value)
    : result (list (string * field_definition)) :=
  match field_specs with
  | json.Dict items => field_definitions items
  | v => Raise (AttributeError v "items")
  end.

(** [if key in document_data: validate(document_data[key])] *)
Definition when_present (key : string) (document_data : json.dict)
    (validate : json.value -> result bool) : result bool :=
  match json.get key document_data with
  | Some v => validate v
  | None => Return true
  end.

(** [validate_document_data(document_data, validation_rules)].
    [validation_rules] is [None] when the caller passes one argument only:
    Python then raises [TypeError] before the body runs.  The handler
    catches [pydantic.ValidationError] and nothing else. *)
Definition validate_document_data (lib : Libraries)
    (document_data : json.dict) (validation_rules : option json.value)
    : result bool :=
  match validation_rules with
  | None =>
      Raise (OtherException "TypeError"
               "validate_document_data() missing 1 required positional argument: 'validation_rules'")
  | Some validation_rules =>
      match create_validation_model validation_rules with
      | Raise e => Raise e
      | Return definitions =>
          match create_and_validate lib definitions document_data with
          | ValidationError _ =>
              Raise (ValidationException "Document data validation failed")
          | ModelError e => Raise e
          | ModelValid =>
              match when_present "ein" document_data validate_ein with
              | Raise e => Raise e
              | Return _ =>
                  match when_present "ssn" document_data validate_ssn with
                  | Raise e => Raise e
                  | Return _ =>
                      match when_present "revenue" document_data
                              (validate_revenue lib) with
                      | Raise e => Raise e
                      | Return _ => Return true
                      end
                  end
              end
          end
      end
  end.

End utils_validation.

(* ------------------------------------------------------------------ *)
(** ** app/schemas/ocr.py *)

Module schemas_ocr.

Local Open Scope Q_scope.

Definition MIN_CONFIDENCE_SCORE : Q := 0.0.
Definition MAX_CONFIDENCE_SCORE : Q := 1.0.

(** [OCRBase.validate_confidence_score]: rejects a score outside
    [[0, 1]] and rounds an accepted one to 4 decimal places. *)
Definition validate_confidence_score (value : Q) : result Q :=
  if Py.Qltb value MIN_CONFIDENCE_SCORE || Py.Qltb MAX_CONFIDENCE_SCORE value
  then Raise (ValueError "Confidence score must be between 0.0 and 1.0")
  else Return (Py.round value 4).

(** The fields of [OCRBase] that the pipeline sets or reads; [OCRCreate]
    and [OCRInDB] add nothing the pipeline uses. *)
Record OCRBase : Type := {
  document_id : string;
  extracted_text : string;
  confidence_score : Q;
  status : string;
  metadata : json.dict
}.

Definition OCRCreate : Type := OCRBase.
Definition OCRInDB : Type := OCRBase.

(** Construction of an [OCRCreate]: [extracted_text] must have at least
    one character ([min_length=1]); the validator of [confidence_score]
    runs and its result is what the record holds; [status] takes its
    default.  A failed validation is a [ValidationError], which is a
    [ValueError]. *)
Definition new_OCRCreate (document_id extracted_text : string)
    (confidence_score : Q) (metadata : json.dict) : result OCRCreate :=
  match extracted_text with
  | EmptyString =>
      Raise (ValueError "ensure this value has at least 1 characters")
  | _ =>
      match validate_confidence_score confidence_score with
      | Raise e => Raise e
      | Return c =>
          Return {| document_id := document_id;
                    extracted_text := extracted_text;
                    confidence_score := c;
                    status := "pending";
                    metadata := metadata |}
      end
  end.

(** [ocr_create.status = s] (assignment does not run validators). *)
Definition set_status (s : string) (o : OCRBase) : OCRBase :=
  {| document_id := document_id o;
     extracted_text := extracted_text o;
     confidence_score := confidence_score o;
     status := s;
     metadata := metadata o |}.

End schemas_ocr.

(* ------------------------------------------------------------------ *)
(** ** app/schemas/ocr.py: the status validator and [OCRInDB] *)

Module schemas_ocr_status.

Local Open Scope string_scope.

Definition OCR_STATUS_CHOICES : list string :=
  ["pending"; "processing"; "processed"; "failed"].

(** [OCRBase.validate_status]: an empty status is refused; the status is
    lowercased and must then be one of [OCR_STATUS_CHOICES]; the lowercased
    status is what the record holds. *)
Definition validate_status (value : string) : result string :=
  match value with
  | EmptyString => Raise (ValueError "OCR status cannot be empty")
  | _ =>
      let value := Py.lower value in
      if negb (Py.str_in value OCR_STATUS_CHOICES)
      then Raise (ValueError
                    (append "Invalid OCR status. Must be one of: "
                            (Py.join ", " OCR_STATUS_CHOICES)))
      else Return value
  end.

(** [OCRInDB(...)] built from the fields of [ocr_create] (its [dict()]):
    the validators run on every field, the one of [status] included, which
    the assignment to [ocr_create.status] had not run.  A failed
    validation is a [ValidationError], which is a [ValueError]. *)
Definition new_OCRInDB (ocr_create : schemas_ocr.OCRCreate)
    : result schemas_ocr.OCRInDB :=
  match schemas_ocr.new_OCRCreate
          (schemas_ocr.document_id ocr_create)
          (schemas_ocr.extracted_text ocr_create)
          (schemas_ocr.confidence_score ocr_create)
          (schemas_ocr.metadata ocr_create) with
  | Raise e => Raise e
  | Return record =>
      match validate_status (schemas_ocr.status ocr_create) with
      | Raise e => Raise e
      | Return status => Return (schemas_ocr.set_status status record)
      end
  end.

End schemas_ocr_status.

(* ------------------------------------------------------------------ *)
(** ** app/models/document.py and the document store *)

Module models_document.

(** The columns of [Document] that the OCR code reads or writes.
    [confidence_score] and [metadata] are nullable. *)
Record Document : Type := {
  id : string;
  storage_path : string;
  status : string;
  confidence_score : option Q;
  metadata : option json.dict
}.

(** A document as created on upload. *)
Definition new_document (id path : string) : Document :=
  {| id := id; storage_path := path; status := "pending";
     confidence_score := None; metadata := None |}.

(** The store as far as one document id is concerned: the persisted row,
    if there is one, and every value that a [db.commit()] has persisted,
    oldest first.  [ocr_task] and [process_document] both work on the
    session that [SessionLocal()] hands out, so one store serves both: an
    assignment to the document becomes part of the row at the next commit
    and is dropped by a rollback. *)
Record Store : Type := {
  row : option Document;
  commits : list Document
}.

Definition store_of (d : option Document) : Store :=
  {| row := d; commits := [] |}.

(** [db.commit()] after assignments that turned the row into [d]. *)
Definition commit (d : Document) (s : Store) : Store :=
  {| row := Some d; commits := commits s ++ [d] |}.

(** [document.metadata or {}] *)
Definition metadata_or_empty (d : Document) : json.dict :=
  match metadata d with
  | Some m => m
  | None => []
  end.

End models_document.

(* ------------------------------------------------------------------ *)
(** ** The collaborators of one run of the OCR pipeline *)

Module ocr_env.

Import models_document.

(** The columns of the engine's output dictionary that the code reads:
    [ocr_data['text']] and [ocr_data['conf']]. *)
Record OCRData : Type := {
  text : list string;
  conf : list Q
}.

(** What [Image.open] and [preprocess_image] deliver. *)
Record Image : Type := {
  width : Z;
  height : Z;
  format : string
}.

(** The outcome of every call that leaves the modelled code during one
    execution of [ocr_task]: each may return or raise, and nothing is
    assumed about which. *)
Record Env : Type := {
  (** [validate_document_data(document.to_dict())]; what the repository's
      function answers to this call is [repository.validate_document] *)
  validate_document_data : Document -> result unit;
  (** [Image.open(path)] followed by [preprocess_image] *)
  open_and_preprocess : string -> result Image;
  (** [pytesseract.image_to_data(...)] *)
  image_to_data : Image -> result OCRData;
  (** [upload_document_to_s3(path, id)], as called by [process_document] *)
  upload_document_to_s3 : string -> string -> result string;
  (** the same function as called afterwards by [ocr_task] *)
  task_upload_document_to_s3 : string -> string -> result string;
  (** [db.add] of the [OCRInDB] record, once it is built, and
      [db.commit()] *)
  save_ocr_record : result unit;
  (** [datetime.utcnow().isoformat()] *)
  utcnow_isoformat : string;
  (** [self.request.id] *)
  task_id : string
}.

End ocr_env.

(* ------------------------------------------------------------------ *)
(** ** app/services/ocr_service.py *)

Module ocr_service.

Import ocr_env.
Local Open Scope Q_scope.

Definition AUTO_APPROVE_THRESHOLD : Q := 0.95.
Definition MANUAL_REVIEW_THRESHOLD : Q := 0.70.
Definition OCR_ENGINE : string := "pytesseract".
Definition SUPPORTED_FORMATS : list string :=
  [".pdf"; ".png"; ".jpg"; ".jpeg"; ".tiff"]%string.

(** [calculate_confidence_score(extracted_text, ocr_data)].  [None]
    stands for an empty (falsy) dictionary.  On well-typed data the body
    of the [try] raises nothing, so the function is total. *)
Definition calculate_confidence_score
    (extracted_text : string) (ocr_data : option OCRData) : Q :=
  match extracted_text, ocr_data with
  | EmptyString, _ => 0.0
  | _, None => 0.0
  | _, Some d =>
      let word_confidences :=
        filter (fun x => negb (Qeq_bool x (-1))) (conf d) in
      if (length word_confidences =? 0)%nat then 0.0
      else
        let base_score := Py.np_mean word_confidences / 100.0 in
        let quality_factors : list Q := [] in
        let min_text_length := 10%nat in
        let quality_factors :=
          quality_factors ++
            [if (min_text_length <=? length (Py.split extracted_text))%nat
             then 1.0 else 0.8] in
        let quality_factors :=
          quality_factors ++
            [if Py.np_std_lt word_confidences 10 then 1.1
             else if Py.np_std_lt word_confidences 20 then 1.0
             else 0.9] in
        let final_score := base_score * Py.np_mean quality_factors in
        Py.max 0.0 (Py.min 1.0 final_score)
  end.

(** The statuses the OCR code assigns. *)
Definition processed : string := "processed".
Definition needs_review : string := "needs_review".
Definition failed : string := "failed".

(** Lines 171-177 of [process_document]: the status of the OCR record as
    a function of the score. *)
Definition determine_status (confidence_score : Q) : string :=
  if Qle_bool AUTO_APPROVE_THRESHOLD confidence_score then processed
  else if Qle_bool MANUAL_REVIEW_THRESHOLD confidence_score then needs_review
  else failed.

(** Sequencing of fallible steps: the first exception ends the block. *)
Definition bind {A B : Type} (c : result A) (k : A -> result B) : result B :=
  match c with
  | Return a => k a
  | Raise e => Raise e
  end.

(** [try: c  except Exception as e: raise h(e)] *)
Definition try_except {A : Type} (c : result A) (h : exn -> exn) : result A :=
  match c with
  | Return a => Return a
  | Raise e => Raise (h e)
  end.

Notation "x <- c ;; k" := (bind c (fun x => k))
  (at level 61, c at next level, right associativity).

(** The two handlers that close [process_document]: a [CustomException]
    is re-raised as it is, anything else is wrapped into one. *)
Definition reraise (e : exn) : exn :=
  if is_CustomException e then e
  else CustomException (append "OCR processing failed: " (str e))
                       "PROCESSING_ERROR".

(** The metadata of the OCR record (lines 156-168). *)
Definition ocr_record_metadata (ocr_data : OCRData) (image : Image)
    : json.dict :=
  [ ("word_confidences", json.List (map json.Float (conf ocr_data)));
    ("word_count", json.Int (Z.of_nat (length (text ocr_data))));
    ("processing_details",
      json.Dict
        [ ("engine", json.Str OCR_ENGINE);
          ("preprocessing_applied", json.Bool true);
          ("image_quality",
            json.Dict [ ("width", json.Int (width image));
                        ("height", json.Int (height image));
                        ("format", json.Str (format image)) ]) ]) ]%string.

(** The body of the [try] of [process_document], from the document that
    the query returned: the updated document and the OCR record, or the
    exception that leaves the [try]. *)
Definition process_document_body (env : Env)
    (document : models_document.Document)
    : result (models_document.Document * schemas_ocr.OCRInDB) :=
  _ <- validate_document_data env document ;;
  let file_ext :=
    Py.lower (Py.splitext_ext (models_document.storage_path document)) in
  if negb (Py.str_in file_ext SUPPORTED_FORMATS) then
    Raise (CustomException (append "Unsupported file format: " file_ext)
                           "VALIDATION_ERROR")
  else
    image <-
      try_except
        (open_and_preprocess env (models_document.storage_path document))
        (fun e => CustomException
                    (append "Image processing failed: " (str e))
                    "PROCESSING_ERROR") ;;
    ocr_data <-
      try_except (image_to_data env image)
        (fun e => CustomException
                    (append "OCR extraction failed: " (str e))
                    "OCR_ERROR") ;;
    let extracted_text := Py.join " " (text ocr_data) in
    let confidence_score :=
      calculate_confidence_score extracted_text (Some ocr_data) in
    ocr_create <-
      schemas_ocr.new_OCRCreate (models_document.id document)
        extracted_text confidence_score
        (ocr_record_metadata ocr_data image) ;;
    let ocr_create :=
      schemas_ocr.set_status (determine_status confidence_score)
                             ocr_create in
    s3_path <-
      upload_document_to_s3 env (models_document.storage_path document)
                            (models_document.id document) ;;
    old_metadata <-
      match models_document.metadata document with
      | Some m => Return m
      | None => Raise (OtherException "TypeError"
                         "'NoneType' object is not a mapping")
      end ;;
    let document :=
      {| models_document.id := models_document.id document;
         models_document.storage_path := s3_path;
         models_document.status := schemas_ocr.status ocr_create;
         models_document.confidence_score := Some confidence_score;
         models_document.metadata :=
           Some (json.set "ocr_processing"
                   (json.Dict
                      [ ("timestamp", json.Str (utcnow_isoformat env));
                        ("confidence_score", json.Float confidence_score);
                        ("status",
                          json.Str (schemas_ocr.status ocr_create)) ])
                   old_metadata) |}%string in
    ocr_record <- schemas_ocr_status.new_OCRInDB ocr_create ;;
    _ <- save_ocr_record env ;;
    Return (document, ocr_record).

(** [process_document(document_id)] against the store.  Every exception
    rolls the session back, so the row changes only on the path that
    reaches [db.commit()]. *)
Definition process_document (env : Env) (db : models_document.Store)
    : models_document.Store * result schemas_ocr.OCRInDB :=
  match models_document.row db with
  | None =>
      (db, Raise (CustomException "Document not found" "NOT_FOUND"))
  | Some document =>
      match try_except (process_document_body env document) reraise with
      | Return (document', ocr_record) =>
          (models_document.commit document' db, Return ocr_record)
      | Raise e => (db, Raise e)
      end
  end.

End ocr_service.

(* ------------------------------------------------------------------ *)
(** ** app/tasks/ocr_tasks.py *)

Module ocr_tasks.

Import ocr_env.
Import models_document.
Local Open Scope Q_scope.
Local Open Scope string_scope.

Definition MAX_RETRIES : nat := 3.
Definition RETRY_BACKOFF : bool := true.
Definition RETRY_DELAY : Z := 60.

(** The dictionary that [ocr_task] returns. *)
Record TaskResult : Type := {
  result_document_id : string;
  result_status : string;
  result_confidence_score : Q;
  result_s3_url : string;
  result_processing_details : json.dict
}.

(** How one execution of a task ends for the worker: it returned, it
    raised, or it raised Celery's [Retry] after re-queueing itself. *)
Inductive outcome : Type :=
| Succeeded (r : TaskResult)
| Failed (exc : exn)
| Retrying (countdown : Z).

(** Celery's [raise self.retry(exc=exc, countdown=c, max_retries=m)] in a
    task whose [request.retries] is [retries]: when [retries + 1] exceeds
    [m] the original exception is raised, otherwise the task is re-queued
    and [Retry] is raised. *)
Definition self_retry (retries : nat) (exc : exn) (countdown : Z)
    (max_retries : nat) : outcome :=
  if (max_retries <? retries + 1)%nat then Failed exc
  else Retrying countdown.

(** Lines 127-135: the status as a function of the score of the OCR
    record. *)
Definition status_of_score (confidence_score : Q) : string :=
  if Qle_bool 0.95 confidence_score then "processed"
  else if Qle_bool 0.70 confidence_score then "needs_review"
  else "failed".

Definition with_status_metadata (status : string) (metadata : json.dict)
    (d : Document) : Document :=
  {| id := id d; storage_path := storage_path d; status := status;
     confidence_score := confidence_score d; metadata := Some metadata |}.

(** The [try] block of [ocr_task]. *)
Definition ocr_task_try (env : Env) (db : Store)
    : Store * result TaskResult :=
  match row db with
  | None => (db, Raise (ValueError "Document not found"))
  | Some document =>
      let document :=
        with_status_metadata "processing"
          (json.set "task_id" (json.Str (task_id env))
             (json.set "processing_started"
                (json.Str (utcnow_isoformat env))
                (metadata_or_empty document)))
          document in
      let db := commit document db in
      match ocr_service.process_document env db with
      | (db, Raise e) => (db, Raise e)
      | (db, Return ocr_result) =>
          (* [document] is the object that [process_document] has updated *)
          let document :=
            match row db with Some d => d | None => document end in
          match task_upload_document_to_s3 env (storage_path document)
                                           (id document) with
          | Raise e => (db, Raise e)
          | Return s3_url =>
              let confidence_score :=
                schemas_ocr.confidence_score ocr_result in
              let status := status_of_score confidence_score in
              let document :=
                {| id := id document;
                   storage_path := s3_url;
                   status := status;
                   confidence_score := Some confidence_score;
                   metadata :=
                     Some (json.set "ocr_processing"
                             (json.Dict
                                [ ("completed_at",
                                    json.Str (utcnow_isoformat env));
                                  ("confidence_score",
                                    json.Float confidence_score);
                                  ("status", json.Str status);
                                  ("processing_details",
                                    json.Dict
                                      (schemas_ocr.metadata ocr_result)) ])
                             (metadata_or_empty document)) |} in
              (commit document db,
               Return {| result_document_id := id document;
                         result_status := status;
                         result_confidence_score := confidence_score;
                         result_s3_url := s3_url;
                         result_processing_details :=
                           schemas_ocr.metadata ocr_result |})
          end
      end
  end.

(** [ocr_task(self, document_id)] with [self.request.retries = retries]:
    the [try] block followed by the [except Exception] handler. *)
Definition ocr_task (env : Env) (retries : nat) (db : Store)
    : Store * outcome :=
  match ocr_task_try env db with
  | (db, Return r) => (db, Succeeded r)
  | (db, Raise exc) =>
      if is_ValueError_or_KeyError exc then (db, Failed exc)
      else
        let db :=
          match row db with
          | Some document =>
              commit
                (with_status_metadata "retry_pending"
                   (json.set "last_error"
                      (json.Dict
                         [ ("timestamp", json.Str (utcnow_isoformat env));
                           ("error_type", json.Str (type_name exc));
                           ("error_message", json.Str (str exc));
                           ("retry_count", json.Int (Z.of_nat retries)) ])
                      (metadata_or_empty document))
                   document)
                db
          | None => db
          end in
        let retry_countdown :=
          if RETRY_BACKOFF then (RETRY_DELAY * 2 ^ Z.of_nat retries)%Z
          else RETRY_DELAY in
        (db, self_retry retries exc retry_countdown MAX_RETRIES)
  end.

(** [OCRTask.on_failure(exc, task_id, args, ...)] *)
Definition on_failure (env : Env) (exc : exn) (db : Store) : Store :=
  match row db with
  | Some document =>
      commit
        (with_status_metadata "failed"
           (json.set "error"
              (json.Dict
                 [ ("timestamp", json.Str (utcnow_isoformat env));
                   ("task_id", json.Str (task_id env));
                   ("error_type", json.Str (type_name exc));
                   ("error_message", json.Str (str exc)) ])
              (metadata_or_empty document))
           document)
        db
  | None => db
  end.

(** What the worker does with one queued [ocr_task]: it executes the task;
    when the task re-queued itself it executes it again with
    [retries + 1] (the countdown is only a delay); when the task raised,
    it has failed and [on_failure] runs.  [envs n] holds the
    collaborators' behaviour during the execution with [retries = n].
    [None] means that [fuel] executions were not enough. *)
Fixpoint run_ocr_task (fuel : nat) (envs : nat -> Env) (retries : nat)
    (db : Store) : Store * option (result TaskResult) :=
  match fuel with
  | O => (db, None)
  | S fuel' =>
      match ocr_task (envs retries) retries db with
      | (db, Succeeded r) => (db, Some (Return r))
      | (db, Retrying _) => run_ocr_task fuel' envs (S retries) db
      | (db, Failed exc) =>
          (on_failure (envs retries) exc db, Some (Raise exc))
      end
  end.

(** The statuses that end the processing of a document. *)
Definition terminal (status : string) : bool :=
  Py.str_in status ["processed"; "needs_review"; "failed"].

End ocr_tasks.

(* ------------------------------------------------------------------ *)
(** ** app/models/webhook.py and the collaborators of a delivery *)

Module models_webhook.

(** The columns of [Webhook] that the dispatch code reads or writes.  The
    UUID columns are represented by their [str()].  [metadata] is never
    null on a record made by [register_webhook]. *)
Record Webhook : Type := {
  id : string;
  application_id : string;
  event : string;
  url : string;
  delivered : bool;
  retry_count : Z;
  status : string;
  metadata : json.dict;
  updated_at : option string;
  delivered_at : option string
}.

End models_webhook.

Module webhook_env.

(** The answer of the registered endpoint to one POST: a response with
    its status code, after [elapsed] seconds, or no response at all
    (connection error, timeout), which [requests] raises as a
    [RequestException]. *)
Inductive http_result : Type :=
| Response (status_code : Z) (elapsed : Q)
| NoResponse (error : string).

(** One call of [requests.post]. *)
Record Request : Type := {
  request_url : string;
  request_json : json.dict;
  request_headers : list (string * string);
  request_timeout : Z
}.

Record Env : Type := {
  (** [validate_document_data(payload, webhook.event)]; what the
      repository's function answers to this call is
      [repository.validate_payload] *)
  validate_document_data : json.dict -> string -> result unit;
  (** [generate_token(str(webhook.id), {"event": webhook.event})] *)
  generate_token : string -> json.dict -> result string;
  (** the endpoint's answer to the [n]-th POST, counted from 0 *)
  endpoint : nat -> http_result;
  (** [datetime.utcnow()], in the two forms the code uses *)
  utcnow : string;
  utcnow_isoformat : string;
  (** [self.request.id] *)
  task_id : string;
  (** [(datetime.utcnow() - processing_start).total_seconds()] in the
      task *)
  task_processing_time : Q
}.

(** The part of the world that a delivery changes: the POSTs sent so far
    (oldest first), the seconds slept between attempts, and the
    countdowns of the executions that the task re-queued. *)
Record World : Type := {
  requests : list Request;
  slept : Z;
  requeued : list Z
}.

Definition initial_world : World :=
  {| requests := []; slept := 0; requeued := [] |}.

Definition sent (r : Request) (w : World) : World :=
  {| requests := requests w ++ [r]; slept := slept w;
     requeued := requeued w |}.

Definition sleep (seconds : Z) (w : World) : World :=
  {| requests := requests w; slept := slept w + seconds;
     requeued := requeued w |}.

Definition apply_async (countdown : Z) (w : World) : World :=
  {| requests := requests w; slept := slept w;
     requeued := requeued w ++ [countdown] |}.

End webhook_env.

(* ------------------------------------------------------------------ *)
(** ** app/services/webhook_service.py *)

Module webhook_service.

Import models_webhook webhook_env.
Local Open Scope string_scope.
Local Open Scope Z_scope.

Definition WEBHOOK_TIMEOUT : Z := 30.
Definition MAX_RETRIES : nat := 3.
Definition RETRY_DELAY : Z := 5.

(** The record that [register_webhook] persists once the URL has answered
    the probe ([id] is the key the database generated). *)
Definition register_webhook (id application_id event url : string)
    (metadata : json.dict) : Webhook :=
  {| id := id; application_id := application_id; event := event;
     url := url; delivered := false; retry_count := 0;
     status := "pending"; metadata := metadata;
     updated_at := None; delivered_at := None |}.

(** The request headers (lines 174-179). *)
Definition headers_of (webhook : Webhook) (token : string)
    : list (string * string) :=
  [ ("Authorization", append "Bearer " token);
    ("Content-Type", "application/json");
    ("X-Webhook-Event", event webhook);
    ("X-Webhook-ID", id webhook) ].

(** The request body (lines 182-191). *)
Definition formatted_payload_of (env : Env) (webhook : Webhook)
    (payload : json.dict) : json.dict :=
  [ ("event", json.Str (event webhook));
    ("application_id", json.Str (application_id webhook));
    ("timestamp", json.Str (utcnow_isoformat env));
    ("data", json.Dict payload);
    ("metadata",
      json.Dict [ ("processing_time", json.Float 0);
                  ("version", json.Str "1.0") ]) ].

(** [requests.post(...)] followed by [response.raise_for_status()]: the
    request is sent; no answer, or an answer with a 4xx or 5xx status,
    raises a [RequestException]. *)
Definition post (env : Env) (r : Request) (w : World)
    : World * result (Z * Q) :=
  let answer := endpoint env (length (requests w)) in
  let w := sent r w in
  match answer with
  | NoResponse error => (w, Raise (RequestException error))
  | Response status_code elapsed =>
      if (400 <=? status_code) && (status_code <? 600)
      then (w, Raise (RequestException "HTTPError"))
      else (w, Return (status_code, elapsed))
  end.

(** The [try] block of [trigger_webhook] up to the end of the POST. *)
Definition send (env : Env) (webhook : Webhook) (payload : json.dict)
    (w : World) : World * result (Z * Q) :=
  match validate_document_data env payload (event webhook) with
  | Raise e => (w, Raise e)
  | Return _ =>
      match generate_token env (id webhook)
              [("event", json.Str (event webhook))] with
      | Raise e => (w, Raise e)
      | Return token =>
          post env
            {| request_url := url webhook;
               request_json := formatted_payload_of env webhook payload;
               request_headers := headers_of webhook token;
               request_timeout := WEBHOOK_TIMEOUT |}
            w
      end
  end.

Definition update (webhook : Webhook) (retry_count : Z) (status : string)
    (metadata : json.dict) (delivered_at : option string) : Webhook :=
  {| id := id webhook; application_id := application_id webhook;
     event := event webhook; url := url webhook;
     delivered := delivered webhook; retry_count := retry_count;
     status := status; metadata := metadata;
     updated_at := updated_at webhook; delivered_at := delivered_at |}.

(** The function that the [@retry] decorator wraps: one delivery
    attempt.  The webhook object is mutated in place, so the caller sees
    the returned record whether the attempt returns or raises. *)
Definition trigger_webhook_attempt (env : Env) (payload : json.dict)
    (st : World * Webhook) : (World * Webhook) * result bool :=
  let '(w, webhook) := st in
  match send env webhook payload w with
  | (w, Return (status_code, processing_time)) =>
      let webhook :=
        update webhook (retry_count webhook) "delivered"
          (json.set "last_delivery"
             (json.Dict
                [ ("timestamp", json.Str (utcnow_isoformat env));
                  ("processing_time", json.Float processing_time);
                  ("status_code", json.Int status_code) ])
             (metadata webhook))
          (Some (utcnow env)) in
      ((w, webhook), Return true)
  | (w, Raise e) =>
      if is_RequestException e then
        let retry_count := retry_count webhook + 1 in
        let webhook :=
          update webhook retry_count "failed"
            (json.set "last_error"
               (json.Dict
                  [ ("timestamp", json.Str (utcnow_isoformat env));
                    ("error", json.Str (str e));
                    ("retry_count", json.Int retry_count) ])
               (metadata webhook))
            (delivered_at webhook) in
        if retry_count <? Z.of_nat MAX_RETRIES
        then ((w, webhook), Raise e)
        else ((w, webhook), Return false)
      else
        let webhook :=
          update webhook (retry_count webhook) "failed"
            (json.set "last_error"
               (json.Dict
                  [ ("timestamp", json.Str (utcnow_isoformat env));
                    ("error", json.Str (str e)) ])
               (metadata webhook))
            (delivered_at webhook) in
        ((w, webhook), Raise e)
  end.

(** tenacity's [@retry(stop=stop_after_attempt(n), wait=wait_fixed(d))]
    around [f]: [f] is called; a returned value is returned; after an
    exception the loop stops with [RetryError] once the number of the
    attempt has reached [n], and otherwise sleeps [d] seconds and calls
    [f] again.  [more] is the number of further attempts allowed. *)
Fixpoint retry_loop {A : Type} (more : nat) (wait_fixed : Z)
    (f : World * Webhook -> (World * Webhook) * result A)
    (st : World * Webhook) : (World * Webhook) * result A :=
  match f st with
  | (st, Return a) => (st, Return a)
  | (st, Raise e) =>
      match more with
      | O => (st, Raise (RetryError e))
      | S more' =>
          retry_loop more' wait_fixed f (sleep wait_fixed (fst st), snd st)
      end
  end.

Definition retry {A : Type} (stop_after_attempt : nat) (wait_fixed : Z)
    (f : World * Webhook -> (World * Webhook) * result A)
    : World * Webhook -> (World * Webhook) * result A :=
  retry_loop (stop_after_attempt - 1) wait_fixed f.

(** [trigger_webhook(webhook, payload)], as callers see it. *)
Definition trigger_webhook (env : Env) (webhook : Webhook)
    (payload : json.dict) (w : World) : (World * Webhook) * result bool :=
  retry MAX_RETRIES RETRY_DELAY (trigger_webhook_attempt env payload)
        (w, webhook).

End webhook_service.

(* ------------------------------------------------------------------ *)
(** ** app/tasks/webhook_tasks.py *)

Module webhook_tasks.

Import models_webhook webhook_env.
Local Open Scope string_scope.
Local Open Scope Z_scope.

Definition MAX_RETRIES : nat := 3.
Definition RETRY_DELAY : Z := 5.

(** Celery's [self.retry(exc=exc, countdown=c)] in a task declared with
    [max_retries=MAX_RETRIES] whose [request.retries] is [retries]: when
    [retries + 1] exceeds the maximum it raises [exc]; otherwise it
    re-queues the task ([apply_async]) and raises [Retry]. *)
Definition self_retry (retries : nat) (exc : exn) (countdown : Z)
    (w : World) : World * exn :=
  if (MAX_RETRIES <? retries + 1)%nat then (w, exc)
  else (apply_async countdown w, Retry countdown).

Definition update (webhook : Webhook) (delivered : bool) (retry_count : Z)
    (status : string) (metadata : json.dict)
    (updated_at delivered_at : option string) : Webhook :=
  {| id := id webhook; application_id := application_id webhook;
     event := event webhook; url := url webhook;
     delivered := delivered; retry_count := retry_count;
     status := status; metadata := metadata;
     updated_at := updated_at; delivered_at := delivered_at |}.

(** The [except Exception as e] handler that closes the task. *)
Definition on_exception (env : Env) (e : exn) (webhook : Webhook)
    : Webhook :=
  update webhook (delivered webhook) (retry_count webhook) "failed"
    [ ("error", json.Str (str e));
      ("timestamp", json.Str (utcnow_isoformat env)) ]
    (updated_at webhook) (delivered_at webhook).

(** [process_webhook_event(self, webhook_id, payload)] with
    [self.request.retries = retries]; [row] is what the query for
    [webhook_id] finds.  The result is the world, the row as last
    committed, and the returned boolean (the task never raises: its last
    handler catches every exception, Celery's [Retry] included). *)
Definition process_webhook_event (env : Env) (retries : nat)
    (payload : json.dict) (w : World) (row : option Webhook)
    : World * option Webhook * bool :=
  match row with
  | None => (w, None, false)
  | Some webhook =>
      match validate_document_data env payload (event webhook) with
      | Raise e =>
          let webhook :=
            update webhook (delivered webhook) (retry_count webhook)
              "failed"
              [ ("error", json.Str "Payload validation failed");
                ("details", json.Str (str e));
                ("timestamp", json.Str (utcnow_isoformat env)) ]
              (updated_at webhook) (delivered_at webhook) in
          (w, Some webhook, false)
      | Return _ =>
          let webhook :=
            update webhook (delivered webhook) (retry_count webhook)
              "processing" (metadata webhook) (Some (utcnow env))
              (delivered_at webhook) in
          let enriched_payload :=
            json.set "metadata"
              (json.Dict
                 [ ("processing_time", json.Float 0);
                   ("version", json.Str "1.0");
                   ("retry_count", json.Int (Z.of_nat retries));
                   ("task_id", json.Str (task_id env)) ])
              payload in
          match webhook_service.trigger_webhook env webhook
                  enriched_payload w with
          | ((w, webhook), Raise e) =>
              (w, Some (on_exception env e webhook), false)
          | ((w, webhook), Return true) =>
              let webhook :=
                update webhook true (retry_count webhook) "delivered"
                  [ ("processing_time", json.Float (task_processing_time env));
                    ("last_delivery", json.Str (utcnow_isoformat env));
                    ("retry_count", json.Int (Z.of_nat retries)) ]
                  (updated_at webhook) (Some (utcnow env)) in
              (w, Some webhook, true)
          | ((w, webhook), Return false) =>
              let retry_count := retry_count webhook + 1 in
              let webhook :=
                update webhook (delivered webhook) retry_count "failed"
                  [ ("error", json.Str "Webhook delivery failed");
                    ("retry_count", json.Int retry_count);
                    ("last_attempt", json.Str (utcnow_isoformat env));
                    ("processing_time", json.Float (task_processing_time env)) ]
                  (updated_at webhook) (delivered_at webhook) in
              if retry_count <? Z.of_nat MAX_RETRIES then
                let retry_delay := RETRY_DELAY * 5 ^ Z.of_nat retries in
                let '(w, e) :=
                  self_retry retries
                    (OtherException "Exception"
                       "Webhook delivery failed, retrying")
                    retry_delay w in
                (w, Some (on_exception env e webhook), false)
              else (w, Some webhook, false)
          end
      end
  end.

(** What the worker does with one queued event: it executes the task, and
    executes it again with [retries + 1] for as long as the execution
    re-queued itself.  [None] means that [fuel] executions were not
    enough. *)
Fixpoint run_webhook_event (fuel : nat) (env : Env) (retries : nat)
    (payload : json.dict) (w : World) (row : option Webhook)
    : World * option Webhook * option bool :=
  match fuel with
  | O => (w, row, None)
  | S fuel' =>
      let '(w', row', b) := process_webhook_event env retries payload w row in
      if (length (requeued w) <? length (requeued w'))%nat
      then run_webhook_event fuel' env (S retries) payload w' row'
      else (w', row', Some b)
  end.

End webhook_tasks.

(* ------------------------------------------------------------------ *)
(** ** The collaborators that the repository itself provides *)

Module repository.

Local Open Scope string_scope.

(** A call whose returned value the caller drops. *)
Definition call {A : Type} (r : result A) : result unit :=
  match r with
  | Return _ => Return tt
  | Raise e => Raise e
  end.

(** [document.to_dict()], for the columns that the model has. *)
Definition to_dict (document : models_document.Document) : json.dict :=
  [ ("id", json.Str (models_document.id document));
    ("storage_path", json.Str (models_document.storage_path document));
    ("status", json.Str (models_document.status document));
    ("confidence_score",
      match models_document.confidence_score document with
      | Some q => json.Float q
      | None => json.Null
      end);
    ("metadata",
      match models_document.metadata document with
      | Some m => json.Dict m
      | None => json.Null
      end) ].

(** [validate_document_data(document.to_dict())], the call of
    [process_document]: it passes no [validation_rules]. *)
Definition validate_document (lib : utils_validation.Libraries)
    (document : models_document.Document) : result unit :=
  call (utils_validation.validate_document_data lib (to_dict document) None).

(** [validate_document_data(payload, webhook.event)], the call of
    [trigger_webhook] and of [process_webhook_event]: it passes the event,
    a string, as [validation_rules]. *)
Definition validate_payload (lib : utils_validation.Libraries)
    (payload : json.dict) (event : string) : result unit :=
  call (utils_validation.validate_document_data lib payload
          (Some (json.Str event))).

(** The environments in which payload validation is done by the
    repository's [validate_document_data], as the call sites call it. *)
Definition ocr (lib : utils_validation.Libraries) (env : ocr_env.Env)
    : Prop :=
  forall document,
    ocr_env.validate_document_data env document
    = validate_document lib document.

Definition webhook (lib : utils_validation.Libraries)
    (env : webhook_env.Env) : Prop :=
  forall payload event,
    webhook_env.validate_document_data env payload event
    = validate_payload lib payload event.

(** What the two calls raise. *)
Definition missing_argument : exn :=
  OtherException "TypeError"
    "validate_document_data() missing 1 required positional argument: 'validation_rules'".

Definition no_items : exn :=
  OtherException "AttributeError" "'str' object has no attribute 'items'".

(** What [process_document] makes of the first. *)
Definition processing_failed : exn :=
  CustomException
    "OCR processing failed: validate_document_data() missing 1 required positional argument: 'validation_rules'"
    "PROCESSING_ERROR".

End repository.

(* ------------------------------------------------------------------ *)
(** ** The scorer as the specification words it *)

Module reference.

Local Open Scope Q_scope.

(** The confidences that remain once the sentinel [-1] is discarded. *)
Definition valid_confidences (c : list Q) : list Q :=
  filter (fun x => negb (Qeq_bool x (-1))) c.

(** The number of whitespace-separated words of [t]: the number of
    characters that start a word, a word starting at a non-blank character
    that begins the text or follows a blank. *)
Fixpoint count_words (in_word : bool) (t : string) : nat :=
  match t with
  | EmptyString => O
  | String ch t' =>
      if Py.isspace ch then count_words false t'
      else ((if in_word then 0 else 1) + count_words true t')%nat
  end.

Definition word_count (t : string) : nat := count_words false t.

Definition mean (l : list Q) : Q :=
  Py.sum l / inject_Z (Z.of_nat (length l)).

(** base = mean(valid confidences) / 100 *)
Definition base_score (valid : list Q) : Q := mean valid / 100.

(** f1 = 1.0 if the text has at least 10 words, else 0.8 *)
Definition length_factor (t : string) : Q :=
  if (10 <=? word_count t)%nat then 1.0 else 0.8.

(** f2 = 1.1 if the standard deviation is below 10, 1.0 if it is in
    [[10, 20)], 0.9 otherwise. *)
Definition consistency_factor (valid : list Q) : Q :=
  if Py.np_std_lt valid 10 then 1.1
  else if Py.np_std_lt valid 20 then 1.0
  else 0.9.

Definition clamp01 (x : Q) : Q :=
  if Py.Qltb x 0 then 0 else if Py.Qltb 1 x then 1 else x.

(** The score before the final rounding. *)
Definition score_before_rounding (t : string) (c : list Q) : Q :=
  match t, valid_confidences c with
  | EmptyString, _ => 0
  | _, [] => 0
  | _, valid =>
      clamp01 (base_score valid
               * mean [length_factor t; consistency_factor valid])
  end.

(** The reference definition: clamped to [[0, 1]] and rounded to 4
    decimal places. *)
Definition score (t : string) (c : list Q) : Q :=
  match t, valid_confidences c with
  | EmptyString, _ => 0
  | _, [] => 0
  | _, _ => Py.round (score_before_rounding t c) 4
  end.

End reference.

(* ------------------------------------------------------------------ *)
(** ** Properties of stores, documents and requests *)

Module properties.

Import models_document.

(** The statuses of the specification's enumeration, and those that the
pipeline stores. *)
Definition spec_statuses : list string :=
  ["pending"; "processing"; "processed"; "needs_review"; "failed"]%string.

Definition persisted_statuses : list string :=
  spec_statuses ++ ["retry_pending"%string].

(** The stated invariant of a document: a score exactly in the terminal
statuses. *)
Definition score_iff_terminal (d : Document) : Prop :=
  confidence_score d <> None <-> ocr_tasks.terminal (status d) = true.

(** Along a sequence of commits that starts after [prev], every commit
either leaves the score as it was or stores a score together with a
terminal status. *)
Fixpoint score_written_with_terminal (prev : Document)
    (l : list Document) : Prop :=
  match l with
  | [] => True
  | d :: l' =>
      (confidence_score d = confidence_score prev
       \/ (ocr_tasks.terminal (status d) = true
           /\ confidence_score d <> None))
      /\ score_written_with_terminal d l'
  end.


(** One commit as the proofs follow it: the condition on the score, and the
    status among those the pipeline stores. *)
Definition score_step (prev next : Document) : Prop :=
  (confidence_score next = confidence_score prev
   \/ exists s, confidence_score next = Some s
                /\ status next = ocr_tasks.status_of_score s)
  /\ Py.str_in (status next) persisted_statuses = true.

Fixpoint score_history (prev : Document) (l : list Document) : Prop :=
  match l with
  | [] => True
  | d :: l' => score_step prev d /\ score_history d l'
  end.

(** The store holds the last commit as its row, and its commits form a
history from [first]. *)
Definition consistent (first : Document) (db : Store) : Prop :=
  row db = Some (last (commits db) first)
  /\ score_history first (commits db).

(** The file format of the document is not in the allow-list. *)
Definition unsupported (d : Document) : Prop :=
  Py.str_in (Py.lower (Py.splitext_ext (storage_path d)))
            ocr_service.SUPPORTED_FORMATS = false.

End properties.

Module wire.

Import models_webhook webhook_env.
Local Open Scope string_scope.


(** [b] is [a] after some delivery attempts: the columns that no attempt
writes are the same. *)
Definition same_identity (a b : Webhook) : Prop :=
  id b = id a /\ application_id b = application_id a
  /\ event b = event a /\ url b = url a /\ delivered b = delivered a.

(** The body of the wire contract: exactly the five fields, in order, with
the values of the webhook, the clock and the supplied payload. *)
Definition wire_body (env : Env) (webhook : Webhook)
    (payload body : json.dict) : Prop :=
  json.keys body
  = ["event"; "application_id"; "timestamp"; "data"; "metadata"]
  /\ json.get "event" body = Some (json.Str (event webhook))
  /\ json.get "application_id" body
     = Some (json.Str (application_id webhook))
  /\ json.get "timestamp" body = Some (json.Str (utcnow_isoformat env))
  /\ json.get "data" body = Some (json.Dict payload)
  /\ exists t, json.get "metadata" body
               = Some (json.Dict [ ("processing_time", json.Float t);
                                   ("version", json.Str "1.0") ]).

(** The four headers, the bearer token being the one that was signed for
this webhook. *)
Definition wire_headers (env : Env) (webhook : Webhook)
    (headers : list (string * string)) : Prop :=
  exists token,
    generate_token env (id webhook) [("event", json.Str (event webhook))]
    = Return token
    /\ headers = [ ("Authorization", append "Bearer " token);
                   ("Content-Type", "application/json");
                   ("X-Webhook-Event", event webhook);
                   ("X-Webhook-ID", id webhook) ].

Definition wire_request (env : Env) (webhook : Webhook)
    (payload : json.dict) (r : Request) : Prop :=
  request_url r = url webhook
  /\ wire_body env webhook payload (request_json r)
  /\ wire_headers env webhook (request_headers r).

End wire.

(* ------------------------------------------------------------------ *)
(** ** app/utils/storage.py *)

Module utils_storage.

Local Open Scope string_scope.
Local Open Scope Z_scope.

Definition MAX_RETRIES : nat := 3.
Definition INITIAL_BACKOFF : Z := 1.
Definition MAX_BACKOFF : Z := 8.

(** How one execution of the [with open(...)] block ends: the upload went
    through, boto raised a [ClientError] or a [BotoCoreError], or
    something else was raised (by [open] or by the client). *)
Inductive upload_outcome : Type :=
| Uploaded
| BotoError (msg : string)
| OtherError (e : exn).

(** One call of [S3_CLIENT.upload_fileobj]. *)
Record PutObject : Type := {
  put_file : string;
  put_bucket : string;
  put_key : string;
  put_content_type : string;
  put_encryption : string
}.

Record Env : Type := {
  (** [os.path.exists] *)
  path_exists : string -> bool;
  (** [datetime.utcnow().strftime('%Y%m%d_%H%M%S')] *)
  utcnow_strftime : string;
  (** [Config.s3_bucket] and [Config.aws_region] *)
  S3_BUCKET : string;
  aws_region : string;
  (** the outcome of the [n]-th call of [upload_fileobj], counted from 0 *)
  upload_fileobj : nat -> upload_outcome
}.

(** The calls of [upload_fileobj] made so far (oldest first) and the
    seconds spent in [time.sleep]. *)
Record World : Type := {
  uploads : list PutObject;
  slept : Z
}.

Definition initial_world : World := {| uploads := []; slept := 0 |}.

Definition put (r : PutObject) (w : World) : World :=
  {| uploads := uploads w ++ [r]; slept := slept w |}.

Definition sleep (seconds : Z) (w : World) : World :=
  {| uploads := uploads w; slept := slept w + seconds |}.

Definition content_types : list (string * string) :=
  [ (".pdf", "application/pdf");
    (".jpg", "image/jpeg");
    (".jpeg", "image/jpeg");
    (".png", "image/png");
    (".tiff", "image/tiff");
    (".doc", "application/msword");
    (".docx",
      "application/vnd.openxmlformats-officedocument.wordprocessingml.document") ].

(** [d.get(k, default)] on a dictionary with string values. *)
Fixpoint dict_get (k : string) (d : list (string * string))
    (default : string) : string :=
  match d with
  | [] => default
  | (k', v) :: d' => if String.eqb k k' then v else dict_get k d' default
  end.

(** [_get_content_type(file_extension)] *)
Definition _get_content_type (file_extension : string) : string :=
  dict_get (Py.lower file_extension) content_types "application/octet-stream".

(** The [for attempt in range(MAX_RETRIES)] loop and what follows it:
    a successful upload returns the URL; a boto error sleeps
    [min(MAX_BACKOFF, INITIAL_BACKOFF * 2 ** attempt)] seconds and goes on
    to the next attempt; any other exception leaves the function; when the
    attempts are used up an [Exception] is raised ([MAX_RETRIES] is
    printed as 3). *)
Fixpoint upload_attempts (env : Env) (request : PutObject)
    (s3_url document_id : string) (attempts : list nat) (w : World)
    : World * result string :=
  match attempts with
  | [] =>
      (w, Raise (OtherException "Exception"
                   (append "Failed to upload document "
                      (append document_id " to S3 after 3 attempts"))))
  | attempt :: attempts' =>
      let outcome := upload_fileobj env (length (uploads w)) in
      let w := put request w in
      match outcome with
      | Uploaded => (w, Return s3_url)
      | BotoError _ =>
          let backoff :=
            Z.min MAX_BACKOFF (INITIAL_BACKOFF * 2 ^ Z.of_nat attempt) in
          upload_attempts env request s3_url document_id attempts'
            (sleep backoff w)
      | OtherError e => (w, Raise e)
      end
  end.

(** [upload_document_to_s3(file_path, document_id)] *)
Definition upload_document_to_s3 (env : Env) (file_path document_id : string)
    (w : World) : World * result string :=
  if negb (path_exists env file_path) then
    (w, Raise (OtherException "FileNotFoundError"
                 (append "File not found at path: " file_path)))
  else
    let timestamp := utcnow_strftime env in
    let file_extension := Py.splitext_ext file_path in
    let s3_key :=
      append "documents/"
        (append document_id
           (append "/" (append timestamp file_extension))) in
    let content_type := _get_content_type file_extension in
    let s3_url :=
      append "https://"
        (append (S3_BUCKET env)
           (append ".s3."
              (append (aws_region env)
                 (append ".amazonaws.com/" s3_key)))) in
    upload_attempts env
      {| put_file := file_path; put_bucket := S3_BUCKET env;
         put_key := s3_key; put_content_type := content_type;
         put_encryption := "AES256" |}
      s3_url document_id (seq 0 MAX_RETRIES) w.

End utils_storage.

(** The key, the URL and the request of an upload, as properties of the
    uploader state them. *)
Module s3.

Import utils_storage.
Local Open Scope string_scope.

(** [documents/{document_id}/{timestamp}{file_extension}] *)
Definition key (env : Env) (file_path document_id : string) : string :=
  append "documents/"
    (append document_id
       (append "/"
          (append (utcnow_strftime env) (Py.splitext_ext file_path)))).

(** [https://{S3_BUCKET}.s3.{region}.amazonaws.com/{s3_key}] *)
Definition url (env : Env) (file_path document_id : string) : string :=
  append "https://"
    (append (S3_BUCKET env)
       (append ".s3."
          (append (aws_region env)
             (append ".amazonaws.com/" (key env file_path document_id))))).

Definition request (env : Env) (file_path document_id : string)
    : PutObject :=
  {| put_file := file_path; put_bucket := S3_BUCKET env;
     put_key := key env file_path document_id;
     put_content_type := _get_content_type (Py.splitext_ext file_path);
     put_encryption := "AES256" |}.

(** The world after [n] more calls of [upload_fileobj] with request [r]
    and [seconds] more seconds of sleep. *)
Definition after (n : nat) (r : PutObject) (seconds : Z) (w : World)
    : World :=
  {| uploads := uploads w ++ repeat r n; slept := (slept w + seconds)%Z |}.

(** An uploader for the OCR pipeline: [upload_document_to_s3] run in the
    world [w], its result only. *)
Definition uploader (env : Env) (w : World)
    : string -> string -> result string :=
  fun file_path document_id =>
    snd (upload_document_to_s3 env file_path document_id w).

(** Example collaborators: one local file, and an S3 that answers the
    first [failures] calls with a boto error. *)
Definition disk (failures : nat) : Env :=
  {| path_exists := String.eqb "/uploads/invoice.png";
     utcnow_strftime := "20240101_120000";
     S3_BUCKET := "documents";
     aws_region := "us-east-1";
     upload_fileobj := fun n =>
       if (n <? failures)%nat then BotoError "ServiceUnavailable"
       else Uploaded |}.

End s3.

(* ------------------------------------------------------------------ *)
(** ** Values that [calculate_confidence_score] computes on its way *)

Module scorer.

Import ocr_env.

(** [word_confidences = [conf for conf in ocr_data['conf'] if conf != -1]] *)
Definition word_confidences (ocr_data : OCRData) : list Q :=
  filter (fun x => negb (Qeq_bool x (-1))) (conf ocr_data).

(** [len(extracted_text.split())] *)
Definition word_count (extracted_text : string) : nat :=
  length (Py.split extracted_text).

End scorer.

(* ------------------------------------------------------------------ *)
(** ** app/api/v1/endpoints/ocr.py *)

Module endpoints_ocr.

Import ocr_env.
Local Open Scope string_scope.
Local Open Scope Z_scope.

Definition HTTP_201_CREATED : Z := 201.
Definition HTTP_400_BAD_REQUEST : Z := 400.
Definition HTTP_403_FORBIDDEN : Z := 403.
Definition HTTP_422_UNPROCESSABLE_ENTITY : Z := 422.

(** What can leave the [try] block of a handler: an exception of the
    application, or FastAPI's [HTTPException], which is an [Exception] but
    not a [ValueError]. *)
Inductive raised : Type :=
| Exn (e : exn)
| HTTPException (status_code : Z) (detail : string).

(** What the client gets: the response model with the route's status
    code, or the error response that FastAPI makes of an [HTTPException]
    that leaves the handler. *)
Inductive response : Type :=
| Response (status_code : Z) (body : schemas_ocr.OCRInDB)
| ErrorResponse (status_code : Z) (detail : string).

(** The authenticated user, as far as the handler looks at it, and
    [str()] of an [HTTPException]. *)
Record User : Type := {
  can_process_documents : bool;
  str_HTTPException : Z -> string -> string
}.

(** [isinstance(e, ValueError)] *)
Definition is_ValueError (e : exn) : bool :=
  match e with
  | ValueError _ => true
  | _ => false
  end.

(** [create_ocr_request(ocr_data, current_user)]; [db] holds the document
    that [ocr_data.document_id] names. *)
Definition create_ocr_request (env : Env) (current_user : User)
    (db : models_document.Store) : models_document.Store * response :=
  let '(db, outcome) :=
    (* the [try] block *)
    if negb (can_process_documents current_user) then
      (db, inr (HTTPException HTTP_403_FORBIDDEN
                  "User does not have permission to process documents"))
    else
      match ocr_service.process_document env db with
      | (db, Return ocr_result) => (db, inl ocr_result)
      | (db, Raise e) => (db, inr (Exn e))
      end in
  match outcome with
  | inl ocr_result => (db, Response HTTP_201_CREATED ocr_result)
  | inr (Exn e) =>
      if is_ValueError e then
        (db, ErrorResponse HTTP_400_BAD_REQUEST (str e))
      else
        (db, ErrorResponse HTTP_422_UNPROCESSABLE_ENTITY
               (append "OCR processing failed: " (str e)))
  | inr (HTTPException status_code detail) =>
      (db, ErrorResponse HTTP_422_UNPROCESSABLE_ENTITY
             (append "OCR processing failed: "
                (str_HTTPException current_user status_code detail)))
  end.

End endpoints_ocr.

(* ------------------------------------------------------------------ *)
(** ** app/services/webhook_service.py: registration and update *)

Module webhook_registry.

Import models_webhook webhook_env.
Local Open Scope string_scope.
Local Open Scope Z_scope.

(** The attributes of [webhook_data] that the two functions read;
    [data_metadata] is [webhook_data.metadata.dict()]. *)
Record WebhookCreate : Type := {
  data_event : string;
  data_url : string;
  data_application_id : string;
  data_metadata : json.dict
}.

Record Env : Type := {
  (** the answer to [requests.head(url, ...)] *)
  head : string -> http_result;
  (** [db.commit()] followed by [db.refresh(webhook)] *)
  db_commit : result unit;
  (** the key that the database gives a new row *)
  new_id : string;
  (** [datetime.utcnow()] *)
  utcnow : string
}.

(** One call of [requests.head]. *)
Record Probe : Type := {
  probe_url : string;
  probe_timeout : Z;
  probe_allow_redirects : bool
}.

(** [requests.head(url, timeout=WEBHOOK_TIMEOUT, allow_redirects=True)]
    followed by [response.raise_for_status()]; [w] lists the probes sent
    so far. *)
Definition probe (env : Env) (url : string) (w : list Probe)
    : list Probe * result unit :=
  let w := (w ++ [{| probe_url := url;
                     probe_timeout := webhook_service.WEBHOOK_TIMEOUT;
                     probe_allow_redirects := true |}])%list in
  match head env url with
  | NoResponse error => (w, Raise (RequestException error))
  | Response status_code _ =>
      if (400 <=? status_code) && (status_code <? 600)
      then (w, Raise (RequestException "HTTPError"))
      else (w, Return tt)
  end.

(** The two handlers that close both functions: a [RequestException]
    becomes a [ConnectionError]; anything else rolls the session back and
    is raised again.  Either way nothing has been committed. *)
Definition handler (e : exn) : exn :=
  if is_RequestException e
  then OtherException "ConnectionError"
         (append "Webhook URL validation failed: " (str e))
  else e.

(** [register_webhook(webhook_data, db)]: the probes, the row that is
    persisted under the new key (if any), and the result. *)
Definition register_webhook (env : Env) (webhook_data : WebhookCreate)
    (w : list Probe) : list Probe * option Webhook * result Webhook :=
  match probe env (data_url webhook_data) w with
  | (w, Raise e) => (w, None, Raise (handler e))
  | (w, Return _) =>
      let webhook :=
        webhook_service.register_webhook (new_id env)
          (data_application_id webhook_data) (data_event webhook_data)
          (data_url webhook_data) (data_metadata webhook_data) in
      match db_commit env with
      | Raise e => (w, None, Raise (handler e))
      | Return _ => (w, Some webhook, Return webhook)
      end
  end.

(** [update_webhook(webhook_id, webhook_data, db)]; [row] is what the
    query for [webhook_id] finds, and the second component of the result
    is the row as persisted afterwards. *)
Definition update_webhook (env : Env) (webhook_id : string)
    (webhook_data : WebhookCreate) (w : list Probe) (row : option Webhook)
    : list Probe * option Webhook * result Webhook :=
  match row with
  | None =>
      (w, None,
       Raise (ValueError (append "Webhook " (append webhook_id " not found"))))
  | Some webhook =>
      let '(w, probed) :=
        if negb (String.eqb (data_url webhook_data) (url webhook)) then
          match probe env (data_url webhook_data) w with
          | (w, Raise e) => (w, Raise e)
          | (w, Return _) => (w, Return 0)
          end
        else (w, Return (retry_count webhook)) in
      match probed with
      | Raise e => (w, Some webhook, Raise (handler e))
      | Return retry_count =>
          let updated :=
            {| id := id webhook;
               application_id := application_id webhook;
               event := data_event webhook_data;
               url := data_url webhook_data;
               delivered := delivered webhook;
               retry_count := retry_count;
               status := status webhook;
               metadata := data_metadata webhook_data;
               updated_at := Some (utcnow env);
               delivered_at := delivered_at webhook |} in
          match db_commit env with
          | Raise e => (w, Some webhook, Raise (handler e))
          | Return _ => (w, Some updated, Return updated)
          end
      end
  end.

End webhook_registry.

(* ------------------------------------------------------------------ *)
(** ** Sequences of operations on one webhook *)

Module dispatch.

Import models_webhook webhook_env.

(** Consecutive calls of [trigger_webhook] on the same webhook object, one
    for each payload; what each call returned or raised is collected. *)
Fixpoint trigger_calls (env : Env) (payloads : list json.dict) (w : World)
    (webhook : Webhook) : World * Webhook * list (result bool) :=
  match payloads with
  | [] => (w, webhook, [])
  | payload :: payloads' =>
      let '((w, webhook), r) :=
        webhook_service.trigger_webhook env webhook payload w in
      let '(w, webhook, results) := trigger_calls env payloads' w webhook in
      (w, webhook, r :: results)
  end.

(** The webhook records that the repository can come to hold: a record as
    [register_webhook] stored it, and what [update_webhook],
    [trigger_webhook] and [process_webhook_event] make of such a record.
    Payload validation is the repository's; every other collaborator is
    free at every step. *)
Inductive reachable (lib : utils_validation.Libraries) : Webhook -> Prop :=
| registered (renv : webhook_registry.Env)
    (webhook_data : webhook_registry.WebhookCreate)
    (probes probes' : list webhook_registry.Probe) (webhook : Webhook) :
    webhook_registry.register_webhook renv webhook_data probes
    = (probes', Some webhook, Return webhook) ->
    reachable lib webhook
| updated (renv : webhook_registry.Env) (webhook_id : string)
    (webhook_data : webhook_registry.WebhookCreate)
    (probes probes' : list webhook_registry.Probe)
    (webhook webhook' : Webhook) (r : result Webhook) :
    reachable lib webhook ->
    webhook_registry.update_webhook renv webhook_id webhook_data probes
      (Some webhook)
    = (probes', Some webhook', r) ->
    reachable lib webhook'
| triggered (env : Env) (payload : json.dict) (w w' : World)
    (webhook webhook' : Webhook) (r : result bool) :
    repository.webhook lib env ->
    reachable lib webhook ->
    webhook_service.trigger_webhook env webhook payload w
    = ((w', webhook'), r) ->
    reachable lib webhook'
| processed (env : Env) (retries : nat) (payload : json.dict) (w w' : World)
    (webhook webhook' : Webhook) (b : bool) :
    repository.webhook lib env ->
    reachable lib webhook ->
    webhook_tasks.process_webhook_event env retries payload w (Some webhook)
    = (w', Some webhook', b) ->
    reachable lib webhook'.

End dispatch.

(* ------------------------------------------------------------------ *)
(** ** Concrete inputs *)

Module examples.

Local Open Scope string_scope.
Local Open Scope Q_scope.

(** The end-to-end scenario of the specification. *)
Definition invoice_text : string := "Invoice Total $500".

Definition invoice_data : ocr_env.OCRData :=
  {| ocr_env.text := ["Invoice"; "Total"; "$500"];
     ocr_env.conf := [98; 97; 95; 99] |}.

Definition invoice_image : ocr_env.Image :=
  {| ocr_env.width := 800; ocr_env.height := 600; ocr_env.format := "PNG" |}.

(** Libraries that find nothing wrong with any data. *)
Definition libraries : utils_validation.Libraries :=
  {| utils_validation.create_and_validate :=
       fun _ _ => utils_validation.ModelValid;
     utils_validation.decimal :=
       fun _ => utils_validation.Decimal 3 (Some false) |}.

(** The invoice scenario in the repository, everything outside it at its
    best: the stored file opens as an image, the engine reads the invoice,
    S3 answers at once, the database commits.  Validation and the two
    uploads are the repository's own functions. *)
Definition invoice_env : ocr_env.Env :=
  {| ocr_env.validate_document_data := repository.validate_document libraries;
     ocr_env.open_and_preprocess :=
       fun _ => Return invoice_image;
     ocr_env.image_to_data := fun _ => Return invoice_data;
     ocr_env.upload_document_to_s3 :=
       s3.uploader (s3.disk 0) utils_storage.initial_world;
     ocr_env.task_upload_document_to_s3 :=
       s3.uploader (s3.disk 0) utils_storage.initial_world;
     ocr_env.save_ocr_record := Return tt;
     ocr_env.utcnow_isoformat := "2024-01-01T00:00:00";
     ocr_env.task_id := "task-1" |}.

Definition invoice_document : models_document.Document :=
  models_document.new_document "doc-1" "/uploads/invoice.png".

(** The same, except that the stored file cannot be opened as an
    image. *)
Definition unreadable_env : ocr_env.Env :=
  {| ocr_env.validate_document_data := repository.validate_document libraries;
     ocr_env.open_and_preprocess :=
       fun _ => Raise (OtherException "UnidentifiedImageError"
                         "cannot identify image file");
     ocr_env.image_to_data := fun _ => Return invoice_data;
     ocr_env.upload_document_to_s3 :=
       s3.uploader (s3.disk 0) utils_storage.initial_world;
     ocr_env.task_upload_document_to_s3 :=
       s3.uploader (s3.disk 0) utils_storage.initial_world;
     ocr_env.save_ocr_record := Return tt;
     ocr_env.utcnow_isoformat := "2024-01-01T00:00:00";
     ocr_env.task_id := "task-1" |}.

(** An uploaded document whose file format is not supported. *)
Definition docx_document : models_document.Document :=
  models_document.new_document "doc-2" "/uploads/statement.docx".

(** A registered webhook, an event payload, and the repository's dispatch
    in front of an endpoint: validation is the repository's own function,
    the token is signed. *)
Definition hook : models_webhook.Webhook :=
  webhook_service.register_webhook "wh-1" "app-1" "document.uploaded"
    "https://example.org/hook" [].

Definition event_payload : json.dict :=
  [ ("status", json.Str "processed");
    ("confidence_score", json.Float 0.97) ].

Definition webhook_env (endpoint : nat -> webhook_env.http_result)
    : webhook_env.Env :=
  {| webhook_env.validate_document_data :=
       repository.validate_payload libraries;
     webhook_env.generate_token := fun _ _ => Return "signed-token";
     webhook_env.endpoint := endpoint;
     webhook_env.utcnow := "2024-01-01 00:00:00";
     webhook_env.utcnow_isoformat := "2024-01-01T00:00:00";
     webhook_env.task_id := "task-2";
     webhook_env.task_processing_time := 0.5 |}.

(** An endpoint that never answers, and one that answers 200 to every
    request. *)
Definition dead_endpoint : nat -> webhook_env.http_result :=
  fun _ => webhook_env.NoResponse "connection timed out".

Definition live_endpoint : nat -> webhook_env.http_result :=
  fun _ => webhook_env.Response 200 0.25.

(** The registration of [hook]: the URL answers the probe and the row is
    committed under the key [wh-1]. *)
Definition registry_env : webhook_registry.Env :=
  {| webhook_registry.head := fun _ => webhook_env.Response 200 0.25;
     webhook_registry.db_commit := Return tt;
     webhook_registry.new_id := "wh-1";
     webhook_registry.utcnow := "2024-01-01 00:00:00" |}.

Definition hook_data : webhook_registry.WebhookCreate :=
  {| webhook_registry.data_event := "document.uploaded";
     webhook_registry.data_url := "https://example.org/hook";
     webhook_registry.data_application_id := "app-1";
     webhook_registry.data_metadata := [] |}.

End examples.

(* ------------------------------------------------------------------ *)
(** ** The shape of the identifiers that validation accepts *)

Module formats.

(** A string of [n] ASCII digits. *)
Definition digits (n : nat) (s : string) : Prop :=
  String.length s = n
  /\ Forall (fun c => utils_validation.d c = true) (list_ascii_of_string s).

Definition newline : string := String "010" EmptyString.

(** Nothing, or one newline. *)
Definition end_of_line (tail : string) : Prop :=
  tail = EmptyString \/ tail = newline.

End formats.

(* ================================================================== *)
(** * Theorems *)

(* ------------------------------------------------------------------ *)
(** ** The confidence scorer and the status rule *)

Section Scoring.

Local Open Scope Q_scope.

Lemma Qltb_true (x y : Q) : Py.Qltb x y = true <-> x < y.
Proof.
  unfold Py.Qltb. rewrite negb_true_iff, <- not_true_iff_false, Qle_bool_iff.
  split; [apply Qnot_le_lt | apply Qlt_not_le].
Qed.

Lemma Qltb_false (x y : Q) : Py.Qltb x y = false <-> y <= x.
Proof.
  unfold Py.Qltb. rewrite negb_false_iff. apply Qle_bool_iff.
Qed.

Lemma Qltb_comp (x x' y y' : Q) :
  x == x' -> y == y' -> Py.Qltb x y = Py.Qltb x' y'.
Proof.
  intros Hx Hy. unfold Py.Qltb. now rewrite Hx, Hy.
Qed.

Lemma split_from_length (s : string) :
  forall cur,
    length (Py.split_from cur s)
    = (reference.count_words (match cur with Some _ => true | None => false end) s
       + match cur with Some _ => 1 | None => 0 end)%nat.
Proof.
  induction s as [|ch s IH]; intros cur; simpl.
  - destruct cur; reflexivity.
  - destruct (Py.isspace ch).
    + destruct cur; simpl; rewrite IH; simpl; lia.
    + rewrite IH. destruct cur; simpl; lia.
Qed.

Lemma split_length (t : string) :
  length (Py.split t) = reference.word_count t.
Proof.
  unfold Py.split, reference.word_count.
  rewrite split_from_length. lia.
Qed.

Lemma max_min_clamp (x : Q) :
  Py.max 0.0 (Py.min 1.0 x) == reference.clamp01 x.
Proof.
  unfold Py.max, Py.min, reference.clamp01.
  destruct (Py.Qltb x 1.0) eqn:H1; destruct (Py.Qltb x 0) eqn:H0;
    destruct (Py.Qltb 1 x) eqn:H2;
    repeat match goal with
           | H : Py.Qltb _ _ = true |- _ => apply Qltb_true in H
           | H : Py.Qltb _ _ = false |- _ => apply Qltb_false in H
           end.
  all: try (destruct (Py.Qltb 0.0 x) eqn:H3;
            [apply Qltb_true in H3 | apply Qltb_false in H3]).
  all: try (destruct (Py.Qltb 0.0 1.0) eqn:H4;
            [apply Qltb_true in H4 | apply Qltb_false in H4]).
  all: try lra.
Qed.

Lemma clamp01_comp (x y : Q) :
  x == y -> reference.clamp01 x == reference.clamp01 y.
Proof.
  intros H. unfold reference.clamp01.
  rewrite (Qltb_comp x y 0 0 H (Qeq_refl 0)).
  rewrite (Qltb_comp 1 1 x y (Qeq_refl 1) H).
  destruct (Py.Qltb y 0); [reflexivity|].
  destruct (Py.Qltb 1 y); [reflexivity|exact H].
Qed.

Lemma clamp01_range (x : Q) : 0 <= reference.clamp01 x <= 1.
Proof.
  unfold reference.clamp01.
  destruct (Py.Qltb x 0) eqn:H0; [lra|].
  destruct (Py.Qltb 1 x) eqn:H1; [lra|].
  apply Qltb_false in H0, H1. lra.
Qed.

Lemma round_half_even_comp (x y : Q) :
  x == y -> Py.round_half_even x = Py.round_half_even y.
Proof.
  intros H. unfold Py.round_half_even.
  rewrite (Qfloor_comp x y H).
  assert (E : x - inject_Z (Qfloor y) == y - inject_Z (Qfloor y)) by now rewrite H.
  rewrite (Qltb_comp _ _ (1#2) (1#2) E (Qeq_refl _)).
  rewrite (Qltb_comp (1#2) (1#2) _ _ (Qeq_refl _) E).
  reflexivity.
Qed.

Lemma round_comp (x y : Q) (n : nat) : x == y -> Py.round x n = Py.round y n.
Proof.
  intros H. unfold Py.round.
  set (scale := inject_Z (10 ^ Z.of_nat n)).
  rewrite (round_half_even_comp (x * scale) (y * scale)); [reflexivity|].
  now rewrite H.
Qed.


Lemma calculate_nonempty (ch : ascii) (t : string) (txt : list string) (c : list Q) :
  reference.valid_confidences c <> [] ->
  ocr_service.calculate_confidence_score (String ch t)
    (Some {| ocr_env.text := txt; ocr_env.conf := c |})
  == reference.clamp01
       (reference.base_score (reference.valid_confidences c)
        * reference.mean [reference.length_factor (String ch t);
                          reference.consistency_factor (reference.valid_confidences c)]).
Proof.
  intros Hne. unfold ocr_service.calculate_confidence_score.
  cbn [ocr_env.conf]. fold (reference.valid_confidences c).
  destruct (reference.valid_confidences c) as [|v vs] eqn:E; [congruence|].
  cbn [length Nat.eqb app].
  rewrite max_min_clamp. apply clamp01_comp.
  rewrite split_length.
  unfold reference.base_score, reference.mean, reference.length_factor,
    reference.consistency_factor, Py.np_mean.
  assert (H100 : 100.0 == 100) by reflexivity.
  now rewrite H100.
Qed.

Lemma calculate_before_rounding (t : string) (txt : list string) (c : list Q) :
  ocr_service.calculate_confidence_score t
    (Some {| ocr_env.text := txt; ocr_env.conf := c |})
  == reference.score_before_rounding t c.
Proof.
  destruct t as [|ch t]; [reflexivity|].
  destruct (reference.valid_confidences c) as [|v vs] eqn:E.
  - unfold ocr_service.calculate_confidence_score, reference.score_before_rounding.
    cbn [ocr_env.conf]. fold (reference.valid_confidences c). rewrite E.
    reflexivity.
  - rewrite calculate_nonempty by (rewrite E; discriminate).
    unfold reference.score_before_rounding. rewrite E. reflexivity.
Qed.

Lemma score_before_rounding_range (t : string) (c : list Q) :
  0 <= reference.score_before_rounding t c <= 1.
Proof.
  unfold reference.score_before_rounding.
  destruct t; [lra|].
  destruct (reference.valid_confidences c); [lra|].
  apply clamp01_range.
Qed.

Lemma score_is_rounding (t : string) (c : list Q) :
  reference.score t c == Py.round (reference.score_before_rounding t c) 4.
Proof.
  unfold reference.score, reference.score_before_rounding.
  destruct t; [reflexivity|].
  destruct (reference.valid_confidences c); reflexivity.
Qed.

(** C1 (amended).  [calculate_confidence_score] equals the reference
    definition without its final rounding; the rounding to 4 decimal places
    is done by [OCRBase.validate_confidence_score], which accepts every
    value the scorer returns, so the scorer followed by the validator equals
    the reference definition.  The confidences may be any numbers. *)
Theorem C1_scorer_then_validator_is_reference
    (t : string) (txt : list string) (c : list Q) :
  let s := ocr_service.calculate_confidence_score t
             (Some {| ocr_env.text := txt; ocr_env.conf := c |}) in
  s == reference.score_before_rounding t c
  /\ exists r, schemas_ocr.validate_confidence_score s = Return r
               /\ r == reference.score t c.
Proof.
  intros s. pose proof (calculate_before_rounding t txt c) as Hs. fold s in Hs.
  split; [exact Hs|].
  pose proof (score_before_rounding_range t c) as [H0 H1].
  exists (Py.round s 4). split.
  - unfold schemas_ocr.validate_confidence_score.
    assert (Py.Qltb s schemas_ocr.MIN_CONFIDENCE_SCORE = false) as ->.
    { apply Qltb_false. unfold schemas_ocr.MIN_CONFIDENCE_SCORE. rewrite Hs. lra. }
    assert (Py.Qltb schemas_ocr.MAX_CONFIDENCE_SCORE s = false) as ->.
    { apply Qltb_false. unfold schemas_ocr.MAX_CONFIDENCE_SCORE. rewrite Hs. lra. }
    reflexivity.
  - rewrite score_is_rounding. rewrite (round_comp _ _ 4 Hs). reflexivity.
Qed.

(** C1 as stated fails: on the invoice scenario the scorer returns
    0.923875, which is not rounded to 4 decimal places (the reference
    definition gives 0.9239). *)
Lemma C1_scorer_does_not_round :
  ~ ocr_service.calculate_confidence_score examples.invoice_text
      (Some examples.invoice_data)
    == reference.score examples.invoice_text
         (ocr_env.conf examples.invoice_data).
Proof.
  vm_compute. discriminate.
Qed.


(** C8 (the code departs from it).  The scorer and the status rule give
    what the scenario states: 3 words, base 0.9725, length factor 0.8,
    standard deviation below 10 hence consistency factor 1.1, final score
    0.9725 * 0.95 = 0.923875, within 0.001 of 0.924, for which the status
    rule of [process_document] gives [needs_review] (the validator of the
    OCR record rounds the score to 0.9239, and the rule of [ocr_task]
    agrees).  But no document gets that status.  The OCR record of the
    scenario is refused when [process_document] builds its [OCRInDB],
    because [needs_review] is not among [OCR_STATUS_CHOICES]; and in the
    repository the run does not come that far: [process_document] raises
    at its first statement, the task is retried three times, and the
    document ends [failed] without a score. *)
Theorem C8_invoice_scenario :
  let valid := ocr_env.conf examples.invoice_data in
  let s := ocr_service.calculate_confidence_score examples.invoice_text
             (Some examples.invoice_data) in
  let run := ocr_tasks.run_ocr_task 4 (fun _ => examples.invoice_env) 0
               (models_document.store_of (Some examples.invoice_document)) in
  length (Py.split examples.invoice_text) = 3%nat
  /\ Py.np_mean valid / 100 == 0.9725
  /\ reference.length_factor examples.invoice_text = 0.8
  /\ Py.np_std_lt valid 10 = true
  /\ reference.consistency_factor valid = 1.1
  /\ s == 0.9725 * ((0.8 + 1.1) / 2)
  /\ s == 0.923875
  /\ 0.923 < s < 0.925
  /\ ocr_service.determine_status s = "needs_review"%string
  /\ schemas_ocr.validate_confidence_score s = Return 0.9239
  /\ ocr_tasks.status_of_score 0.9239 = "needs_review"%string
  /\ (exists ocr_create,
        schemas_ocr.new_OCRCreate "doc-1" examples.invoice_text s
          (ocr_service.ocr_record_metadata examples.invoice_data
             examples.invoice_image)
        = Return ocr_create
        /\ exists e,
             schemas_ocr_status.new_OCRInDB
               (schemas_ocr.set_status (ocr_service.determine_status s)
                  ocr_create)
             = Raise e)
  /\ snd run = Some (Raise repository.processing_failed)
  /\ (exists final,
        models_document.row (fst run) = Some final
        /\ models_document.status final = "failed"%string
        /\ models_document.confidence_score final = None).
Proof.
  cbv zeta.
  repeat match goal with |- _ /\ _ => split end;
    try (vm_compute; reflexivity); try (vm_compute; split; reflexivity).
  - eexists. split; [vm_compute; reflexivity|].
    eexists. vm_compute. reflexivity.
  - eexists. split; [vm_compute; reflexivity|]. split; reflexivity.
Qed.

End Scoring.

(* ------------------------------------------------------------------ *)
(** ** Rounding to four decimal places *)

Section Rounding.
Local Open Scope Q_scope.

Lemma floor_bounds (x : Q) :
  inject_Z (Qfloor x) <= x /\ x < inject_Z (Qfloor x) + 1.
Proof.
  split; [apply Qfloor_le|].
  pose proof (Qlt_floor x) as H. rewrite inject_Z_plus in H. exact H.
Qed.

(** Rounding to the nearest integer is at most one half away. *)
Lemma round_half_even_near (x : Q) :
  x - (1 # 2) <= inject_Z (Py.round_half_even x) <= x + (1 # 2).
Proof.
  destruct (floor_bounds x) as [Hl Hu].
  unfold Py.round_half_even.
  set (f := Qfloor x) in *.
  destruct (Py.Qltb (x - inject_Z f) (1 # 2)) eqn:E1.
  { apply Qltb_true in E1. lra. }
  apply Qltb_false in E1.
  destruct (Py.Qltb (1 # 2) (x - inject_Z f)) eqn:E2.
  { rewrite inject_Z_plus. change (inject_Z 1) with 1. lra. }
  apply Qltb_false in E2.
  destruct (Z.even f); [lra|].
  rewrite inject_Z_plus. change (inject_Z 1) with 1. lra.
Qed.

Lemma inject_Z_le_floor (k : Z) (x : Q) :
  inject_Z k <= x -> (k <= Qfloor x)%Z.
Proof.
  intros H. rewrite <- (Qfloor_Z k). apply Qfloor_resp_le. exact H.
Qed.

Lemma floor_lt_inject_Z (k : Z) (x : Q) :
  x < inject_Z k -> (Qfloor x < k)%Z.
Proof.
  intros H. destruct (floor_bounds x) as [Hl _].
  assert (Hq : inject_Z (Qfloor x) < inject_Z k) by lra.
  rewrite <- Zlt_Qlt in Hq. exact Hq.
Qed.

(** An integer at or below [x] is at or below the rounding of [x]. *)
Lemma round_half_even_ge (k : Z) (x : Q) :
  inject_Z k <= x -> (k <= Py.round_half_even x)%Z.
Proof.
  intros H. apply inject_Z_le_floor in H.
  unfold Py.round_half_even.
  destruct (Py.Qltb _ _); [lia|].
  destruct (Py.Qltb _ _); [lia|].
  destruct (Z.even _); lia.
Qed.

Lemma round_half_even_le (k : Z) (x : Q) :
  x <= inject_Z k -> (Py.round_half_even x <= k)%Z.
Proof.
  intros H.
  destruct (Qlt_le_dec x (inject_Z k)) as [Hlt|Hge].
  - apply floor_lt_inject_Z in Hlt.
    unfold Py.round_half_even.
    destruct (Py.Qltb _ _); [lia|].
    destruct (Py.Qltb _ _); [lia|].
    destruct (Z.even _); lia.
  - assert (E : x == inject_Z k) by lra.
    unfold Py.round_half_even.
    rewrite (Qfloor_comp _ _ E), Qfloor_Z.
    assert (Py.Qltb (x - inject_Z k) (1 # 2) = true) as ->.
    { apply Qltb_true. lra. }
    lia.
Qed.

(** For an even integer [k], the rounding of [x] reaches [k] exactly when
    [x] is at least [k - 1/2]. *)
Lemma round_half_even_even_threshold (k : Z) (x : Q) :
  Z.even k = true ->
  ((k <= Py.round_half_even x)%Z <-> inject_Z k - (1 # 2) <= x).
Proof.
  intros Hk. split.
  - intros H. pose proof (round_half_even_near x) as [_ Hn].
    rewrite Zle_Qle in H. lra.
  - intros H.
    destruct (Qlt_le_dec x (inject_Z k)) as [Hlt|Hge];
      [|apply round_half_even_ge; exact Hge].
    assert (Hf : Qfloor x = (k - 1)%Z).
    { pose proof (floor_lt_inject_Z k x Hlt).
      assert (inject_Z (k - 1) <= x).
      { unfold Zminus. rewrite inject_Z_plus.
        change (inject_Z (- (1))) with (- (1)). lra. }
      pose proof (inject_Z_le_floor (k - 1) x H1). lia. }
    unfold Py.round_half_even. rewrite Hf.
    assert (Hi : inject_Z (k - 1) == inject_Z k - 1).
    { unfold Zminus. rewrite inject_Z_plus.
      change (inject_Z (- (1))) with (- (1)). ring. }
    destruct (Py.Qltb (x - inject_Z (k - 1)) (1 # 2)) eqn:E1.
    { apply Qltb_true in E1. lra. }
    destruct (Py.Qltb (1 # 2) (x - inject_Z (k - 1))); [lia|].
    assert (Z.even (k - 1) = false) as ->; [|lia].
    rewrite Z.even_sub, Hk. reflexivity.
Qed.


Lemma round4_unfold (s : Q) :
  Py.round s 4 = inject_Z (Py.round_half_even (s * 10000)) / 10000.
Proof. reflexivity. Qed.

(** [round(value, 4)] is within half a unit of the fourth decimal place. *)
Lemma round4_near (s : Q) :
  s - (1 # 20000) <= Py.round s 4 <= s + (1 # 20000).
Proof.
  rewrite round4_unfold.
  pose proof (round_half_even_near (s * 10000)) as [Hl Hu].
  set (n := inject_Z (Py.round_half_even (s * 10000))) in *.
  split.
  - apply Qle_shift_div_l; [reflexivity|]. lra.
  - apply Qle_shift_div_r; [reflexivity|]. lra.
Qed.

Lemma round4_range (s : Q) : 0 <= s <= 1 -> 0 <= Py.round s 4 <= 1.
Proof.
  intros [H0 H1]. rewrite round4_unfold.
  assert (Hl : (0 <= Py.round_half_even (s * 10000))%Z).
  { apply round_half_even_ge. change (inject_Z 0) with 0. lra. }
  assert (Hu : (Py.round_half_even (s * 10000) <= 10000)%Z).
  { apply round_half_even_le. change (inject_Z 10000) with 10000. lra. }
  rewrite Zle_Qle in Hl, Hu.
  change (inject_Z 0) with 0 in Hl. change (inject_Z 10000) with 10000 in Hu.
  split.
  - apply Qle_shift_div_l; [reflexivity|]. lra.
  - apply Qle_shift_div_r; [reflexivity|]. lra.
Qed.

Lemma round_half_even_int (n : Z) (x : Q) :
  x == inject_Z n -> Py.round_half_even x = n.
Proof.
  intros E. unfold Py.round_half_even.
  rewrite (Qfloor_comp _ _ E), Qfloor_Z.
  assert (Py.Qltb (x - inject_Z n) (1 # 2) = true) as ->; [|reflexivity].
  apply Qltb_true. lra.
Qed.

Lemma round4_idempotent (s : Q) : Py.round (Py.round s 4) 4 = Py.round s 4.
Proof.
  rewrite (round4_unfold (Py.round s 4)).
  rewrite (round_half_even_int (Py.round_half_even (s * 10000)));
    [reflexivity|].
  rewrite round4_unfold. field.
Qed.

(** The rounded score reaches a threshold of an even number [k] of
    ten-thousandths exactly when the score is at least [k - 1/2]
    ten-thousandths. *)
Lemma round4_threshold (k : Z) (s : Q) :
  Z.even k = true ->
  (inject_Z k / 10000 <= Py.round s 4
   <-> (inject_Z k - (1 # 2)) / 10000 <= s).
Proof.
  intros Hk. rewrite round4_unfold.
  pose proof (round_half_even_even_threshold k (s * 10000) Hk) as H.
  rewrite Zle_Qle in H.
  set (n := inject_Z (Py.round_half_even (s * 10000))) in *.
  assert (E : forall a b : Q, a / 10000 <= b <-> a <= b * 10000).
  { intros a b. split; intros Hab.
    - setoid_replace a with (a / 10000 * 10000) by field.
      apply Qmult_le_compat_r; [exact Hab | discriminate].
    - apply Qle_shift_div_r; [reflexivity|]. exact Hab. }
  rewrite E, E.
  setoid_replace (n / 10000 * 10000) with n by field.
  rewrite H. reflexivity.
Qed.

Lemma validate_confidence_score_accepts (v : Q) :
  0 <= v <= 1 ->
  schemas_ocr.validate_confidence_score v = Return (Py.round v 4).
Proof.
  intros [H0 H1]. unfold schemas_ocr.validate_confidence_score.
  assert (Py.Qltb v schemas_ocr.MIN_CONFIDENCE_SCORE = false) as ->.
  { apply Qltb_false. unfold schemas_ocr.MIN_CONFIDENCE_SCORE. lra. }
  assert (Py.Qltb schemas_ocr.MAX_CONFIDENCE_SCORE v = false) as ->.
  { apply Qltb_false. unfold schemas_ocr.MAX_CONFIDENCE_SCORE. lra. }
  reflexivity.
Qed.

End Rounding.

(* ------------------------------------------------------------------ *)
(** ** The OCR task and the document store *)

Section DocumentPipeline.

Import models_document ocr_env properties.

Lemma process_document_unsupported (env : Env) (db : Store) (d : Document) :
  row db = Some d -> unsupported d ->
  exists e, ocr_service.process_document env db = (db, Raise e)
            /\ is_CustomException e = true.
Proof.
  intros Hrow Hext. unfold ocr_service.process_document. rewrite Hrow.
  unfold ocr_service.process_document_body.
  destruct (validate_document_data env d) as [[]|e0]; cbn [ocr_service.bind].
  - unfold unsupported in Hext. rewrite Hext. cbn.
    eexists. split; reflexivity.
  - cbn. eexists. split; [reflexivity|].
    unfold ocr_service.reraise. destruct e0; reflexivity.
Qed.

Lemma custom_not_ValueError (e : exn) :
  is_CustomException e = true -> is_ValueError_or_KeyError e = false.
Proof. destruct e; simpl; congruence. Qed.

Lemma unsupported_format_retried (env : Env) (retries : nat) (d : Document) :
  unsupported d -> (retries < ocr_tasks.MAX_RETRIES)%nat ->
  exists db d',
    ocr_tasks.ocr_task env retries (store_of (Some d))
    = (db, ocr_tasks.Retrying (60 * 2 ^ Z.of_nat retries))
    /\ row db = Some d'
    /\ status d' = "retry_pending"%string
    /\ confidence_score d' = confidence_score d.
Proof.
  intros Hext Hlt.
  unfold ocr_tasks.ocr_task, ocr_tasks.ocr_task_try.
  cbn [row store_of].
  set (d1 := ocr_tasks.with_status_metadata _ _ d).
  set (db1 := commit d1 _).
  assert (Hext1 : unsupported d1) by exact Hext.
  destruct (process_document_unsupported env db1 d1 eq_refl Hext1) as (e & -> & He).
  rewrite (custom_not_ValueError e He).
  cbn [row db1 commit].
  unfold ocr_tasks.self_retry.
  assert ((ocr_tasks.MAX_RETRIES <? retries + 1)%nat = false) as ->
    by (apply Nat.ltb_ge; lia).
  do 2 eexists. split; [reflexivity|]. repeat split.
Qed.

Lemma last_cons_default {A : Type} (l : list A) (a p q : A) :
  last (a :: l) p = last (a :: l) q.
Proof.
  revert a. induction l as [|b l IH]; intros a; [reflexivity|].
  change (last (b :: l) p = last (b :: l) q). apply IH.
Qed.

Lemma score_history_app (p d : Document) (l : list Document) :
  score_history p l -> score_step (last l p) d -> score_history p (l ++ [d]).
Proof.
  revert p. induction l as [|x l IH]; intros p Hl Hd; simpl in *.
  - split; [exact Hd|exact I].
  - destruct Hl as [Hx Hl]. split; [exact Hx|].
    apply IH; [exact Hl|].
    destruct l as [|y l]; [exact Hd|].
    rewrite (last_cons_default l y x p). exact Hd.
Qed.

Lemma consistent_commit (first cur d : Document) (db : Store) :
  consistent first db -> row db = Some cur -> score_step cur d ->
  consistent first (commit d db).
Proof.
  intros [Hrow Hh] Hcur Hd. split; cbn [row commits commit].
  - now rewrite last_last.
  - apply score_history_app; [exact Hh|].
    rewrite Hrow in Hcur. injection Hcur as ->. exact Hd.
Qed.

Lemma status_of_score_terminal (s : Q) :
  ocr_tasks.terminal (ocr_tasks.status_of_score s) = true.
Proof.
  unfold ocr_tasks.status_of_score.
  destruct (Qle_bool _ _); [reflexivity|].
  destruct (Qle_bool _ _); reflexivity.
Qed.

(** What a run of the body of [process_document] that returns has done:
    the upload of the file at the document's path returned [u]; the
    document now holds [u] as its path, the score and the status that the
    score gives; the OCR record holds the score rounded. *)
Lemma process_document_body_return (env : Env) (d d' : Document)
    (rec : schemas_ocr.OCRInDB) :
  ocr_service.process_document_body env d = Return (d', rec) ->
  exists u sc,
    upload_document_to_s3 env (storage_path d) (id d) = Return u
    /\ id d' = id d /\ storage_path d' = u
    /\ status d' = ocr_service.determine_status sc
    /\ confidence_score d' = Some sc
    /\ schemas_ocr.confidence_score rec = Py.round sc 4
    /\ (0 <= sc <= 1)%Q.
Proof.
  unfold ocr_service.process_document_body.
  destruct (validate_document_data env d) as [[]|e]; cbn [ocr_service.bind];
    [|discriminate].
  destruct (negb _); [discriminate|].
  destruct (open_and_preprocess env _) as [image|e];
    cbn [ocr_service.bind ocr_service.try_except]; [|discriminate].
  destruct (image_to_data env image) as [data|e];
    cbn [ocr_service.bind ocr_service.try_except]; [|discriminate].
  set (sc := ocr_service.calculate_confidence_score _ _).
  assert (Hsc : (0 <= sc <= 1)%Q).
  { unfold sc. destruct data as [txt c].
    rewrite calculate_before_rounding. apply score_before_rounding_range. }
  unfold schemas_ocr.new_OCRCreate at 1.
  destruct (Py.join " " (text data)) as [|ch t] eqn:Et; [discriminate|].
  rewrite (validate_confidence_score_accepts sc Hsc).
  cbn [ocr_service.bind].
  destruct (upload_document_to_s3 env _ _) as [u|e] eqn:Hu;
    cbn [ocr_service.bind]; [|discriminate].
  destruct (metadata d) as [m|]; cbn [ocr_service.bind]; [|discriminate].
  unfold schemas_ocr_status.new_OCRInDB, schemas_ocr.new_OCRCreate.
  cbn [schemas_ocr.set_status schemas_ocr.document_id
       schemas_ocr.extracted_text schemas_ocr.confidence_score
       schemas_ocr.status schemas_ocr.metadata].
  rewrite (validate_confidence_score_accepts (Py.round sc 4))
    by (apply round4_range; exact Hsc).
  rewrite round4_idempotent.
  destruct (schemas_ocr_status.validate_status _) as [st|e];
    cbn [ocr_service.bind]; [|discriminate].
  destruct (save_ocr_record env) as [[]|e]; cbn [ocr_service.bind];
    [|discriminate].
  intros H. injection H as <- <-.
  exists u, sc. split; [reflexivity|]. cbn. repeat split; apply Hsc.
Qed.

(** What [process_document] does to the store: nothing when it raises;
    otherwise one commit of a document scored [sc] with the status of
    [sc], the OCR record holding [sc] rounded. *)
Lemma process_document_cases (env : Env) (db : Store) :
  (exists e, ocr_service.process_document env db = (db, Raise e))
  \/ (exists d d' rec sc,
        row db = Some d
        /\ ocr_service.process_document env db = (commit d' db, Return rec)
        /\ status d' = ocr_service.determine_status sc
        /\ confidence_score d' = Some sc
        /\ schemas_ocr.confidence_score rec = Py.round sc 4).
Proof.
  unfold ocr_service.process_document.
  destruct (row db) as [d|] eqn:Hrow; [|left; eexists; reflexivity].
  destruct (ocr_service.process_document_body env d) as [[d' rec]|e] eqn:Hb;
    cbn [ocr_service.try_except]; [|left; eexists; reflexivity].
  destruct (process_document_body_return env d d' rec Hb)
    as (u & sc & _ & _ & _ & Hst & Hsc & Hrec & _).
  right. exists d, d', rec, sc. repeat split; assumption.
Qed.

Lemma terminal_persisted (st : string) :
  ocr_tasks.terminal st = true -> Py.str_in st persisted_statuses = true.
Proof.
  unfold ocr_tasks.terminal, persisted_statuses, spec_statuses, Py.str_in.
  cbn [existsb app]. intros H.
  repeat (apply orb_true_iff in H; destruct H as [H|H]);
    try discriminate; rewrite H; repeat rewrite orb_true_r; reflexivity.
Qed.

Lemma step_unchanged (cur : Document) (st : string) (m : json.dict) :
  Py.str_in st persisted_statuses = true ->
  score_step cur (ocr_tasks.with_status_metadata st m cur).
Proof. intros H. split; [left; reflexivity|exact H]. Qed.

Lemma step_scored (cur d : Document) (q : Q) :
  status d = ocr_tasks.status_of_score q -> confidence_score d = Some q ->
  score_step cur d.
Proof.
  intros Ht Hs. split; [right; exists q; split; [exact Hs|exact Ht]|].
  apply terminal_persisted. rewrite Ht. apply status_of_score_terminal.
Qed.

Lemma ocr_task_consistent (first : Document) (env : Env) (retries : nat)
    (db : Store) :
  consistent first db ->
  consistent first (fst (ocr_tasks.ocr_task env retries db)).
Proof.
  intros Hc. unfold ocr_tasks.ocr_task, ocr_tasks.ocr_task_try.
  destruct (row db) as [d|] eqn:Hrow; [|exact Hc].
  set (d1 := ocr_tasks.with_status_metadata "processing" _ d).
  assert (Hc1 : consistent first (commit d1 db)).
  { apply (consistent_commit first d); [exact Hc|exact Hrow|].
    now apply step_unchanged. }
  assert (Hrow1 : row (commit d1 db) = Some d1) by reflexivity.
  revert Hc1 Hrow1. generalize (commit d1 db) as db1. intros db1 Hc1 Hrow1.
  destruct (process_document_cases env db1)
    as [(e & ->)|(d0 & d' & rec & sc & Hr & -> & Hst & Hsc & Hrec)].
  - destruct (is_ValueError_or_KeyError e); [exact Hc1|].
    rewrite Hrow1. cbn [fst].
    apply (consistent_commit first d1); [exact Hc1|exact Hrow1|].
    now apply step_unchanged.
  - assert (Hc2 : consistent first (commit d' db1)).
    { apply (consistent_commit first d0); [exact Hc1|exact Hr|].
      apply (step_scored d0 d' sc); [|exact Hsc].
      rewrite Hst. reflexivity. }
    cbn [row commit].
    destruct (task_upload_document_to_s3 env _ _) as [s3|e].
    + cbn [fst].
      apply (consistent_commit first d'); [exact Hc2|reflexivity|].
      eapply step_scored; reflexivity.
    + destruct (is_ValueError_or_KeyError e); [exact Hc2|].
      cbn [fst row commit].
      apply (consistent_commit first d'); [exact Hc2|reflexivity|].
      now apply step_unchanged.
Qed.

Lemma ocr_task_succeeded (env : Env) (retries : nat) (db db' : Store)
    (r : ocr_tasks.TaskResult) :
  ocr_tasks.ocr_task env retries db = (db', ocr_tasks.Succeeded r) ->
  exists d,
    row db' = Some d
    /\ status d = ocr_tasks.status_of_score (ocr_tasks.result_confidence_score r)
    /\ ocr_tasks.result_status r = status d
    /\ confidence_score d = Some (ocr_tasks.result_confidence_score r).
Proof.
  unfold ocr_tasks.ocr_task, ocr_tasks.ocr_task_try.
  destruct (row db) as [d|] eqn:Hrow.
  2:{ cbn. discriminate. }
  destruct (ocr_service.process_document env _) as [db1 [rec|e]].
  2:{ destruct (is_ValueError_or_KeyError e); [discriminate|].
      unfold ocr_tasks.self_retry. destruct (_ <? _)%nat; discriminate. }
  destruct (task_upload_document_to_s3 env _ _) as [s3|e].
  - intros H. injection H as <- <-. eexists. split; [reflexivity|].
    cbn. repeat split.
  - destruct (is_ValueError_or_KeyError e); [discriminate|].
    unfold ocr_tasks.self_retry. destruct (_ <? _)%nat; discriminate.
Qed.

Lemma on_failure_consistent (first : Document) (env : Env) (exc : exn)
    (db : Store) :
  consistent first db -> consistent first (ocr_tasks.on_failure env exc db).
Proof.
  intros Hc. unfold ocr_tasks.on_failure.
  destruct (row db) as [d|] eqn:Hrow; [|exact Hc].
  apply (consistent_commit first d); [exact Hc|exact Hrow|].
  now apply step_unchanged.
Qed.

Lemma run_ocr_task_consistent (first : Document) (envs : nat -> Env)
    (fuel : nat) :
  forall retries db,
    consistent first db ->
    consistent first (fst (ocr_tasks.run_ocr_task fuel envs retries db)).
Proof.
  induction fuel as [|fuel IH]; intros retries db Hc; [exact Hc|].
  cbn [ocr_tasks.run_ocr_task].
  pose proof (ocr_task_consistent first (envs retries) retries db Hc) as H1.
  destruct (ocr_tasks.ocr_task (envs retries) retries db) as [db1 [r|exc|c]];
    cbn [fst] in *.
  - exact H1.
  - now apply on_failure_consistent.
  - now apply IH.
Qed.

Lemma history_score (p : Document) (l : list Document) :
  score_history p l -> score_written_with_terminal p l.
Proof.
  revert p. induction l as [|d l IH]; intros p H; [exact I|].
  destruct H as [[Hs _] Hl]. split; [|now apply IH].
  destruct Hs as [Hs|(s & Hs & Hst)]; [left; exact Hs|right].
  split; [rewrite Hst; apply status_of_score_terminal|congruence].
Qed.


Lemma history_statuses (p : Document) (l : list Document) :
  score_history p l ->
  Forall (fun d => Py.str_in (status d) persisted_statuses = true) l.
Proof.
  revert p. induction l as [|d l IH]; intros p H; [constructor|].
  destruct H as [[_ Hs] Hl]. constructor; [exact Hs|now apply (IH d)].
Qed.

Lemma consistent_store_of (d0 : Document) : consistent d0 (store_of (Some d0)).
Proof. split; [reflexivity|exact I]. Qed.

Lemma ocr_task_retrying (env : Env) (retries : nat) (db db' : Store) (c : Z) :
  ocr_tasks.ocr_task env retries db = (db', ocr_tasks.Retrying c) ->
  (retries < ocr_tasks.MAX_RETRIES)%nat.
Proof.
  unfold ocr_tasks.ocr_task.
  destruct (ocr_tasks.ocr_task_try env db) as [db1 [r|e]]; [discriminate|].
  destruct (is_ValueError_or_KeyError e); [discriminate|].
  unfold ocr_tasks.self_retry.
  destruct (_ <? _)%nat eqn:H; [discriminate|].
  apply Nat.ltb_ge in H. intros _. lia.
Qed.

(** The worker never needs more than [MAX_RETRIES + 1] executions. *)
Lemma run_ocr_task_terminates (envs : nat -> Env) (fuel : nat) :
  forall retries db,
    (ocr_tasks.MAX_RETRIES - retries < fuel)%nat ->
    snd (ocr_tasks.run_ocr_task fuel envs retries db) <> None.
Proof.
  induction fuel as [|fuel IH]; intros retries db Hf; [lia|].
  cbn [ocr_tasks.run_ocr_task].
  destruct (ocr_tasks.ocr_task (envs retries) retries db)
    as [db1 [r|exc|c]] eqn:E; cbn [snd]; try discriminate.
  apply ocr_task_retrying in E. apply IH. lia.
Qed.

Lemma run_ocr_task_result (first : Document) (envs : nat -> Env) (fuel : nat) :
  forall retries db,
    consistent first db ->
    let run := ocr_tasks.run_ocr_task fuel envs retries db in
    (forall r, snd run = Some (Return r) ->
       exists d, row (fst run) = Some d
                 /\ ocr_tasks.terminal (status d) = true
                 /\ confidence_score d
                    = Some (ocr_tasks.result_confidence_score r))
    /\ (forall exc, snd run = Some (Raise exc) ->
         exists d, row (fst run) = Some d /\ status d = "failed"%string).
Proof.
  induction fuel as [|fuel IH]; intros retries db Hc; cbn zeta.
  - cbn. split; intros; discriminate.
  - cbn [ocr_tasks.run_ocr_task].
    pose proof (ocr_task_consistent first (envs retries) retries db Hc) as H1.
    destruct (ocr_tasks.ocr_task (envs retries) retries db)
      as [db1 [r|exc|c]] eqn:E; cbn [fst snd] in *.
    + split; [|intros; discriminate].
      intros r' Hr. injection Hr as <-.
      destruct (ocr_task_succeeded _ _ _ _ _ E) as (d & Hrow & Hst & _ & Hsc).
      exists d. split; [exact Hrow|]. split; [|exact Hsc].
      rewrite Hst. apply status_of_score_terminal.
    + split; [intros; discriminate|].
      intros exc' _. unfold ocr_tasks.on_failure.
      destruct H1 as [Hrow _]. rewrite Hrow.
      eexists. split; reflexivity.
    + apply (IH (S retries) db1 H1).
Qed.



(** C5 (the code departs from it).  A document whose file format is not
    supported is not failed at once: whatever the collaborators do, the
    first execution of [ocr_task] stores the status [retry_pending] and
    re-queues itself with a countdown of 60 seconds, and a complete run
    executes the task four times before [on_failure] stores [failed].
    Only the missing document fails without a retry (a [ValueError]), and
    then there is no document on which to record anything. *)
Theorem C5_unsupported_format_is_retried (env : Env) :
  (exists db d,
     ocr_tasks.ocr_task env 0 (store_of (Some examples.docx_document))
     = (db, ocr_tasks.Retrying 60)
     /\ row db = Some d
     /\ status d = "retry_pending"%string)
  /\ ocr_tasks.ocr_task env 0 (store_of None)
     = (store_of None, ocr_tasks.Failed (ValueError "Document not found"))
  /\ ocr_tasks.on_failure env (ValueError "Document not found") (store_of None)
     = store_of None
  /\ map status
       (commits
          (fst (ocr_tasks.run_ocr_task 4 (fun _ => examples.invoice_env) 0
                  (store_of (Some examples.docx_document)))))
     = ["processing"; "retry_pending"; "processing"; "retry_pending";
        "processing"; "retry_pending"; "processing"; "retry_pending";
        "failed"]%string.
Proof.
  split; [|repeat split].
  destruct (unsupported_format_retried env 0 examples.docx_document)
    as (db & d & H & Hrow & Hst & _); [reflexivity|unfold ocr_tasks.MAX_RETRIES; lia|].
  exists db, d. repeat split; assumption.
Qed.

(** C6 (amended).  Every commit of a run of the task either leaves
    [confidence_score] as it was or stores a non-null score together with
    a status among processed, needs_review and failed, so no path sets the
    score while the status is pending or processing; a run ends within
    [MAX_RETRIES + 1] executions; a run that returns leaves such a status
    and the returned score; a run that fails leaves the status [failed],
    with whatever score the document had. *)
Theorem C6_score_written_only_with_terminal_status
    (fuel : nat) (envs : nat -> Env) (d0 : Document) :
  let run := ocr_tasks.run_ocr_task fuel envs 0 (store_of (Some d0)) in
  score_written_with_terminal d0 (commits (fst run))
  /\ ((ocr_tasks.MAX_RETRIES < fuel)%nat -> snd run <> None)
  /\ (forall r, snd run = Some (Return r) ->
       exists d, row (fst run) = Some d
                 /\ ocr_tasks.terminal (status d) = true
                 /\ confidence_score d
                    = Some (ocr_tasks.result_confidence_score r))
  /\ (forall exc, snd run = Some (Raise exc) ->
       exists d, row (fst run) = Some d /\ status d = "failed"%string).
Proof.
  cbn zeta. split; [|split].
  - apply history_score.
    apply (run_ocr_task_consistent d0 envs fuel 0 _ (consistent_store_of d0)).
  - intros Hf. apply run_ocr_task_terminates. lia.
  - apply (run_ocr_task_result d0 envs fuel 0 _ (consistent_store_of d0)).
Qed.

(** The invoice scenario in the repository: the run ends, and it ends
    with the status [failed]. *)
Lemma C6_score_written_only_with_terminal_status_witness :
  snd (ocr_tasks.run_ocr_task 4 (fun _ => examples.invoice_env) 0
         (store_of (Some examples.invoice_document))) <> None
  /\ exists d,
       row (fst (ocr_tasks.run_ocr_task 4 (fun _ => examples.invoice_env) 0
                   (store_of (Some examples.invoice_document)))) = Some d
       /\ status d = "failed"%string.
Proof.
  destruct (C6_score_written_only_with_terminal_status 4
              (fun _ => examples.invoice_env) examples.invoice_document)
    as (_ & Hends & _ & Hfails).
  split.
  - apply Hends. unfold ocr_tasks.MAX_RETRIES. lia.
  - exact (Hfails _ eq_refl).
Defined.

(** C6 as stated fails: when the stored file cannot be opened as an image,
    the run ends, after its retries, with the status [failed] and no
    score. *)
Lemma C6_failed_without_score :
  ~ (forall d,
       In d (commits
               (fst (ocr_tasks.run_ocr_task 4
                       (fun _ => examples.unreadable_env) 0
                       (store_of (Some examples.invoice_document))))) ->
       score_iff_terminal d).
Proof.
  intros H.
  set (run := ocr_tasks.run_ocr_task 4 (fun _ => examples.unreadable_env) 0
                (store_of (Some examples.invoice_document))) in H.
  specialize (H (last (commits (fst run)) examples.invoice_document)).
  assert (Hin : In (last (commits (fst run)) examples.invoice_document)
                   (commits (fst run))).
  { vm_compute. do 8 right. left. reflexivity. }
  destruct (H Hin) as [_ Hback].
  apply Hback; vm_compute; reflexivity.
Qed.

(** C7 (amended).  Every status that a run of the task stores is one of
    pending, processing, processed, needs_review, failed and
    retry_pending. *)
Theorem C7_persisted_statuses (fuel : nat) (envs : nat -> Env)
    (retries : nat) (d0 : Document) :
  Forall (fun d => Py.str_in (status d) persisted_statuses = true)
    (commits (fst (ocr_tasks.run_ocr_task fuel envs retries
                     (store_of (Some d0))))).
Proof.
  apply (history_statuses d0).
  apply (run_ocr_task_consistent d0 envs fuel retries _ (consistent_store_of d0)).
Qed.

(** C7 as stated fails: when the stored file cannot be opened as an image,
    the first execution stores [retry_pending], which is outside the
    enumeration. *)
Lemma C7_retry_pending_is_persisted :
  ~ Forall (fun d => Py.str_in (status d) spec_statuses = true)
      (commits
         (fst (ocr_tasks.ocr_task examples.unreadable_env 0
                 (store_of (Some examples.invoice_document))))).
Proof.
  intros H. vm_compute in H.
  inversion H as [|? ? _ H2]. inversion H2 as [|? ? H3 _]. discriminate.
Qed.

End DocumentPipeline.

(* ------------------------------------------------------------------ *)
(** ** Webhook delivery *)

Section WebhookDelivery.

Import models_webhook webhook_env wire.
Local Open Scope Z_scope.

Lemma get_set (k : string) (v : json.value) (d : json.dict) :
  json.get k (json.set k v d) = Some v.
Proof.
  induction d as [|[k' v'] d IH]; cbn [json.set json.get].
  - now rewrite String.eqb_refl.
  - destruct (String.eqb k k') eqn:E; cbn [json.get]; rewrite ?E.
    + now rewrite String.eqb_refl.
    + exact IH.
Qed.

Section Delivery.

Variable env : Env.
Variable payload : json.dict.

(** One attempt: what it sends, and what it leaves of the webhook. *)
Lemma attempt_sends (w : World) (webhook : Webhook) :
  exists new webhook' r,
    webhook_service.trigger_webhook_attempt env payload (w, webhook)
    = (({| requests := requests w ++ new; slept := slept w;
           requeued := requeued w |}, webhook'), r)
    /\ same_identity webhook webhook'
    /\ Forall (wire_request env webhook payload) new
    /\ (validate_document_data env payload (event webhook) = Return tt ->
        (exists token, generate_token env (id webhook)
                         [("event"%string, json.Str (event webhook))]
                       = Return token) ->
        length new = 1%nat).
Proof.
  destruct w as [rq sl rqd]. cbn [requests slept requeued].
  unfold webhook_service.trigger_webhook_attempt, webhook_service.send.
  destruct (validate_document_data env payload (event webhook)) as [[]|e] eqn:Hv.
  2:{ destruct (is_RequestException e); [destruct (_ <? _)|];
        exists []; do 2 eexists;
        (split; [rewrite app_nil_r; reflexivity|]);
        (split; [repeat split|]); (split; [constructor|]);
        intros; discriminate. }
  destruct (generate_token env (id webhook) _) as [token|e] eqn:Ht.
  2:{ destruct (is_RequestException e); [destruct (_ <? _)|];
        exists []; do 2 eexists;
        (split; [rewrite app_nil_r; reflexivity|]);
        (split; [repeat split|]); (split; [constructor|]);
        intros _ [t Hc]; discriminate. }
  set (req := {| request_url := _ |}).
  assert (Hreq : wire_request env webhook payload req).
  { split; [reflexivity|]. split.
    - repeat split. eexists. reflexivity.
    - exists token. split; [exact Ht|reflexivity]. }
  unfold webhook_service.post. cbn [requests].
  destruct (endpoint env (length rq)) as [code elapsed|err];
    [destruct ((400 <=? code) && (code <? 600))|];
    cbn [is_RequestException]; try destruct (_ <? _);
    exists [req]; do 2 eexists;
    (split; [reflexivity|]);
    (split; [repeat split|]);
    (split; [constructor; [exact Hreq|constructor]|]);
    reflexivity.
Qed.


Lemma wire_request_identity (a b : Webhook) (r : Request) :
  same_identity a b -> wire_request env b payload r ->
  wire_request env a payload r.
Proof.
  intros (Hid & Happ & Hev & Hurl & _). unfold wire_request, wire_body, wire_headers.
  now rewrite Hid, Happ, Hev, Hurl.
Qed.

Lemma same_identity_trans (a b c : Webhook) :
  same_identity a b -> same_identity b c -> same_identity a c.
Proof.
  unfold same_identity. intros (?&?&?&?&?) (?&?&?&?&?).
  repeat split; congruence.
Qed.

(** The retry loop sends nothing but well-formed requests and never
    touches the identity of the webhook or its [delivered] flag. *)
Lemma retry_loop_sends (first : Webhook) (more : nat) :
  forall (w : World) (webhook : Webhook),
    same_identity first webhook ->
    exists new sl webhook' r,
      webhook_service.retry_loop more webhook_service.RETRY_DELAY
        (webhook_service.trigger_webhook_attempt env payload) (w, webhook)
      = (({| requests := requests w ++ new; slept := sl;
             requeued := requeued w |}, webhook'), r)
      /\ same_identity first webhook'
      /\ Forall (wire_request env first payload) new
      /\ (validate_document_data env payload (event first) = Return tt ->
          (exists token, generate_token env (id first)
                           [("event"%string, json.Str (event first))]
                         = Return token) ->
          new <> []).
Proof.
  induction more as [|more IH]; intros w webhook Hid.
  - cbn [webhook_service.retry_loop].
    destruct (attempt_sends w webhook) as (new & wh' & r & -> & Hid' & Hnew & Hone).
    destruct r as [b|e]; exists new; do 3 eexists;
      (split; [reflexivity|]);
      (split; [exact (same_identity_trans _ _ _ Hid Hid')|]);
      (split; [eapply Forall_impl; [|exact Hnew]; intros r;
               apply wire_request_identity; exact Hid|]);
      destruct Hid as (Hi & _ & He & _); rewrite <- Hi, <- He;
      intros Hv Ht; specialize (Hone Hv Ht); destruct new; discriminate.
  - cbn [webhook_service.retry_loop].
    destruct (attempt_sends w webhook) as (new & wh' & r & -> & Hid' & Hnew & Hone).
    pose proof (same_identity_trans _ _ _ Hid Hid') as Hid1.
    assert (Hnew1 : Forall (wire_request env first payload) new).
    { eapply Forall_impl; [|exact Hnew]. intros r0.
      apply wire_request_identity; exact Hid. }
    destruct r as [b|e].
    + exists new; do 3 eexists. split; [reflexivity|].
      split; [exact Hid1|]. split; [exact Hnew1|].
      destruct Hid as (Hi & _ & He & _); rewrite <- Hi, <- He.
      intros Hv Ht; specialize (Hone Hv Ht); destruct new; discriminate.
    + cbn [fst snd]. unfold sleep. cbn [requests slept requeued].
      destruct (IH {| requests := requests w ++ new;
                      slept := slept w + webhook_service.RETRY_DELAY;
                      requeued := requeued w |} wh' Hid1)
        as (new2 & sl & wh2 & r2 & -> & Hid2 & Hnew2 & _).
      cbn [requests slept requeued].
      exists (new ++ new2); do 3 eexists.
      split; [rewrite app_assoc; reflexivity|].
      split; [exact Hid2|]. split; [apply Forall_app; split; assumption|].
      destruct Hid as (Hi & _ & He & _); rewrite <- Hi, <- He.
      intros Hv Ht; specialize (Hone Hv Ht); destruct new; discriminate.
Qed.


End Delivery.

Lemma same_identity_refl (a : Webhook) : same_identity a a.
Proof. repeat split. Qed.

(** [trigger_webhook] never writes the [delivered] flag. *)
Lemma trigger_webhook_keeps_delivered (env : Env) (webhook : Webhook)
    (payload : json.dict) (w : World) :
  delivered (snd (fst (webhook_service.trigger_webhook env webhook payload w)))
  = delivered webhook.
Proof.
  unfold webhook_service.trigger_webhook, webhook_service.retry.
  destruct (retry_loop_sends env payload webhook
              (webhook_service.MAX_RETRIES - 1) w webhook
              (same_identity_refl webhook))
    as (new & sl & wh' & r & -> & Hid & _).
  cbn [fst snd]. apply Hid.
Qed.

(** The task sets [delivered] exactly when it returns [True]. *)
Lemma task_delivered_flag (env : Env) (retries : nat) (payload : json.dict)
    (w w' : World) (webhook webhook' : Webhook) (b : bool) :
  webhook_tasks.process_webhook_event env retries payload w (Some webhook)
  = (w', Some webhook', b) ->
  delivered webhook' = b || delivered webhook.
Proof.
  unfold webhook_tasks.process_webhook_event.
  destruct (validate_document_data env payload (event webhook)) as [[]|e].
  2:{ intros H. injection H as _ <- <-. reflexivity. }
  set (processing := webhook_tasks.update webhook _ _ "processing" _ _ _).
  set (enriched := json.set "metadata" _ payload).
  pose proof (trigger_webhook_keeps_delivered env processing enriched w) as Hk.
  destruct (webhook_service.trigger_webhook env processing enriched w)
    as [[w1 wh1] [[|]|e]]; cbn [fst snd] in Hk.
  - intros H. injection H as _ <- <-. reflexivity.
  - destruct (_ <? _).
    + unfold webhook_tasks.self_retry. destruct (_ <? _)%nat;
        intros H; injection H as _ <- <-; exact Hk.
    + intros H; injection H as _ <- <-; exact Hk.
  - intros H; injection H as _ <- <-; exact Hk.
Qed.

End WebhookDelivery.

(* ------------------------------------------------------------------ *)
(** ** Further properties of the scorer *)

Section ScoringFacts.
Local Open Scope Q_scope.
Import ocr_env.

Lemma sum_perm (l l' : list Q) : Permutation l l' -> Py.sum l == Py.sum l'.
Proof.
  induction 1; cbn [Py.sum fold_right] in *.
  - reflexivity.
  - now rewrite IHPermutation.
  - ring.
  - now rewrite IHPermutation1.
Qed.

Lemma sum_cons (x : Q) (l : list Q) : Py.sum (x :: l) = x + Py.sum l.
Proof. reflexivity. Qed.

Lemma sum_sq_comp (l : list Q) (m m' : Q) :
  m == m' ->
  Py.sum (map (fun x => (x - m) * (x - m)) l)
  == Py.sum (map (fun x => (x - m') * (x - m')) l).
Proof.
  intros Hm. induction l as [|a l IH]; [reflexivity|].
  cbn [map]. rewrite !sum_cons, IH, Hm. reflexivity.
Qed.

Lemma mean_perm (l l' : list Q) :
  Permutation l l' -> Py.np_mean l == Py.np_mean l'.
Proof.
  intros H. unfold Py.np_mean.
  rewrite (sum_perm _ _ H), (Permutation_length H). reflexivity.
Qed.

Lemma var_unfold (l : list Q) :
  Py.np_var l
  = Py.sum (map (fun x => (x - Py.np_mean l) * (x - Py.np_mean l)) l)
    / inject_Z (Z.of_nat (length l)).
Proof. unfold Py.np_var, Py.np_mean at 1. now rewrite length_map. Qed.

Lemma var_perm (l l' : list Q) :
  Permutation l l' -> Py.np_var l == Py.np_var l'.
Proof.
  intros H. rewrite !var_unfold, (Permutation_length H).
  rewrite (sum_sq_comp l _ _ (mean_perm _ _ H)).
  rewrite (sum_perm _ _ (Permutation_map _ H)). reflexivity.
Qed.

Lemma std_lt_perm (l l' : list Q) (k : Q) :
  Permutation l l' -> Py.np_std_lt l k = Py.np_std_lt l' k.
Proof.
  intros H. unfold Py.np_std_lt.
  apply Qltb_comp; [apply var_perm; exact H|reflexivity].
Qed.

Lemma consistency_factor_perm (l l' : list Q) :
  Permutation l l' ->
  reference.consistency_factor l = reference.consistency_factor l'.
Proof.
  intros H. unfold reference.consistency_factor.
  now rewrite (std_lt_perm _ _ 10 H), (std_lt_perm _ _ 20 H).
Qed.

(** X1.  The score depends on the engine's confidences only through the
    entries other than the sentinel [-1], and not on their order: two outputs
    whose remaining confidences are permutations of each other score the
    same, whatever their [text] columns hold. *)
Theorem score_ignores_sentinels_and_order
    (t : string) (d d' : OCRData) :
  Permutation (scorer.word_confidences d) (scorer.word_confidences d') ->
  ocr_service.calculate_confidence_score t (Some d)
  == ocr_service.calculate_confidence_score t (Some d').
Proof.
  destruct d as [txt c], d' as [txt' c'].
  unfold scorer.word_confidences. cbn [conf].
  change (filter (fun x => negb (Qeq_bool x (-1))) c)
    with (reference.valid_confidences c).
  change (filter (fun x => negb (Qeq_bool x (-1))) c')
    with (reference.valid_confidences c').
  intros H. rewrite !calculate_before_rounding.
  unfold reference.score_before_rounding.
  destruct t as [|ch t]; [reflexivity|].
  destruct (reference.valid_confidences c) as [|v vs] eqn:E;
    destruct (reference.valid_confidences c') as [|v' vs'] eqn:E'.
  - reflexivity.
  - apply Permutation_nil in H. discriminate.
  - apply Permutation_sym, Permutation_nil in H. discriminate.
  - apply clamp01_comp.
    unfold reference.base_score, reference.mean.
    rewrite (consistency_factor_perm _ _ H).
    fold (Py.np_mean (v :: vs)). fold (Py.np_mean (v' :: vs')).
    rewrite (mean_perm _ _ H). reflexivity.
Qed.

Lemma score_ignores_sentinels_and_order_witness :
  ocr_service.calculate_confidence_score "Invoice Total"
    (Some {| text := ["Invoice"; ""; "Total"; ""]%string;
             conf := [98; -1; 97; -1] |})
  == ocr_service.calculate_confidence_score "Invoice Total"
       (Some {| text := ["Total"; "Invoice"]%string; conf := [97; 98] |}).
Proof.
  apply score_ignores_sentinels_and_order.
  simpl. apply perm_swap.
Defined.

Lemma sum_uniform (l : list Q) (v : Q) :
  Forall (fun x => x == v) l ->
  Py.sum l == v * inject_Z (Z.of_nat (length l)).
Proof.
  induction 1 as [|x l Hx _ IH]; cbn [length].
  - cbn. ring.
  - rewrite sum_cons, IH, Hx, Nat2Z.inj_succ, <- Z.add_1_r, inject_Z_plus.
    ring.
Qed.

Lemma length_pos_Q (A : Type) (x : A) (l : list A) :
  ~ inject_Z (Z.of_nat (length (x :: l))) == 0.
Proof.
  cbn [length]. rewrite Nat2Z.inj_succ. unfold Qeq. cbn. lia.
Qed.

Lemma mean_uniform (x : Q) (l : list Q) (v : Q) :
  Forall (fun y => y == v) (x :: l) -> Py.np_mean (x :: l) == v.
Proof.
  intros H. unfold Py.np_mean. rewrite (sum_uniform _ _ H).
  field. apply length_pos_Q.
Qed.

Lemma var_uniform (x : Q) (l : list Q) (v : Q) :
  Forall (fun y => y == v) (x :: l) -> Py.np_var (x :: l) == 0.
Proof.
  intros H. rewrite var_unfold.
  rewrite (sum_uniform (map _ (x :: l)) 0).
  - field. apply length_pos_Q.
  - apply Forall_map. eapply Forall_impl; [|exact H].
    intros y Hy. cbn beta. rewrite Hy, (mean_uniform _ _ _ H). ring.
Qed.

Lemma clamp01_id (x : Q) : 0 <= x <= 1 -> reference.clamp01 x == x.
Proof.
  intros [H0 H1]. unfold reference.clamp01.
  assert (Py.Qltb x 0 = false) as -> by (apply Qltb_false; exact H0).
  assert (Py.Qltb 1 x = false) as -> by (apply Qltb_false; exact H1).
  reflexivity.
Qed.

Lemma min_one (x : Q) : 0 <= x -> Py.min 1.0 x == reference.clamp01 x.
Proof.
  intros H0. unfold Py.min, reference.clamp01.
  assert (Py.Qltb x 0 = false) as -> by (apply Qltb_false; exact H0).
  destruct (Py.Qltb x 1.0) eqn:A; destruct (Py.Qltb 1 x) eqn:B;
    repeat match goal with
           | H : Py.Qltb _ _ = true |- _ => apply Qltb_true in H
           | H : Py.Qltb _ _ = false |- _ => apply Qltb_false in H
           end; lra.
Qed.

(** X2.  When every confidence that is not the sentinel equals [v]
    (between 0 and 100), the spread is zero and the consistency factor is
    1.1: a text of fewer than 10 words scores [v / 100 * 0.95], a text of
    10 words or more scores [v / 100 * 1.05] capped at 1. *)
Theorem uniform_confidences_score (t : string) (d : OCRData) (v : Q) :
  t <> EmptyString ->
  scorer.word_confidences d <> [] ->
  Forall (fun x => x == v) (scorer.word_confidences d) ->
  0 <= v <= 100 ->
  let s := ocr_service.calculate_confidence_score t (Some d) in
  ((scorer.word_count t < 10)%nat -> s == v / 100 * 0.95)
  /\ ((10 <= scorer.word_count t)%nat -> s == Py.min 1.0 (v / 100 * 1.05)).
Proof.
  destruct d as [txt c].
  unfold scorer.word_confidences, scorer.word_count. cbn [conf].
  change (filter (fun x => negb (Qeq_bool x (-1))) c)
    with (reference.valid_confidences c).
  intros Ht Hne Hall Hv.
  set (s := ocr_service.calculate_confidence_score t _).
  assert (Hs : s == reference.clamp01
                      (v / 100 * ((reference.length_factor t + 1.1) / 2))).
  { unfold s. rewrite calculate_before_rounding.
    unfold reference.score_before_rounding.
    destruct t as [|ch t]; [congruence|].
    destruct (reference.valid_confidences c) as [|x l]; [congruence|].
    apply clamp01_comp.
    unfold reference.base_score, reference.mean, reference.consistency_factor,
      Py.np_std_lt.
    fold (Py.np_mean (x :: l)).
    rewrite (mean_uniform _ _ _ Hall).
    assert (Py.Qltb (Py.np_var (x :: l)) (10 * 10) = true) as ->.
    { apply Qltb_true. rewrite (var_uniform _ _ _ Hall). reflexivity. }
    cbn [Py.sum fold_right length]. field. }
  unfold reference.length_factor in Hs. rewrite <- split_length in Hs.
  assert (Hb0 : 0 <= v / 100)
    by (apply Qle_shift_div_l; [reflexivity|]; lra).
  assert (Hb1 : v / 100 <= 1)
    by (apply Qle_shift_div_r; [reflexivity|]; lra).
  assert (E8 : (0.8 + 1.1) / 2 == 0.95) by reflexivity.
  assert (E10 : (1.0 + 1.1) / 2 == 1.05) by reflexivity.
  split; intros Hw.
  - apply Nat.leb_gt in Hw. rewrite Hw in Hs. rewrite Hs.
    rewrite (clamp01_comp _ (v / 100 * 0.95)) by (rewrite E8; reflexivity).
    apply clamp01_id. set (B := v / 100) in *. lra.
  - apply Nat.leb_le in Hw. rewrite Hw in Hs. rewrite Hs.
    rewrite (clamp01_comp _ (v / 100 * 1.05)) by (rewrite E10; reflexivity).
    symmetry. apply min_one. set (B := v / 100) in *. lra.
Qed.

Lemma uniform_confidences_score_witness :
  ocr_service.calculate_confidence_score
    "one two three four five six seven eight nine ten"
    (Some {| text := []; conf := [96; -1; 96; 96] |})
  == Py.min 1.0 (96 / 100 * 1.05).
Proof.
  refine (proj2 (uniform_confidences_score
                   "one two three four five six seven eight nine ten"
                   {| text := []; conf := [96; -1; 96; 96] |} 96 _ _ _ _) _).
  - discriminate.
  - simpl. discriminate.
  - simpl. repeat (constructor; [reflexivity|]). constructor.
  - split; discriminate.
  - vm_compute. apply le_n.
Defined.

Lemma sum_le_bound (l : list Q) (b : Q) :
  Forall (fun x => x <= b) l ->
  Py.sum l <= b * inject_Z (Z.of_nat (length l)).
Proof.
  induction 1 as [|x l Hx _ IH]; cbn [length].
  - change (inject_Z (Z.of_nat 0)) with 0. rewrite Qmult_0_r.
    apply Qle_refl.
  - rewrite sum_cons, Nat2Z.inj_succ, <- Z.add_1_r, inject_Z_plus.
    change (inject_Z 1) with 1.
    rewrite Qmult_plus_distr_r, Qmult_1_r. lra.
Qed.

Lemma sum_ge_bound (l : list Q) (b : Q) :
  Forall (fun x => b <= x) l ->
  b * inject_Z (Z.of_nat (length l)) <= Py.sum l.
Proof.
  induction 1 as [|x l Hx _ IH]; cbn [length].
  - change (inject_Z (Z.of_nat 0)) with 0. rewrite Qmult_0_r.
    apply Qle_refl.
  - rewrite sum_cons, Nat2Z.inj_succ, <- Z.add_1_r, inject_Z_plus.
    change (inject_Z 1) with 1.
    rewrite Qmult_plus_distr_r, Qmult_1_r. lra.
Qed.

Lemma sum_max_all (l : list Q) (b : Q) :
  Forall (fun x => x <= b) l ->
  b * inject_Z (Z.of_nat (length l)) <= Py.sum l ->
  Forall (fun x => x == b) l.
Proof.
  induction 1 as [|x l Hx Hl IH]; cbn [length]; [constructor|].
  rewrite sum_cons, Nat2Z.inj_succ, <- Z.add_1_r, inject_Z_plus.
  change (inject_Z 1) with 1.
  rewrite Qmult_plus_distr_r, Qmult_1_r. intros Hs.
  pose proof (sum_le_bound l b Hl) as Hub.
  constructor; [lra|]. apply IH. lra.
Qed.


Lemma length_Q_pos (A : Type) (x : A) (l : list A) :
  0 < inject_Z (Z.of_nat (length (x :: l))).
Proof.
  cbn [length]. rewrite Nat2Z.inj_succ. unfold Qlt. cbn. lia.
Qed.

Lemma base_score_range (x : Q) (l : list Q) :
  Forall (fun y => 0 <= y <= 100) (x :: l) ->
  0 <= reference.base_score (x :: l) <= 1.
Proof.
  intros H. unfold reference.base_score, reference.mean.
  pose proof (length_Q_pos Q x l) as Hn.
  pose proof (sum_le_bound (x :: l) 100
                (Forall_impl _ (fun y Hy => proj2 Hy) H)) as Hub.
  pose proof (sum_ge_bound (x :: l) 0
                (Forall_impl _ (fun y Hy => proj1 Hy) H)) as Hlb.
  rewrite Qmult_0_l in Hlb.
  set (n := inject_Z (Z.of_nat (length (x :: l)))) in *.
  split.
  - apply Qle_shift_div_l; [reflexivity|]. rewrite Qmult_0_l.
    apply Qle_shift_div_l; [exact Hn|]. rewrite Qmult_0_l. exact Hlb.
  - apply Qle_shift_div_r; [reflexivity|]. rewrite Qmult_1_l.
    apply Qle_shift_div_r; [exact Hn|]. exact Hub.
Qed.

Lemma base_score_one (x : Q) (l : list Q) :
  Forall (fun y => 0 <= y <= 100) (x :: l) ->
  1 <= reference.base_score (x :: l) ->
  Forall (fun y => y == 100) (x :: l).
Proof.
  intros H H1.
  apply sum_max_all; [exact (Forall_impl _ (fun y Hy => proj2 Hy) H)|].
  pose proof (length_Q_pos Q x l) as Hn.
  unfold reference.base_score, reference.mean in H1.
  set (n := inject_Z (Z.of_nat (length (x :: l)))) in *.
  assert (E : Py.sum (x :: l) == Py.sum (x :: l) / n / 100 * (100 * n)).
  { field. intros Hz. rewrite Hz in Hn. discriminate Hn. }
  rewrite E.
  setoid_replace (100 * n) with (1 * (100 * n)) at 1 by ring.
  apply Qmult_le_compat_r; [exact H1|].
  apply Qmult_le_0_compat; [discriminate|apply Qlt_le_weak; exact Hn].
Qed.

Lemma short_factor (l : list Q) :
  0 <= reference.mean [0.8; reference.consistency_factor l] <= 0.95.
Proof.
  unfold reference.consistency_factor.
  destruct (Py.np_std_lt l 10); [|destruct (Py.np_std_lt l 20)];
    vm_compute; split; discriminate.
Qed.

(** X3.  With confidences between 0 and 100, a text of fewer than 10
    words never scores above 0.95, and it is given the status [processed]
    only when every confidence other than the sentinel is exactly 100. *)
Theorem short_text_score_cap (t : string) (d : OCRData) :
  (scorer.word_count t < 10)%nat ->
  Forall (fun x => 0 <= x <= 100) (scorer.word_confidences d) ->
  let s := ocr_service.calculate_confidence_score t (Some d) in
  s <= 0.95
  /\ (ocr_service.determine_status s = "processed"%string ->
      Forall (fun x => x == 100) (scorer.word_confidences d)).
Proof.
  destruct d as [txt c].
  unfold scorer.word_confidences, scorer.word_count. cbn [conf].
  change (filter (fun x => negb (Qeq_bool x (-1))) c)
    with (reference.valid_confidences c).
  intros Hw Hc.
  set (s := ocr_service.calculate_confidence_score t _).
  assert (Hs : s == reference.score_before_rounding t c)
    by apply calculate_before_rounding.
  unfold reference.score_before_rounding in Hs.
  assert (Hstat : ocr_service.determine_status s = "processed"%string ->
                  0.95 <= s).
  { unfold ocr_service.determine_status.
    destruct (Qle_bool ocr_service.AUTO_APPROVE_THRESHOLD s) eqn:E.
    - intros _. apply Qle_bool_iff in E. exact E.
    - unfold ocr_service.needs_review, ocr_service.failed.
      destruct (Qle_bool ocr_service.MANUAL_REVIEW_THRESHOLD s);
        intros H; discriminate H. }
  destruct t as [|ch t].
  { split; [lra|]. intros Hp. apply Hstat in Hp. lra. }
  destruct (reference.valid_confidences c) as [|x l] eqn:E.
  { split; [lra|]. constructor. }
  unfold reference.length_factor in Hs.
  rewrite <- split_length in Hs.
  assert ((10 <=? length (Py.split (String ch t)))%nat = false) as Hf
    by (apply Nat.leb_gt; exact Hw).
  rewrite Hf in Hs.
  pose proof (base_score_range x l Hc) as [Hb0 Hb1].
  pose proof (short_factor (x :: l)) as [Hf0 Hf1].
  set (B := reference.base_score (x :: l)) in *.
  set (F := reference.mean [0.8; reference.consistency_factor (x :: l)]) in *.
  assert (HBF0 : 0 <= B * F) by (apply Qmult_le_0_compat; assumption).
  assert (HBF1 : B * F <= B * 0.95).
  { rewrite (Qmult_comm B F), (Qmult_comm B 0.95).
    apply Qmult_le_compat_r; assumption. }
  rewrite clamp01_id in Hs by lra.
  split; [lra|].
  intros Hp. apply Hstat in Hp.
  apply base_score_one; [exact Hc|]. fold B. lra.
Qed.

Lemma short_text_score_cap_witness :
  ocr_service.calculate_confidence_score "Invoice Total $500"
    (Some {| text := []; conf := [98; 97; 95; 99] |}) <= 0.95.
Proof.
  refine (proj1 (short_text_score_cap "Invoice Total $500"
                   {| text := []; conf := [98; 97; 95; 99] |} _ _)).
  - vm_compute. repeat constructor.
  - simpl. repeat (constructor; [split; discriminate|]). constructor.
Defined.

End ScoringFacts.

(* ------------------------------------------------------------------ *)
(** ** The schema validators and the two status rules *)


Section Schema.
Local Open Scope Q_scope.

Lemma str_in_In (x : string) (l : list string) :
  Py.str_in x l = true <-> In x l.
Proof.
  unfold Py.str_in. rewrite existsb_exists. split.
  - intros [y [Hy E]]. apply String.eqb_eq in E. subst. exact Hy.
  - intros H. exists x. split; [exact H | apply String.eqb_refl].
Qed.

(** X4.  [OCRBase.validate_confidence_score] refuses exactly the values
    outside [0, 1]; an accepted value is returned within half a unit of
    the fourth decimal place, still inside [0, 1], and the validator
    returns that result unchanged when it is validated again. *)
Theorem validate_confidence_score_rounds (v : Q) :
  match schemas_ocr.validate_confidence_score v with
  | Return r =>
      0 <= v <= 1 /\ 0 <= r <= 1
      /\ v - (1 # 20000) <= r <= v + (1 # 20000)
      /\ schemas_ocr.validate_confidence_score r = Return r
  | Raise e =>
      ~ (0 <= v <= 1)
      /\ e = ValueError "Confidence score must be between 0.0 and 1.0"
  end.
Proof.
  unfold schemas_ocr.validate_confidence_score at 1.
  destruct (Py.Qltb v schemas_ocr.MIN_CONFIDENCE_SCORE) eqn:E0; simpl.
  { apply Qltb_true in E0. unfold schemas_ocr.MIN_CONFIDENCE_SCORE in E0.
    split; [lra | reflexivity]. }
  destruct (Py.Qltb schemas_ocr.MAX_CONFIDENCE_SCORE v) eqn:E1; simpl.
  { apply Qltb_true in E1. unfold schemas_ocr.MAX_CONFIDENCE_SCORE in E1.
    split; [lra | reflexivity]. }
  apply Qltb_false in E0, E1.
  unfold schemas_ocr.MIN_CONFIDENCE_SCORE in E0.
  unfold schemas_ocr.MAX_CONFIDENCE_SCORE in E1.
  assert (Hv : 0 <= v <= 1) by lra.
  repeat split; try lra.
  - apply round4_range; exact Hv.
  - apply round4_range; exact Hv.
  - apply round4_near.
  - apply round4_near.
  - rewrite validate_confidence_score_accepts by (apply round4_range; exact Hv).
    rewrite round4_idempotent. reflexivity.
Qed.

Lemma Qle_bool_true (x y : Q) : Qle_bool x y = true <-> x <= y.
Proof. apply Qle_bool_iff. Qed.

Lemma Qle_bool_false (x y : Q) : Qle_bool x y = false <-> y < x.
Proof.
  split; intros H.
  - apply Qnot_le_lt. intros Hle. apply Qle_bool_iff in Hle. congruence.
  - destruct (Qle_bool x y) eqn:E; [|reflexivity].
    apply Qle_bool_iff in E. lra.
Qed.

(** The status rule of [ocr_task] on a score rounded to four places, in
    terms of the score before rounding. *)
Lemma status_of_rounded_score (s : Q) :
  ocr_tasks.status_of_score (Py.round s 4) =
  (if Qle_bool 0.94995 s then "processed"
   else if Qle_bool 0.69995 s then "needs_review"
   else "failed")%string.
Proof.
  unfold ocr_tasks.status_of_score.
  pose proof (round4_threshold 9500 s eq_refl) as H95.
  pose proof (round4_threshold 7000 s eq_refl) as H70.
  assert (E95 : Qle_bool 0.95 (Py.round s 4) = Qle_bool 0.94995 s).
  { destruct (Qle_bool 0.94995 s) eqn:E.
    - apply Qle_bool_true. apply Qle_bool_true in E.
      assert (Hq : inject_Z 9500 / 10000 <= Py.round s 4).
      { apply H95. change (inject_Z 9500) with 9500.
        apply Qle_shift_div_r; [reflexivity|]. lra. }
      change (inject_Z 9500) with 9500 in Hq.
      assert (Hc : 9500 / 10000 == 0.95) by reflexivity. lra.
    - apply Qle_bool_false. apply Qle_bool_false in E.
      apply Qnot_le_lt. intros Hle.
      assert (Hq : (inject_Z 9500 - (1 # 2)) / 10000 <= s).
      { apply H95. change (inject_Z 9500) with 9500.
        assert (Hc : 9500 / 10000 == 0.95) by reflexivity. lra. }
      change (inject_Z 9500) with 9500 in Hq.
      assert (Hc : (9500 - (1 # 2)) / 10000 == 0.94995) by reflexivity.
      lra. }
  assert (E70 : Qle_bool 0.70 (Py.round s 4) = Qle_bool 0.69995 s).
  { destruct (Qle_bool 0.69995 s) eqn:E.
    - apply Qle_bool_true. apply Qle_bool_true in E.
      assert (Hq : inject_Z 7000 / 10000 <= Py.round s 4).
      { apply H70. change (inject_Z 7000) with 7000.
        apply Qle_shift_div_r; [reflexivity|]. lra. }
      change (inject_Z 7000) with 7000 in Hq.
      assert (Hc : 7000 / 10000 == 0.70) by reflexivity. lra.
    - apply Qle_bool_false. apply Qle_bool_false in E.
      apply Qnot_le_lt. intros Hle.
      assert (Hq : (inject_Z 7000 - (1 # 2)) / 10000 <= s).
      { apply H70. change (inject_Z 7000) with 7000.
        assert (Hc : 7000 / 10000 == 0.70) by reflexivity. lra. }
      change (inject_Z 7000) with 7000 in Hq.
      assert (Hc : (7000 - (1 # 2)) / 10000 == 0.69995) by reflexivity.
      lra. }
  rewrite E95, E70. reflexivity.
Qed.

(** X5.  [process_document] decides the status of the OCR record on the
    score as computed, [ocr_task] decides the status of the document on the
    score that the record holds, which the validator has rounded to four
    places.  For a score in [0, 1] the two statuses differ exactly when the
    score lies within 0.00005 below a threshold. *)
Theorem status_rules_differ_below_threshold (s : Q) :
  0 <= s <= 1 ->
  exists r,
    schemas_ocr.validate_confidence_score s = Return r
    /\ (ocr_tasks.status_of_score r <> ocr_service.determine_status s
        <-> (0.94995 <= s < 0.95 \/ 0.69995 <= s < 0.70)).
Proof.
  intros Hs. exists (Py.round s 4).
  split; [apply validate_confidence_score_accepts; exact Hs|].
  rewrite status_of_rounded_score.
  unfold ocr_service.determine_status, ocr_service.AUTO_APPROVE_THRESHOLD,
    ocr_service.MANUAL_REVIEW_THRESHOLD, ocr_service.processed,
    ocr_service.needs_review, ocr_service.failed.
  destruct (Qle_bool 0.94995 s) eqn:A; destruct (Qle_bool 0.95 s) eqn:B;
    destruct (Qle_bool 0.69995 s) eqn:C; destruct (Qle_bool 0.70 s) eqn:D;
    repeat match goal with
    | H : Qle_bool _ _ = true |- _ => apply Qle_bool_true in H
    | H : Qle_bool _ _ = false |- _ => apply Qle_bool_false in H
    end;
    try (exfalso; lra);
    (split; [intros Hne; try (exfalso; apply Hne; reflexivity); lra
            | intros Hr; try (exfalso; lra); intros Heq; discriminate Heq]).
Qed.

Lemma status_rules_differ_below_threshold_witness :
  exists r,
    schemas_ocr.validate_confidence_score 0.94996 = Return r
    /\ (ocr_tasks.status_of_score r <> ocr_service.determine_status 0.94996
        <-> (0.94995 <= 0.94996 < 0.95 \/ 0.69995 <= 0.94996 < 0.70)).
Proof.
  apply (status_rules_differ_below_threshold 0.94996).
  unfold Qle; simpl; lia.
Defined.

Import schemas_ocr_status.

(** X6.  [OCRBase.validate_status] accepts a status exactly when its
    lowercase form is one of the four [OCR_STATUS_CHOICES]; it returns the
    lowercase form, and an accepted result is accepted unchanged again. *)
Theorem validate_status_accepts_choices (value : string) :
  match validate_status value with
  | Return r =>
      r = Py.lower value /\ In r OCR_STATUS_CHOICES
      /\ validate_status r = Return r
  | Raise e =>
      ~ In (Py.lower value) OCR_STATUS_CHOICES
      /\ exists msg, e = ValueError msg
  end.
Proof.
  destruct value as [|c value].
  - simpl. split; [|eexists; reflexivity].
    intros H. simpl in H. repeat destruct H as [H|H]; try discriminate H.
    exact H.
  - unfold validate_status.
    set (r := Py.lower (String c value)).
    destruct (Py.str_in r OCR_STATUS_CHOICES) eqn:E; simpl negb; cbv iota.
    + apply str_in_In in E. split; [reflexivity|]. split; [exact E|].
      clearbody r.
      destruct E as [E|[E|[E|[E|[]]]]]; rewrite <- E; reflexivity.
    + split; [|eexists; reflexivity].
      intros H. apply str_in_In in H. congruence.
Qed.

(** X7.  The status that [process_document] assigns to the OCR record
    passes [OCRBase.validate_status] unless it is [needs_review]: the
    validator raises exactly for the scores from 0.70 up to, but not
    including, 0.95. *)
Theorem needs_review_is_not_a_valid_ocr_status (s : Q) :
  (exists e, validate_status (ocr_service.determine_status s) = Raise e)
  <-> 0.70 <= s < 0.95.
Proof.
  unfold ocr_service.determine_status, ocr_service.AUTO_APPROVE_THRESHOLD,
    ocr_service.MANUAL_REVIEW_THRESHOLD.
  destruct (Qle_bool 0.95 s) eqn:A; destruct (Qle_bool 0.70 s) eqn:B;
    repeat match goal with
    | H : Qle_bool _ _ = true |- _ => apply Qle_bool_true in H
    | H : Qle_bool _ _ = false |- _ => apply Qle_bool_false in H
    end;
    (split; [intros [e He]; try discriminate He; lra
            | intros Hr; try (exfalso; lra); eexists; reflexivity]).
Qed.

End Schema.

(* ------------------------------------------------------------------ *)
(** ** Further properties of [process_document] and [ocr_task] *)

Section PipelineFacts.

Import ocr_env models_document.
Local Open Scope Q_scope.

Lemma reraise_custom (e : exn) :
  is_CustomException (ocr_service.reraise e) = true.
Proof.
  unfold ocr_service.reraise.
  destruct (is_CustomException e) eqn:E; [exact E|reflexivity].
Qed.

Lemma process_document_raise (env : Env) (db db' : Store) (e : exn) :
  ocr_service.process_document env db = (db', Raise e) ->
  db' = db /\ is_CustomException e = true.
Proof.
  unfold ocr_service.process_document.
  destruct (row db) as [d|].
  - destruct (ocr_service.process_document_body env d) as [[d' rec]|e0];
      cbn [ocr_service.try_except]; intros H; inversion H; subst.
    split; [reflexivity|apply reraise_custom].
  - intros H. inversion H. split; reflexivity.
Qed.

(** What a successful [process_document] has done: the upload of the file
    at the document's path returned [u], and one commit stored [u] as the
    new path, the score and the status that the score gives. *)
Lemma process_document_return (env : Env) (db db' : Store)
    (rec : schemas_ocr.OCRInDB) :
  ocr_service.process_document env db = (db', Return rec) ->
  exists d d' u sc,
    row db = Some d
    /\ upload_document_to_s3 env (storage_path d) (id d) = Return u
    /\ db' = commit d' db
    /\ id d' = id d /\ storage_path d' = u
    /\ status d' = ocr_service.determine_status sc
    /\ confidence_score d' = Some sc
    /\ schemas_ocr.confidence_score rec = Py.round sc 4
    /\ 0 <= sc <= 1.
Proof.
  unfold ocr_service.process_document.
  destruct (row db) as [d|] eqn:Hrow; [|discriminate].
  destruct (ocr_service.process_document_body env d) as [[d' rec']|e] eqn:Hb;
    cbn [ocr_service.try_except]; [|discriminate].
  intros H. injection H as <- <-.
  destruct (process_document_body_return env d d' rec' Hb)
    as (u & sc & Hu & Hid & Hp & Hst & Hsc & Hrec & Hr).
  exists d, d', u, sc. repeat split; try assumption; apply Hr.
Qed.

(** X8.  Whatever goes wrong inside [process_document], the caller sees a
    [CustomException] (never a [ValueError] or a [KeyError]) and the store
    is as it was before the call: every failure is rolled back. *)
Theorem process_document_fails_cleanly (env : Env) (db db' : Store) (e : exn) :
  ocr_service.process_document env db = (db', Raise e) ->
  db' = db
  /\ is_CustomException e = true
  /\ is_ValueError_or_KeyError e = false.
Proof.
  intros H. destruct (process_document_raise env db db' e H) as [Hdb He].
  split; [exact Hdb|]. split; [exact He|].
  destruct e; try discriminate He; reflexivity.
Qed.

Lemma process_document_fails_cleanly_witness :
  exists e,
    ocr_service.process_document examples.unreadable_env
      (store_of (Some examples.invoice_document))
    = (store_of (Some examples.invoice_document), Raise e)
    /\ is_CustomException e = true
    /\ is_ValueError_or_KeyError e = false.
Proof.
  eexists. split; [vm_compute; reflexivity|].
  exact (proj2 (process_document_fails_cleanly examples.unreadable_env
                  (store_of (Some examples.invoice_document)) _ _ eq_refl)).
Defined.

(** What a successful execution of the [try] block of [ocr_task] has
    done. *)
Lemma ocr_task_try_return (env : Env) (db db' : Store)
    (r : ocr_tasks.TaskResult) :
  ocr_tasks.ocr_task_try env db = (db', Return r) ->
  exists d u sc final,
    row db = Some d
    /\ upload_document_to_s3 env (storage_path d) (id d) = Return u
    /\ task_upload_document_to_s3 env u (id d)
       = Return (ocr_tasks.result_s3_url r)
    /\ row db' = Some final
    /\ storage_path final = ocr_tasks.result_s3_url r
    /\ 0 <= sc <= 1
    /\ ocr_tasks.result_confidence_score r = Py.round sc 4
    /\ confidence_score final = Some (Py.round sc 4)
    /\ status final = ocr_tasks.status_of_score (Py.round sc 4)
    /\ ocr_tasks.result_status r = status final
    /\ In (ocr_service.determine_status sc)
          (map status (commits db')).
Proof.
  unfold ocr_tasks.ocr_task_try.
  destruct (row db) as [d|] eqn:Hrow; [|discriminate].
  set (d1 := ocr_tasks.with_status_metadata _ _ d).
  set (db1 := commit d1 db).
  destruct (ocr_service.process_document env db1) as [db2 [rec|e]] eqn:Hp;
    [|discriminate].
  destruct (process_document_return env db1 db2 rec Hp)
    as (d1' & d2 & u & sc & Hrow1 & Hu & Hdb2 & Hid & Hpath & Hst & Hsc
        & Hrec & Hrange).
  cbn in Hrow1. injection Hrow1 as <-.
  subst db2. cbn [row commit].
  rewrite Hpath, Hid. cbn [d1 ocr_tasks.with_status_metadata id].
  cbn [d1 ocr_tasks.with_status_metadata id storage_path] in Hu.
  destruct (task_upload_document_to_s3 env u (id d)) as [s3_url|e] eqn:Ht;
    [|discriminate].
  intros H. injection H as <- <-.
  eexists d, u, sc, _.
  cbn [row commit ocr_tasks.result_s3_url ocr_tasks.result_status
       ocr_tasks.result_confidence_score status storage_path
       confidence_score commits].
  rewrite Hrec.
  repeat split; try reflexivity; try apply Hrange; try exact Hu;
    try exact Ht.
  rewrite !map_app. apply in_or_app. left. apply in_or_app. right.
  left. exact Hst.
Qed.

Lemma ocr_task_uploads_the_uploaded_url_aux
    (env : Env) (retries : nat) (db db' : Store) (r : ocr_tasks.TaskResult) :
  ocr_tasks.ocr_task env retries db = (db', ocr_tasks.Succeeded r) ->
  exists d u,
    row db = Some d
    /\ upload_document_to_s3 env (storage_path d) (id d) = Return u
    /\ task_upload_document_to_s3 env u (id d)
       = Return (ocr_tasks.result_s3_url r).
Proof.
  unfold ocr_tasks.ocr_task.
  destruct (ocr_tasks.ocr_task_try env db) as [db1 [r1|e]] eqn:Ht.
  - intros H. injection H as <- <-.
    destruct (ocr_task_try_return env db db1 r1 Ht)
      as (d & u & sc & final & H1 & H2 & H3 & _).
    exists d, u. repeat split; assumption.
  - destruct (is_ValueError_or_KeyError e); [discriminate|].
    unfold ocr_tasks.self_retry. destruct (_ <? _)%nat; discriminate.
Qed.

Lemma ocr_task_try_raise (env : Env) (db db' : Store) (exc : exn) :
  ocr_tasks.ocr_task_try env db = (db', Raise exc) ->
  (row db = None /\ db' = db /\ exc = ValueError "Document not found")
  \/ (exists d' : Document, row db' = Some d')
     /\ (is_CustomException exc = true
         \/ exists u i, task_upload_document_to_s3 env u i = Raise exc).
Proof.
  unfold ocr_tasks.ocr_task_try.
  destruct (row db) as [d|] eqn:Hrow.
  2:{ intros H. injection H as <- <-. left. repeat split. }
  set (d1 := ocr_tasks.with_status_metadata _ _ d).
  set (db1 := commit d1 db).
  destruct (ocr_service.process_document env db1) as [db2 [rec|e]] eqn:Hp.
  - destruct (process_document_return env db1 db2 rec Hp)
      as (d1' & d2 & u & sc & _ & _ & -> & _).
    cbn [row commit].
    destruct (task_upload_document_to_s3 env _ _) as [s3_url|e] eqn:Ht;
      [discriminate|].
    intros H. injection H as <- <-. right. split.
    + eexists. reflexivity.
    + right. do 2 eexists. exact Ht.
  - destruct (process_document_raise env db1 db2 e Hp) as [-> He].
    intros H. injection H as <- <-. right. split.
    + eexists. reflexivity.
    + left. exact He.
Qed.

Lemma custom_is_not_value_error (e : exn) :
  is_CustomException e = true -> is_ValueError_or_KeyError e = false.
Proof. destruct e; intros H; try discriminate H; reflexivity. Qed.

(** X10.  While retries remain, an execution of [ocr_task] fails without
    being retried in two cases only: the document does not exist, or the
    task's own upload raised a [ValueError] or [KeyError].  No failure
    inside [process_document] (validation, unsupported format, image, OCR,
    schema, upload, database) is exempt from the retry. *)
Theorem ocr_task_fails_without_retry_only_outside_the_pipeline
    (env : Env) (retries : nat) (db db' : Store) (exc : exn) :
  (retries < ocr_tasks.MAX_RETRIES)%nat ->
  ocr_tasks.ocr_task env retries db = (db', ocr_tasks.Failed exc) ->
  (row db = None /\ db' = db /\ exc = ValueError "Document not found")
  \/ (is_ValueError_or_KeyError exc = true
      /\ exists u i, task_upload_document_to_s3 env u i = Raise exc).
Proof.
  intros Hlt. unfold ocr_tasks.ocr_task.
  destruct (ocr_tasks.ocr_task_try env db) as [db1 [r|e]] eqn:Ht;
    [discriminate|].
  destruct (ocr_task_try_raise env db db1 e Ht)
    as [(Hrow & -> & ->)|[_ [Hc|Hu]]].
  - cbn [is_ValueError_or_KeyError]. intros H. injection H as <- <-.
    left. repeat split. exact Hrow.
  - rewrite (custom_is_not_value_error e Hc).
    unfold ocr_tasks.self_retry.
    assert ((ocr_tasks.MAX_RETRIES <? retries + 1)%nat = false) as ->
      by (apply Nat.ltb_ge; lia).
    discriminate.
  - destruct (is_ValueError_or_KeyError e) eqn:E.
    + intros H. injection H as <- <-. right. split; [exact E|exact Hu].
    + unfold ocr_tasks.self_retry.
      assert ((ocr_tasks.MAX_RETRIES <? retries + 1)%nat = false) as ->
        by (apply Nat.ltb_ge; lia).
      discriminate.
Qed.

Lemma ocr_task_fails_without_retry_only_outside_the_pipeline_witness :
  (row (store_of None) = None
   /\ store_of None = store_of None
   /\ ValueError "Document not found" = ValueError "Document not found")
  \/ (is_ValueError_or_KeyError (ValueError "Document not found") = true
      /\ exists u i,
           task_upload_document_to_s3 examples.invoice_env u i
           = Raise (ValueError "Document not found")).
Proof.
  apply (ocr_task_fails_without_retry_only_outside_the_pipeline
           examples.invoice_env 0 (store_of None)).
  - vm_compute. lia.
  - reflexivity.
Defined.

(** X11.  An execution that re-queues the task has retries left
    ([retries < 3]), waits [60 * 2 ^ retries] seconds (60, 120 or 240), and
    has committed the status [retry_pending] together with a [last_error]
    entry that records the type and the message of the exception and the
    number of the retry. *)
Theorem ocr_task_retry_schedule
    (env : Env) (retries : nat) (db db' : Store) (countdown : Z) :
  ocr_tasks.ocr_task env retries db = (db', ocr_tasks.Retrying countdown) ->
  (retries < ocr_tasks.MAX_RETRIES)%nat
  /\ countdown = (60 * 2 ^ Z.of_nat retries)%Z
  /\ In countdown [60; 120; 240]%Z
  /\ exists d exc,
       row db' = Some d
       /\ status d = "retry_pending"%string
       /\ is_ValueError_or_KeyError exc = false
       /\ json.get "last_error" (metadata_or_empty d)
          = Some (json.Dict
                    [ ("timestamp"%string, json.Str (utcnow_isoformat env));
                      ("error_type"%string, json.Str (type_name exc));
                      ("error_message"%string, json.Str (str exc));
                      ("retry_count"%string, json.Int (Z.of_nat retries)) ]).
Proof.
  intros H. pose proof (ocr_task_retrying env retries db db' countdown H) as Hlt.
  revert H. unfold ocr_tasks.ocr_task.
  destruct (ocr_tasks.ocr_task_try env db) as [db1 [r|e]] eqn:Ht;
    [discriminate|].
  destruct (is_ValueError_or_KeyError e) eqn:E; [discriminate|].
  unfold ocr_tasks.self_retry.
  destruct (_ <? _)%nat; [discriminate|].
  destruct (ocr_task_try_raise env db db1 e Ht)
    as [(_ & _ & ->)|[[d1 Hrow1] _]]; [discriminate E|].
  rewrite Hrow1. cbn [ocr_tasks.RETRY_BACKOFF].
  intros H. injection H as <- <-.
  split; [exact Hlt|]. split; [reflexivity|]. split.
  - unfold ocr_tasks.MAX_RETRIES in Hlt. unfold ocr_tasks.RETRY_DELAY.
    destruct retries as [|[|[|n]]]; [left|right; left|right; right; left|lia];
      reflexivity.
  - eexists. exists e. cbn [row commit]. split; [reflexivity|].
    split; [reflexivity|]. split; [exact E|].
    cbn [metadata_or_empty ocr_tasks.with_status_metadata metadata].
    apply get_set.
Qed.

Lemma ocr_task_retry_schedule_witness :
  (0 < ocr_tasks.MAX_RETRIES)%nat
  /\ 60%Z = (60 * 2 ^ Z.of_nat 0)%Z
  /\ In 60%Z [60; 120; 240]%Z
  /\ exists d exc,
       row (fst (ocr_tasks.ocr_task examples.unreadable_env 0
                   (store_of (Some examples.invoice_document)))) = Some d
       /\ status d = "retry_pending"%string
       /\ is_ValueError_or_KeyError exc = false
       /\ json.get "last_error" (metadata_or_empty d)
          = Some (json.Dict
                    [ ("timestamp"%string,
                        json.Str (utcnow_isoformat examples.unreadable_env));
                      ("error_type"%string, json.Str (type_name exc));
                      ("error_message"%string, json.Str (str exc));
                      ("retry_count"%string, json.Int (Z.of_nat 0)) ]).
Proof.
  apply (ocr_task_retry_schedule examples.unreadable_env 0
           (store_of (Some examples.invoice_document))).
  vm_compute. reflexivity.
Defined.

Lemma ocr_task_keeps_row (env : Env) (retries : nat) (db : Store)
    (d : Document) :
  row db = Some d ->
  exists d', row (fst (ocr_tasks.ocr_task env retries db)) = Some d'.
Proof.
  intros Hrow. unfold ocr_tasks.ocr_task.
  destruct (ocr_tasks.ocr_task_try env db) as [db1 [r|e]] eqn:Ht.
  - destruct (ocr_task_try_return env db db1 r Ht)
      as (_ & _ & _ & final & _ & _ & _ & Hf & _).
    exists final. exact Hf.
  - destruct (ocr_task_try_raise env db db1 e Ht)
      as [(Hnone & _)|[[d1 Hrow1] _]]; [congruence|].
    destruct (is_ValueError_or_KeyError e); [exists d1; exact Hrow1|].
    rewrite Hrow1. eexists. reflexivity.
Qed.

Lemma run_ocr_task_outcome (envs : nat -> Env) (fuel : nat) :
  forall retries db d,
    row db = Some d ->
    (ocr_tasks.MAX_RETRIES - retries < fuel)%nat ->
    exists db' r final,
      ocr_tasks.run_ocr_task fuel envs retries db = (db', Some r)
      /\ row db' = Some final
      /\ match r with
         | Return res =>
             status final = ocr_tasks.result_status res
             /\ ocr_tasks.terminal (status final) = true
             /\ confidence_score final
                = Some (ocr_tasks.result_confidence_score res)
         | Raise exc =>
             status final = "failed"%string
             /\ exists n,
                  (retries <= n)%nat
                  /\ json.get "error" (metadata_or_empty final)
                     = Some (json.Dict
                               [ ("timestamp"%string,
                                   json.Str (utcnow_isoformat (envs n)));
                                 ("task_id"%string,
                                   json.Str (task_id (envs n)));
                                 ("error_type"%string,
                                   json.Str (type_name exc));
                                 ("error_message"%string,
                                   json.Str (str exc)) ])
         end.
Proof.
  induction fuel as [|fuel IH]; intros retries db d Hrow Hf; [lia|].
  cbn [ocr_tasks.run_ocr_task].
  destruct (ocr_task_keeps_row (envs retries) retries db d Hrow) as [d1 Hrow1].
  destruct (ocr_tasks.ocr_task (envs retries) retries db)
    as [db1 [res|exc|c]] eqn:Ht; cbn [fst] in Hrow1.
  - revert Ht. unfold ocr_tasks.ocr_task.
    destruct (ocr_tasks.ocr_task_try (envs retries) db) as [db2 [r2|e]] eqn:Hy.
    + intros H. injection H as <- <-.
      destruct (ocr_task_try_return (envs retries) db db2 r2 Hy)
        as (_ & _ & sc & final & _ & _ & _ & Hfin & _ & _ & Hrs & Hcs & Hst
            & Hres & _).
      exists db2, (Return r2), final.
      split; [reflexivity|]. split; [exact Hfin|].
      split; [symmetry; exact Hres|].
      split; [rewrite Hst; apply status_of_score_terminal|].
      rewrite Hcs, Hrs. reflexivity.
    + destruct (is_ValueError_or_KeyError e); [discriminate|].
      unfold ocr_tasks.self_retry. destruct (_ <? _)%nat; discriminate.
  - unfold ocr_tasks.on_failure. rewrite Hrow1.
    do 3 eexists. split; [reflexivity|]. cbn [row commit].
    split; [reflexivity|]. split; [reflexivity|].
    exists retries. split; [lia|].
    cbn [metadata_or_empty ocr_tasks.with_status_metadata metadata].
    apply get_set.
  - pose proof (ocr_task_retrying _ _ _ _ _ Ht) as Hlt.
    destruct (IH (S retries) db1 d1 Hrow1) as (db' & r & final & Hrun & Hfin & Hr).
    { unfold ocr_tasks.MAX_RETRIES in *. lia. }
    exists db', r, final. split; [exact Hrun|]. split; [exact Hfin|].
    destruct r as [res|exc]; [exact Hr|].
    destruct Hr as (Hst & n & Hn & Hg). split; [exact Hst|].
    exists n. split; [lia|exact Hg].
Qed.

(** X12.  Whatever the collaborators do, the worker is done with a queued
    [ocr_task] for an existing document after at most four executions.  If
    the run returns, the document holds the returned status, which is one
    of [processed], [needs_review], [failed], and the returned score; if it
    raises, [on_failure] has stored the status [failed] and an [error]
    entry with the type and the message of the exception. *)
Theorem run_ocr_task_ends_within_four_executions
    (envs : nat -> Env) (db : Store) (d : Document) :
  row db = Some d ->
  exists db' r final,
    ocr_tasks.run_ocr_task 4 envs 0 db = (db', Some r)
    /\ row db' = Some final
    /\ match r with
       | Return res =>
           status final = ocr_tasks.result_status res
           /\ ocr_tasks.terminal (status final) = true
           /\ confidence_score final
              = Some (ocr_tasks.result_confidence_score res)
       | Raise exc =>
           status final = "failed"%string
           /\ exists n,
                json.get "error" (metadata_or_empty final)
                = Some (json.Dict
                          [ ("timestamp"%string,
                              json.Str (utcnow_isoformat (envs n)));
                            ("task_id"%string, json.Str (task_id (envs n)));
                            ("error_type"%string, json.Str (type_name exc));
                            ("error_message"%string, json.Str (str exc)) ])
       end.
Proof.
  intros Hrow.
  destruct (run_ocr_task_outcome envs 4 0 db d Hrow)
    as (db' & r & final & Hrun & Hfin & Hr).
  { unfold ocr_tasks.MAX_RETRIES. lia. }
  exists db', r, final. split; [exact Hrun|]. split; [exact Hfin|].
  destruct r as [res|exc]; [exact Hr|].
  destruct Hr as (Hst & n & _ & Hg). split; [exact Hst|].
  exists n. exact Hg.
Qed.

Lemma run_ocr_task_ends_within_four_executions_witness :
  exists db' r final,
    ocr_tasks.run_ocr_task 4 (fun _ => examples.unreadable_env) 0
      (store_of (Some examples.invoice_document)) = (db', Some r)
    /\ row db' = Some final
    /\ match r with
       | Return res =>
           status final = ocr_tasks.result_status res
           /\ ocr_tasks.terminal (status final) = true
           /\ confidence_score final
              = Some (ocr_tasks.result_confidence_score res)
       | Raise exc =>
           status final = "failed"%string
           /\ exists n : nat,
                json.get "error" (metadata_or_empty final)
                = Some (json.Dict
                          [ ("timestamp"%string,
                              json.Str (utcnow_isoformat
                                          examples.unreadable_env));
                            ("task_id"%string,
                              json.Str (task_id examples.unreadable_env));
                            ("error_type"%string, json.Str (type_name exc));
                            ("error_message"%string, json.Str (str exc)) ])
       end.
Proof.
  apply (run_ocr_task_ends_within_four_executions
           (fun _ => examples.unreadable_env)
           (store_of (Some examples.invoice_document))
           examples.invoice_document).
  reflexivity.
Defined.

End PipelineFacts.

(* ------------------------------------------------------------------ *)
(** ** The uploader *)

Section Storage.

Import utils_storage.
Local Open Scope Z_scope.

Lemma after_0 (r : PutObject) (w : World) : s3.after 0 r 0 w = w.
Proof.
  destruct w as [u s]. unfold s3.after. cbn [uploads slept repeat].
  now rewrite app_nil_r, Z.add_0_r.
Qed.

Lemma put_after (n : nat) (r : PutObject) (s : Z) (w : World) :
  put r (s3.after n r s w) = s3.after (S n) r s w.
Proof.
  unfold put, s3.after. cbn [uploads slept]. f_equal.
  rewrite <- app_assoc. f_equal.
  change [r] with (repeat r 1). rewrite <- repeat_app.
  now rewrite Nat.add_1_r.
Qed.

Lemma sleep_after (n : nat) (r : PutObject) (s t : Z) (w : World) :
  sleep t (s3.after n r s w) = s3.after n r (s + t) w.
Proof.
  unfold sleep, s3.after. cbn [uploads slept]. f_equal. lia.
Qed.

Lemma length_after (n : nat) (r : PutObject) (s : Z) (w : World) :
  length (uploads (s3.after n r s w)) = (length (uploads w) + n)%nat.
Proof.
  unfold s3.after. cbn [uploads]. now rewrite length_app, repeat_length.
Qed.

Lemma upload_document_to_s3_unfold (env : Env) (p i : string) (w : World) :
  path_exists env p = true ->
  upload_document_to_s3 env p i w
  = upload_attempts env (s3.request env p i) (s3.url env p i) i
      (seq 0 MAX_RETRIES) w.
Proof.
  intros H. unfold upload_document_to_s3. rewrite H. reflexivity.
Qed.

(** One step of the loop, from a world reached after [n] calls. *)
Lemma upload_attempts_step (env : Env) (r : PutObject) (u i : string)
    (attempt : nat) (rest : list nat) (n : nat) (s : Z) (w : World) :
  upload_attempts env r u i (attempt :: rest) (s3.after n r s w)
  = match upload_fileobj env (length (uploads w) + n) with
    | Uploaded => (s3.after (S n) r s w, Return u)
    | BotoError _ =>
        upload_attempts env r u i rest
          (s3.after (S n) r
             (s + Z.min MAX_BACKOFF (INITIAL_BACKOFF * 2 ^ Z.of_nat attempt)) w)
    | OtherError e => (s3.after (S n) r s w, Raise e)
    end.
Proof.
  cbn [upload_attempts]. rewrite length_after, put_after.
  destruct (upload_fileobj env _); try reflexivity.
  now rewrite sleep_after.
Qed.

Lemma upload_attempts_from (env : Env) (r : PutObject) (u i : string)
    (attempts : list nat) (w : World) :
  upload_attempts env r u i attempts w
  = upload_attempts env r u i attempts (s3.after 0 r 0 w).
Proof. now rewrite after_0. Qed.

(** X13.  Whatever S3 and the file system do, one call of
    [upload_document_to_s3] calls [upload_fileobj] at most 3 times, always
    with the same bucket, key [documents/{id}/{timestamp}{ext}], content
    type and AES256 encryption, and sleeps at most 7 seconds; when the file
    does not exist it calls S3 not at all and raises [FileNotFoundError];
    a returned URL is the URL of that key. *)
Theorem upload_document_to_s3_bounds
    (env : Env) (file_path document_id : string) (w : World) :
  exists n seconds r,
    upload_document_to_s3 env file_path document_id w
    = (s3.after n (s3.request env file_path document_id) seconds w, r)
    /\ (n <= 3)%nat
    /\ 0 <= seconds <= 7
    /\ (path_exists env file_path = false ->
        n = 0%nat /\ seconds = 0
        /\ r = Raise (OtherException "FileNotFoundError"
                        (append "File not found at path: " file_path)))
    /\ (forall u, r = Return u ->
        u = s3.url env file_path document_id
        /\ path_exists env file_path = true
        /\ (1 <= n)%nat).
Proof.
  destruct (path_exists env file_path) eqn:E.
  2:{ exists 0%nat, 0. eexists. unfold upload_document_to_s3. rewrite E.
      cbn [negb]. rewrite after_0. split; [reflexivity|].
      split; [lia|]. split; [lia|]. split; [intros _; repeat split|].
      intros u Hu. discriminate Hu. }
  rewrite (upload_document_to_s3_unfold env _ _ w E).
  set (r := s3.request env file_path document_id).
  set (u := s3.url env file_path document_id).
  cbn [seq MAX_RETRIES].
  rewrite upload_attempts_from, upload_attempts_step.
  destruct (upload_fileobj env (length (uploads w) + 0)).
  { exists 1%nat, 0. eexists. split; [reflexivity|].
    split; [lia|]. split; [lia|]. split; [discriminate|].
    intros u' Hu. injection Hu as <-. repeat split. lia. }
  2:{ exists 1%nat, 0. eexists. split; [reflexivity|].
      split; [lia|]. split; [lia|]. split; [discriminate|].
      intros u' Hu. discriminate Hu. }
  rewrite upload_attempts_step.
  destruct (upload_fileobj env (length (uploads w) + 1)).
  { exists 2%nat. do 2 eexists. split; [reflexivity|].
    split; [lia|]. split; [vm_compute; split; discriminate|].
    split; [discriminate|].
    intros u' Hu. injection Hu as <-. repeat split. lia. }
  2:{ exists 2%nat. do 2 eexists. split; [reflexivity|].
      split; [lia|]. split; [vm_compute; split; discriminate|].
      split; [discriminate|].
      intros u' Hu. discriminate Hu. }
  rewrite upload_attempts_step.
  destruct (upload_fileobj env (length (uploads w) + 2)).
  { exists 3%nat. do 2 eexists. split; [reflexivity|].
    split; [lia|]. split; [vm_compute; split; discriminate|].
    split; [discriminate|].
    intros u' Hu. injection Hu as <-. repeat split. lia. }
  2:{ exists 3%nat. do 2 eexists. split; [reflexivity|].
      split; [lia|]. split; [vm_compute; split; discriminate|].
      split; [discriminate|].
      intros u' Hu. discriminate Hu. }
  cbn [upload_attempts].
  exists 3%nat. do 2 eexists. split; [reflexivity|].
  split; [lia|]. split; [vm_compute; split; discriminate|].
  split; [discriminate|].
  intros u' Hu. discriminate Hu.
Qed.

(** X14.  Only boto errors are retried, and the back-off doubles from one
    second.  For an existing file, if the first [k] calls of
    [upload_fileobj] end in a boto error, then: when [k < 3] and the next
    call succeeds, the URL is returned after [k + 1] calls and
    [2 ^ k - 1] seconds of sleep; when [k < 3] and the next call raises
    anything else, that exception leaves the function at once; when
    [k = 3], the function has slept 7 seconds (4 of them after the last
    attempt) and raises a plain [Exception] in place of the boto error. *)
Theorem upload_document_to_s3_retries_boto_errors
    (env : Env) (file_path document_id : string) (w : World) (k : nat) :
  path_exists env file_path = true ->
  (forall j, (j < k)%nat ->
     exists msg,
       upload_fileobj env (length (uploads w) + j) = BotoError msg) ->
  let r := s3.request env file_path document_id in
  let result := upload_document_to_s3 env file_path document_id w in
  ((k < 3)%nat ->
   upload_fileobj env (length (uploads w) + k) = Uploaded ->
   result = (s3.after (S k) r (2 ^ Z.of_nat k - 1) w,
             Return (s3.url env file_path document_id)))
  /\ ((k < 3)%nat ->
      forall e, upload_fileobj env (length (uploads w) + k) = OtherError e ->
      result = (s3.after (S k) r (2 ^ Z.of_nat k - 1) w, Raise e))
  /\ ((3 <= k)%nat ->
      result
      = (s3.after 3 r 7 w,
         Raise (OtherException "Exception"
                  (append "Failed to upload document "
                     (append document_id " to S3 after 3 attempts"))))).
Proof.
  intros E Hboto r result. unfold result.
  rewrite (upload_document_to_s3_unfold env _ _ w E).
  fold r. set (u := s3.url env file_path document_id).
  cbn [seq MAX_RETRIES].
  rewrite upload_attempts_from, upload_attempts_step.
  destruct k as [|k].
  { split; [intros _ H; rewrite H; reflexivity|].
    split; [intros _ e H; rewrite H; reflexivity|intros H; lia]. }
  destruct (Hboto 0%nat ltac:(lia)) as [m0 ->].
  rewrite upload_attempts_step.
  destruct k as [|k].
  { split; [intros _ H; rewrite H; reflexivity|].
    split; [intros _ e H; rewrite H; reflexivity|intros H; lia]. }
  destruct (Hboto 1%nat ltac:(lia)) as [m1 ->].
  rewrite upload_attempts_step.
  destruct k as [|k].
  { split; [intros _ H; rewrite H; reflexivity|].
    split; [intros _ e H; rewrite H; reflexivity|intros H; lia]. }
  destruct (Hboto 2%nat ltac:(lia)) as [m2 ->].
  cbn [upload_attempts].
  split; [intros H; lia|]. split; [intros H; lia|]. intros _. reflexivity.
Qed.

Lemma upload_document_to_s3_retries_boto_errors_witness :
  upload_document_to_s3 (s3.disk 2) "/uploads/invoice.png" "doc-1"
    initial_world
  = (s3.after 3 (s3.request (s3.disk 2) "/uploads/invoice.png" "doc-1")
       3 initial_world,
     Return "https://documents.s3.us-east-1.amazonaws.com/documents/doc-1/20240101_120000.png"%string).
Proof.
  refine (proj1 (upload_document_to_s3_retries_boto_errors (s3.disk 2)
                   "/uploads/invoice.png" "doc-1" initial_world 2 _ _) _ _).
  - reflexivity.
  - intros j Hj. exists "ServiceUnavailable"%string.
    destruct j as [|[|j]]; [reflexivity|reflexivity|lia].
  - lia.
  - reflexivity.
Defined.

Lemma lower_char_idempotent (c : ascii) :
  Py.lower_char (Py.lower_char c) = Py.lower_char c.
Proof.
  destruct c as [[] [] [] [] [] [] [] []]; reflexivity.
Qed.

Lemma lower_idempotent (s : string) : Py.lower (Py.lower s) = Py.lower s.
Proof.
  induction s as [|c s IH]; [reflexivity|].
  cbn [Py.lower]. now rewrite lower_char_idempotent, IH.
Qed.

(** X15.  [_get_content_type] does not depend on the letter case of the
    extension, and every extension that passes the format check of
    [process_document] is uploaded with a specific content type
    ([application/pdf] or an image type), never with the fallback
    [application/octet-stream]. *)
Theorem supported_formats_have_content_types (file_extension : string) :
  _get_content_type (Py.lower file_extension)
  = _get_content_type file_extension
  /\ (Py.str_in (Py.lower file_extension) ocr_service.SUPPORTED_FORMATS
      = true ->
      In (_get_content_type file_extension)
         ["application/pdf"; "image/png"; "image/jpeg"; "image/tiff"]%string).
Proof.
  split.
  - unfold _get_content_type. now rewrite lower_idempotent.
  - intros H. apply str_in_In in H. unfold _get_content_type.
    unfold ocr_service.SUPPORTED_FORMATS in H.
    destruct H as [H|[H|[H|[H|[H|[]]]]]]; rewrite <- H; cbn;
      auto 6.
Qed.

End Storage.

(* ------------------------------------------------------------------ *)
(** ** The OCR task with the uploader in place *)

Section Reupload.

Import ocr_env models_document.

Lemma run_ocr_task_return (envs : nat -> Env) (fuel : nat) :
  forall retries db db' res,
    ocr_tasks.run_ocr_task fuel envs retries db = (db', Some (Return res)) ->
    exists n db1,
      ocr_tasks.ocr_task (envs n) n db1 = (db', ocr_tasks.Succeeded res).
Proof.
  induction fuel as [|fuel IH]; intros retries db db' res; [discriminate|].
  cbn [ocr_tasks.run_ocr_task].
  destruct (ocr_tasks.ocr_task (envs retries) retries db)
    as [db1 [r|exc|c]] eqn:Ht.
  - intros H. injection H as <- <-. exists retries, db. exact Ht.
  - discriminate.
  - apply IH.
Qed.

Lemma uploader_missing_file (senv : utils_storage.Env)
    (w : utils_storage.World) (p i : string) :
  utils_storage.path_exists senv p = false ->
  s3.uploader senv w p i
  = Raise (OtherException "FileNotFoundError"
             (append "File not found at path: " p)).
Proof.
  intros H. unfold s3.uploader, utils_storage.upload_document_to_s3.
  rewrite H. reflexivity.
Qed.

Lemma uploader_returns_url (senv : utils_storage.Env)
    (w : utils_storage.World) (p i u : string) :
  s3.uploader senv w p i = Return u -> u = s3.url senv p i.
Proof.
  unfold s3.uploader.
  destruct (upload_document_to_s3_bounds senv p i w)
    as (n & s & r & -> & _ & _ & _ & Hu).
  cbn [snd]. intros ->. apply (Hu u eq_refl).
Qed.

(** X16.  When both uploads of the pipeline are done by
    [upload_document_to_s3] and no local file is named like an S3 URL, no
    execution of [ocr_task] succeeds: the task hands the URL stored by
    [process_document] to the uploader as a file path, which raises
    [FileNotFoundError].  A queued task for an existing document therefore
    always ends with an exception and the status [failed], however well
    the OCR went. *)
Theorem ocr_task_reupload_finds_no_file
    (senv : utils_storage.Env) (w1 w2 : utils_storage.World) (env : Env) :
  (forall p i, upload_document_to_s3 env p i = s3.uploader senv w1 p i) ->
  (forall p i, task_upload_document_to_s3 env p i = s3.uploader senv w2 p i) ->
  (forall p i, utils_storage.path_exists senv (s3.url senv p i) = false) ->
  (forall retries db db' r,
     ocr_tasks.ocr_task env retries db <> (db', ocr_tasks.Succeeded r))
  /\ (forall db d,
        row db = Some d ->
        exists db' exc final,
          ocr_tasks.run_ocr_task 4 (fun _ => env) 0 db
          = (db', Some (Raise exc))
          /\ row db' = Some final
          /\ status final = "failed"%string).
Proof.
  intros H1 H2 Hfs.
  assert (Hno : forall retries db db' r,
             ocr_tasks.ocr_task env retries db
             <> (db', ocr_tasks.Succeeded r)).
  { intros retries db db' r Hs.
    destruct (ocr_task_uploads_the_uploaded_url_aux env retries db db' r Hs)
      as (d & u & Hrow & Hu & Ht).
    rewrite H1 in Hu. apply uploader_returns_url in Hu. subst u.
    rewrite H2, (uploader_missing_file senv w2 _ _ (Hfs _ _)) in Ht.
    discriminate Ht. }
  split; [exact Hno|].
  intros db d Hrow.
  destruct (run_ocr_task_outcome (fun _ => env) 4 0 db d Hrow)
    as (db' & r & final & Hrun & Hfin & Hr).
  { unfold ocr_tasks.MAX_RETRIES. lia. }
  destruct r as [res|exc].
  - exfalso.
    destruct (run_ocr_task_return _ _ _ _ _ _ Hrun) as (n & db1 & Hs).
    exact (Hno _ _ _ _ Hs).
  - exists db', exc, final. split; [exact Hrun|]. split; [exact Hfin|].
    apply Hr.
Qed.

Lemma ocr_task_reupload_finds_no_file_witness :
  exists db' exc final,
    ocr_tasks.run_ocr_task 4 (fun _ => examples.invoice_env) 0
      (store_of (Some examples.invoice_document))
    = (db', Some (Raise exc))
    /\ row db' = Some final
    /\ status final = "failed"%string.
Proof.
  refine (proj2 (ocr_task_reupload_finds_no_file (s3.disk 0)
                   utils_storage.initial_world utils_storage.initial_world
                   examples.invoice_env _ _ _)
            (store_of (Some examples.invoice_document))
            examples.invoice_document _).
  - reflexivity.
  - reflexivity.
  - reflexivity.
  - reflexivity.
Defined.

End Reupload.

(* ------------------------------------------------------------------ *)
(** ** Further properties of the webhook delivery *)

Section WebhookFacts.

Import models_webhook webhook_env wire.
Local Open Scope Z_scope.

(** [send] posts at most one request, and exactly one when it returns. *)
Lemma send_general (env : Env) (webhook : Webhook) (payload : json.dict)
    (w : World) :
  exists new r,
    webhook_service.send env webhook payload w
    = ({| requests := requests w ++ new; slept := slept w;
          requeued := requeued w |}, r)
    /\ (length new <= 1)%nat
    /\ ((exists a, r = Return a) -> length new = 1%nat).
Proof.
  unfold webhook_service.send.
  destruct (validate_document_data env payload (event webhook)) as [[]|e].
  2:{ exists [], (Raise e). rewrite app_nil_r.
      split; [destruct w; reflexivity|]. split; [cbn; lia|].
      intros [a Ha]. discriminate Ha. }
  destruct (generate_token env _ _) as [token|e].
  2:{ exists [], (Raise e). rewrite app_nil_r.
      split; [destruct w; reflexivity|]. split; [cbn; lia|].
      intros [a Ha]. discriminate Ha. }
  unfold webhook_service.post, sent.
  set (req := {| request_url := _ |}).
  destruct (endpoint env _) as [code el|err];
    [destruct ((400 <=? code) && (code <? 600))|];
    exists [req]; eexists; (split; [reflexivity|]);
    (split; [cbn; lia|]); intros _; reflexivity.
Qed.

(** What one attempt does, whatever the collaborators do. *)
Lemma attempt_general (env : Env) (payload : json.dict) (w : World)
    (webhook : Webhook) :
  exists new webhook' r,
    webhook_service.trigger_webhook_attempt env payload (w, webhook)
    = (({| requests := requests w ++ new; slept := slept w;
           requeued := requeued w |}, webhook'), r)
    /\ (length new <= 1)%nat
    /\ same_identity webhook webhook'
    /\ match r with
       | Return true =>
           retry_count webhook' = retry_count webhook
           /\ status webhook' = "delivered"%string
           /\ length new = 1%nat
       | Return false =>
           retry_count webhook' = retry_count webhook + 1
           /\ 3 <= retry_count webhook'
           /\ status webhook' = "failed"%string
       | Raise e =>
           status webhook' = "failed"%string
           /\ ((is_RequestException e = false
                /\ retry_count webhook' = retry_count webhook)
               \/ (is_RequestException e = true
                   /\ retry_count webhook' = retry_count webhook + 1
                   /\ retry_count webhook' < 3))
       end.
Proof.
  unfold webhook_service.trigger_webhook_attempt.
  destruct (send_general env webhook payload w) as (new & r & -> & Hlen & Hret).
  destruct r as [[code t]|e].
  - exists new. do 2 eexists. split; [reflexivity|].
    split; [exact Hlen|]. split; [repeat split|].
    cbn. repeat split. apply Hret. eexists. reflexivity.
  - destruct (is_RequestException e) eqn:E.
    + destruct (retry_count webhook + 1 <? Z.of_nat webhook_service.MAX_RETRIES)
        eqn:L; exists new; do 2 eexists; (split; [reflexivity|]);
        (split; [exact Hlen|]); (split; [repeat split|]); cbn.
      * apply Z.ltb_lt in L. split; [reflexivity|]. right.
        repeat split; [exact E|exact L].
      * apply Z.ltb_ge in L. repeat split. exact L.
    + exists new. do 2 eexists. split; [reflexivity|].
      split; [exact Hlen|]. split; [repeat split|].
      cbn. split; [reflexivity|]. left. split; [exact E|reflexivity].
Qed.

(** The retry loop with [more] further attempts allowed. *)
Lemma retry_loop_general (env : Env) (payload : json.dict) (more : nat) :
  forall (w : World) (webhook : Webhook),
  exists new seconds webhook' r,
    webhook_service.retry_loop more webhook_service.RETRY_DELAY
      (webhook_service.trigger_webhook_attempt env payload) (w, webhook)
    = (({| requests := requests w ++ new; slept := slept w + seconds;
           requeued := requeued w |}, webhook'), r)
    /\ (length new <= more + 1)%nat
    /\ 0 <= seconds <= 5 * Z.of_nat more
    /\ same_identity webhook webhook'
    /\ retry_count webhook <= retry_count webhook'
       <= retry_count webhook + Z.of_nat more + 1
    /\ match r with
       | Return true =>
           status webhook' = "delivered"%string /\ (1 <= length new)%nat
       | Return false =>
           3 <= retry_count webhook' /\ status webhook' = "failed"%string
       | Raise e =>
           status webhook' = "failed"%string
           /\ seconds = 5 * Z.of_nat more
           /\ exists last, e = RetryError last
       end.
Proof.
  induction more as [|more IH]; intros w webhook;
    cbn [webhook_service.retry_loop];
    destruct (attempt_general env payload w webhook)
      as (new & wh1 & r & -> & Hlen & Hid & Hr).
  - destruct r as [[|]|e]; exists new, 0; do 2 eexists;
      (split; [rewrite Z.add_0_r; reflexivity|]);
      (split; [lia|]); (split; [lia|]); (split; [exact Hid|]).
    + destruct Hr as (Hrc & Hst & Hl). split; [lia|]. split; [exact Hst|lia].
    + destruct Hr as (Hrc & H3 & Hst). split; [lia|]. split; [exact H3|exact Hst].
    + destruct Hr as (Hst & Hrc). split; [destruct Hrc as [[_ ?]|[_ [? ?]]]; lia|].
      split; [exact Hst|]. split; [reflexivity|]. eexists; reflexivity.
  - destruct r as [[|]|e].
    + exists new, 0; do 2 eexists.
      split; [rewrite Z.add_0_r; reflexivity|].
      split; [lia|]. split; [lia|]. split; [exact Hid|].
      destruct Hr as (Hrc & Hst & Hl). split; [lia|]. split; [exact Hst|lia].
    + exists new, 0; do 2 eexists.
      split; [rewrite Z.add_0_r; reflexivity|].
      split; [lia|]. split; [lia|]. split; [exact Hid|].
      destruct Hr as (Hrc & H3 & Hst). split; [lia|]. split; [exact H3|exact Hst].
    + cbn [fst snd]. unfold sleep. cbn [requests slept requeued].
      destruct (IH {| requests := requests w ++ new;
                      slept := slept w + webhook_service.RETRY_DELAY;
                      requeued := requeued w |} wh1)
        as (new2 & s2 & wh2 & r2 & -> & Hlen2 & Hs2 & Hid2 & Hrc2 & Hr2).
      cbn [requests slept requeued].
      exists (new ++ new2), (webhook_service.RETRY_DELAY + s2), wh2, r2.
      split; [rewrite <- app_assoc, Z.add_assoc; reflexivity|].
      split; [rewrite length_app; lia|].
      split; [unfold webhook_service.RETRY_DELAY; lia|].
      split; [exact (same_identity_trans _ _ _ Hid Hid2)|].
      destruct Hr as (Hst & Hrc).
      split; [destruct Hrc as [[_ ?]|[_ [? ?]]]; lia|].
      destruct r2 as [[|]|e2].
      * destruct Hr2 as [Hd Hl]. split; [exact Hd|].
        rewrite length_app. lia.
      * exact Hr2.
      * destruct Hr2 as (Hf & Hsec & Hlast). split; [exact Hf|].
        split; [unfold webhook_service.RETRY_DELAY; lia|exact Hlast].
Qed.

(** X17.  One call of [trigger_webhook] sends at most 3 POSTs, sleeps at
    most 10 seconds, re-queues nothing, raises [retry_count] by at most 3
    and never lowers it, and keeps the identity columns and the
    [delivered] flag.  It returns [True] only with the status [delivered]
    after at least one POST, returns [False] only with [retry_count] at 3
    or more and the status [failed], and raises nothing but tenacity's
    [RetryError], after three attempts, with the status [failed]. *)
Theorem trigger_webhook_bounds
    (env : Env) (webhook : Webhook) (payload : json.dict) (w : World) :
  exists new seconds webhook' r,
    webhook_service.trigger_webhook env webhook payload w
    = (({| requests := requests w ++ new; slept := slept w + seconds;
           requeued := requeued w |}, webhook'), r)
    /\ (length new <= 3)%nat
    /\ 0 <= seconds <= 10
    /\ same_identity webhook webhook'
    /\ retry_count webhook <= retry_count webhook' <= retry_count webhook + 3
    /\ match r with
       | Return true =>
           status webhook' = "delivered"%string /\ (1 <= length new)%nat
       | Return false =>
           3 <= retry_count webhook' /\ status webhook' = "failed"%string
       | Raise e =>
           status webhook' = "failed"%string
           /\ seconds = 10
           /\ exists last, e = RetryError last
       end.
Proof.
  unfold webhook_service.trigger_webhook, webhook_service.retry.
  cbn [webhook_service.MAX_RETRIES Nat.sub].
  destruct (retry_loop_general env payload 2 w webhook)
    as (new & s & wh' & r & -> & Hlen & Hs & Hid & Hrc & Hr).
  exists new, s, wh', r. split; [reflexivity|].
  split; [lia|]. split; [lia|]. split; [exact Hid|]. split; [lia|].
  destruct r as [[|]|e]; [exact Hr|exact Hr|].
  destruct Hr as (Hf & Hsec & Hlast). split; [exact Hf|].
  split; [lia|exact Hlast].
Qed.

(** X18.  [process_webhook_event] never re-queues itself: when
    [trigger_webhook] returns [False] the count is already at 3 or more,
    so the branch that calls [self.retry] cannot be reached.  Whatever the
    collaborators do, one execution sends at most 3 POSTs, the worker is
    done after that one execution, and the task returns [True] only with
    the status [delivered] and the [delivered] flag set. *)
Theorem process_webhook_event_never_requeues
    (env : Env) (retries : nat) (payload : json.dict) (w : World)
    (row : option Webhook) :
  exists w' row' b,
    webhook_tasks.process_webhook_event env retries payload w row
    = (w', row', b)
    /\ requeued w' = requeued w
    /\ (length (requests w) <= length (requests w')
        <= length (requests w) + 3)%nat
    /\ (forall fuel,
          webhook_tasks.run_webhook_event (S fuel) env retries payload w row
          = (w', row', Some b))
    /\ (b = true ->
        exists webhook',
          row' = Some webhook'
          /\ status webhook' = "delivered"%string
          /\ delivered webhook' = true).
Proof.
  assert (Hrun : forall w' row' b,
             webhook_tasks.process_webhook_event env retries payload w row
             = (w', row', b) ->
             requeued w' = requeued w ->
             forall fuel,
               webhook_tasks.run_webhook_event (S fuel) env retries payload
                 w row = (w', row', Some b)).
  { intros w' row' b H Hq fuel. cbn [webhook_tasks.run_webhook_event].
    rewrite H, Hq, Nat.ltb_irrefl. reflexivity. }
  destruct (webhook_tasks.process_webhook_event env retries payload w row)
    as [[w' row'] b] eqn:H.
  exists w', row', b. split; [reflexivity|].
  assert (Hgoal : requeued w' = requeued w
                  /\ (length (requests w) <= length (requests w')
                      <= length (requests w) + 3)%nat
                  /\ (b = true ->
                      exists webhook',
                        row' = Some webhook'
                        /\ status webhook' = "delivered"%string
                        /\ delivered webhook' = true)).
  { revert H. unfold webhook_tasks.process_webhook_event.
    destruct row as [webhook|].
    2:{ intros H. injection H as <- <- <-.
        split; [reflexivity|]. split; [lia|]. discriminate. }
    destruct (validate_document_data env payload (event webhook)) as [[]|e].
    2:{ intros H. injection H as <- <- <-.
        split; [reflexivity|]. split; [lia|]. discriminate. }
    set (processing := webhook_tasks.update webhook _ _ "processing" _ _ _).
    set (enriched := json.set "metadata" _ payload).
    destruct (trigger_webhook_bounds env processing enriched w)
      as (new & s & wh' & r & -> & Hlen & Hs & Hid & Hrc & Hr).
    destruct r as [[|]|e].
    - intros H. injection H as <- <- <-. cbn [requests requeued].
      split; [reflexivity|]. split; [rewrite length_app; lia|].
      intros _. eexists. split; [reflexivity|]. split; reflexivity.
    - destruct Hr as [H3 _].
      assert ((retry_count wh' + 1 <? Z.of_nat webhook_tasks.MAX_RETRIES)
              = false) as ->
        by (apply Z.ltb_ge; unfold webhook_tasks.MAX_RETRIES; lia).
      intros H. injection H as <- <- <-. cbn [requests requeued].
      split; [reflexivity|]. split; [rewrite length_app; lia|]. discriminate.
    - intros H. injection H as <- <- <-. cbn [requests requeued].
      split; [reflexivity|]. split; [rewrite length_app; lia|]. discriminate. }
  destruct Hgoal as (Hq & Hn & Hb).
  split; [exact Hq|]. split; [exact Hn|].
  split; [apply Hrun; [reflexivity|exact Hq]|exact Hb].
Qed.

(** One attempt that fails before anything is sent. *)
Lemma attempt_without_delivery (env : Env) (payload : json.dict) (e : exn)
    (w : World) (webhook : Webhook) :
  (validate_document_data env payload (event webhook) = Raise e
   \/ (validate_document_data env payload (event webhook) = Return tt
       /\ generate_token env (id webhook)
            [("event"%string, json.Str (event webhook))] = Raise e)) ->
  is_RequestException e = false ->
  webhook_service.trigger_webhook_attempt env payload (w, webhook)
  = ((w, webhook_service.update webhook (retry_count webhook) "failed"
           (json.set "last_error"
              (json.Dict
                 [ ("timestamp"%string, json.Str (utcnow_isoformat env));
                   ("error"%string, json.Str (str e)) ])
              (metadata webhook))
           (delivered_at webhook)),
     Raise e).
Proof.
  intros H E.
  unfold webhook_service.trigger_webhook_attempt, webhook_service.send.
  destruct H as [->|[-> ->]]; rewrite E; reflexivity.
Qed.

(** What [trigger_webhook] does when an attempt fails before anything is
    sent. *)
Lemma trigger_webhook_raises
    (env : Env) (webhook : Webhook) (payload : json.dict) (w : World)
    (e : exn) :
  (validate_document_data env payload (event webhook) = Raise e
   \/ (validate_document_data env payload (event webhook) = Return tt
       /\ generate_token env (id webhook)
            [("event"%string, json.Str (event webhook))] = Raise e)) ->
  is_RequestException e = false ->
  exists webhook',
    webhook_service.trigger_webhook env webhook payload w
    = (({| requests := requests w; slept := slept w + 10;
           requeued := requeued w |}, webhook'),
       Raise (RetryError e))
    /\ same_identity webhook webhook'
    /\ retry_count webhook' = retry_count webhook
    /\ status webhook' = "failed"%string
    /\ json.get "last_error" (metadata webhook')
       = Some (json.Dict
                 [ ("timestamp"%string, json.Str (utcnow_isoformat env));
                   ("error"%string, json.Str (str e)) ])
    /\ delivered_at webhook' = delivered_at webhook.
Proof.
  intros H E.
  unfold webhook_service.trigger_webhook, webhook_service.retry.
  cbn [webhook_service.MAX_RETRIES Nat.sub webhook_service.retry_loop].
  rewrite (attempt_without_delivery env payload e w webhook H E).
  cbn [fst snd].
  set (wh1 := webhook_service.update webhook _ _ _ _).
  rewrite (attempt_without_delivery env payload e _ wh1 H E).
  cbn [fst snd].
  set (wh2 := webhook_service.update wh1 _ _ _ _).
  rewrite (attempt_without_delivery env payload e _ wh2 H E).
  eexists. split.
  - unfold sleep. cbn [requests slept requeued].
    unfold webhook_service.RETRY_DELAY.
    replace (slept w + 5 + 5) with (slept w + 10) by lia. reflexivity.
  - split; [repeat split|]. split; [reflexivity|]. split; [reflexivity|].
    split; [|reflexivity].
    cbn [metadata webhook_service.update]. apply get_set.
Qed.

(** X20.  When the payload does not validate or the token cannot be
    signed, [trigger_webhook] still goes through its three attempts: it
    sends nothing, sleeps 10 seconds, leaves [retry_count] as it was, marks
    the webhook [failed] with the error in [last_error], and raises
    tenacity's [RetryError] around the exception. *)
Theorem trigger_webhook_without_delivery
    (env : Env) (webhook : Webhook) (payload : json.dict) (w : World)
    (e : exn) :
  (validate_document_data env payload (event webhook) = Raise e
   \/ (validate_document_data env payload (event webhook) = Return tt
       /\ generate_token env (id webhook)
            [("event"%string, json.Str (event webhook))] = Raise e)) ->
  is_RequestException e = false ->
  exists webhook',
    webhook_service.trigger_webhook env webhook payload w
    = (({| requests := requests w; slept := slept w + 10;
           requeued := requeued w |}, webhook'),
       Raise (RetryError e))
    /\ same_identity webhook webhook'
    /\ retry_count webhook' = retry_count webhook
    /\ status webhook' = "failed"%string
    /\ json.get "last_error" (metadata webhook')
       = Some (json.Dict
                 [ ("timestamp"%string, json.Str (utcnow_isoformat env));
                   ("error"%string, json.Str (str e)) ]).
Proof.
  intros H E.
  destruct (trigger_webhook_raises env webhook payload w e H E)
    as (webhook' & Ht & Hid & Hrc & Hst & Hmd & _).
  exists webhook'.
  split; [exact Ht|]. split; [exact Hid|]. split; [exact Hrc|].
  split; [exact Hst|exact Hmd].
Qed.

Lemma trigger_webhook_without_delivery_witness :
  exists webhook',
    webhook_service.trigger_webhook
      {| validate_document_data :=
           fun _ _ => Raise (ValidationException "merchant_name is required");
         generate_token := fun _ _ => Return "signed-token"%string;
         endpoint := examples.live_endpoint;
         utcnow := "2024-01-01 00:00:00";
         utcnow_isoformat := "2024-01-01T00:00:00";
         task_id := "task-2";
         task_processing_time := 0 |}
      examples.hook examples.event_payload initial_world
    = (({| requests := []; slept := 10; requeued := [] |}, webhook'),
       Raise (RetryError (ValidationException "merchant_name is required")))
    /\ same_identity examples.hook webhook'
    /\ retry_count webhook' = 0
    /\ status webhook' = "failed"%string
    /\ json.get "last_error" (metadata webhook')
       = Some (json.Dict
                 [ ("timestamp"%string, json.Str "2024-01-01T00:00:00");
                   ("error"%string, json.Str "merchant_name is required") ]).
Proof.
  refine (trigger_webhook_without_delivery _ examples.hook
            examples.event_payload initial_world
            (ValidationException "merchant_name is required") _ _).
  - left. reflexivity.
  - reflexivity.
Defined.

End WebhookFacts.

(* ------------------------------------------------------------------ *)
(** ** The OCR endpoint *)

Section Endpoint.

Import ocr_env models_document endpoints_ocr.
Local Open Scope Z_scope.

(** X22.  [create_ocr_request] answers 201 with the OCR record exactly
    when the user may process documents and [process_document] returns;
    every other request is answered 422 with the store unchanged.  The
    handler never answers 400 or 403: the refusal of a user without the
    permission is raised inside the [try] and re-raised as 422, and
    [process_document] raises no [ValueError]. *)
Theorem create_ocr_request_answers_201_or_422
    (env : Env) (current_user : User) (db : Store) :
  match create_ocr_request env current_user db with
  | (db', Response status_code body) =>
      status_code = 201
      /\ can_process_documents current_user = true
      /\ ocr_service.process_document env db = (db', Return body)
  | (db', ErrorResponse status_code detail) =>
      status_code = 422
      /\ db' = db
      /\ (can_process_documents current_user = false
          \/ exists e, ocr_service.process_document env db = (db, Raise e)
                       /\ detail = append "OCR processing failed: " (str e))
  end.
Proof.
  unfold create_ocr_request.
  destruct (can_process_documents current_user) eqn:Hu; cbn [negb].
  2:{ repeat split. left. reflexivity. }
  destruct (ocr_service.process_document env db) as [db' [rec|e]] eqn:Hp.
  - repeat split.
  - destruct (process_document_raise env db db' e Hp) as [-> He].
    assert (is_ValueError e = false) as ->
      by (destruct e; try discriminate He; reflexivity).
    repeat split. right. exists e. split; reflexivity.
Qed.

End Endpoint.

(* ------------------------------------------------------------------ *)
(** ** Registration and update of a webhook *)

Section Registry.

Import models_webhook webhook_env wire webhook_registry.
Local Open Scope Z_scope.




End Registry.

(* ------------------------------------------------------------------ *)
(** ** Validation of document data *)

Section Validation.

Import utils_validation formats.
Local Open Scope string_scope.

Lemma match_dollar (s : string) :
  match_from Dollar (fun _ => true) s = true <-> end_of_line s.
Proof.
  unfold end_of_line. destruct s as [|c [|c' s]]; cbn -[Ascii.eqb].
  - split; [now left|reflexivity].
  - rewrite andb_true_r. split.
    + intros E. apply Ascii.eqb_eq in E. subst c. now right.
    + intros [E|E]; [discriminate|]. injection E as ->. reflexivity.
  - split; [discriminate|]. intros [E|E]; discriminate.
Qed.

Ltac next_char s E c H :=
  destruct s as [|c s]; [cbn -[d Ascii.eqb] in E; discriminate|];
  cbn -[d Ascii.eqb] in E; apply andb_prop in E; destruct E as [H E].

Ltac all_digits :=
  repeat match goal with
         | H : Forall _ (_ :: _) |- _ => inversion H; clear H; subst
         end;
  cbn -[d Ascii.eqb];
  repeat match goal with H : d _ = true |- _ => rewrite H; clear H end;
  cbn -[d].

Lemma EIN_match (s : string) :
  re_match EIN s = true
  <-> exists a b tail,
        s = a ++ "-" ++ b ++ tail
        /\ digits 2 a /\ digits 7 b /\ end_of_line tail.
Proof.
  unfold re_match. split.
  - intros E. unfold EIN in E.
    next_char s E c1 H1. next_char s E c2 H2. next_char s E c3 H3.
    next_char s E c4 H4. next_char s E c5 H5. next_char s E c6 H6.
    next_char s E c7 H7. next_char s E c8 H8. next_char s E c9 H9.
    next_char s E c10 H10.
    apply Ascii.eqb_eq in H3. subst c3.
    apply match_dollar in E.
    exists (String c1 (String c2 "")),
      (String c4 (String c5 (String c6 (String c7 (String c8
         (String c9 (String c10 ""))))))), s.
    split; [reflexivity|]. split; [|split; [|exact E]].
    + split; [reflexivity|]. cbn. repeat constructor; assumption.
    + split; [reflexivity|]. cbn. repeat constructor; assumption.
  - intros (a & b & tail & -> & [La Da] & [Lb Db] & Ht).
    destruct a as [|a1 [|a2 [|? ?]]]; try discriminate La.
    destruct b as [|b1 [|b2 [|b3 [|b4 [|b5 [|b6 [|b7 [|? ?]]]]]]]];
      try discriminate Lb.
    cbn in Da, Db. unfold EIN. all_digits.
    apply match_dollar in Ht. exact Ht.
Qed.

Lemma SSN_match (s : string) :
  re_match SSN s = true
  <-> exists a b c tail,
        s = a ++ "-" ++ b ++ "-" ++ c ++ tail
        /\ digits 3 a /\ digits 2 b /\ digits 4 c /\ end_of_line tail.
Proof.
  unfold re_match. split.
  - intros E. unfold SSN in E.
    next_char s E c1 H1. next_char s E c2 H2. next_char s E c3 H3.
    next_char s E c4 H4. next_char s E c5 H5. next_char s E c6 H6.
    next_char s E c7 H7. next_char s E c8 H8. next_char s E c9 H9.
    next_char s E c10 H10. next_char s E c11 H11.
    apply Ascii.eqb_eq in H4. subst c4.
    apply Ascii.eqb_eq in H7. subst c7.
    apply match_dollar in E.
    exists (String c1 (String c2 (String c3 ""))),
      (String c5 (String c6 "")),
      (String c8 (String c9 (String c10 (String c11 "")))), s.
    split; [reflexivity|].
    repeat split; try exact E; cbn; repeat constructor; assumption.
  - intros (a & b & c & tail & -> & [La Da] & [Lb Db] & [Lc Dc] & Ht).
    destruct a as [|a1 [|a2 [|a3 [|? ?]]]]; try discriminate La.
    destruct b as [|b1 [|b2 [|? ?]]]; try discriminate Lb.
    destruct c as [|c1 [|c2 [|c3 [|c4 [|? ?]]]]]; try discriminate Lc.
    cbn in Da, Db, Dc. unfold SSN. all_digits.
    apply match_dollar in Ht. exact Ht.
Qed.

(** X27.  On strings of code points below 256, [validate_ein] returns
    [True] exactly for a string of two digits, a hyphen and seven digits, and [validate_ssn] for three
    digits, a hyphen, two digits, a hyphen and four digits, in both cases
    with or without one newline at the end, which [$] lets through.
    Every other string raises [ValidationException], and a value that is
    not a string raises the [TypeError] of [re.match]; neither function
    returns [False]. *)
Theorem validate_ein_and_ssn_allow_a_final_newline (v : json.value) :
  (validate_ein v = Return true
   <-> exists a b tail,
         v = json.Str (a ++ "-" ++ b ++ tail)
         /\ digits 2 a /\ digits 7 b /\ end_of_line tail)
  /\ (validate_ssn v = Return true
      <-> exists a b c tail,
            v = json.Str (a ++ "-" ++ b ++ "-" ++ c ++ tail)
            /\ digits 3 a /\ digits 2 b /\ digits 4 c /\ end_of_line tail)
  /\ (validate_ein v = Return true
      \/ (exists s, v = json.Str s
                    /\ validate_ein v
                       = Raise (ValidationException "Invalid EIN format"))
      \/ ((forall s, v <> json.Str s)
          /\ exists e, validate_ein v = Raise e
                       /\ type_name e = "TypeError"))
  /\ (validate_ssn v = Return true
      \/ (exists s, v = json.Str s
                    /\ validate_ssn v
                       = Raise (ValidationException "Invalid SSN format"))
      \/ ((forall s, v <> json.Str s)
          /\ exists e, validate_ssn v = Raise e
                       /\ type_name e = "TypeError")).
Proof.
  unfold validate_ein, validate_ssn, re_match_value.
  destruct v as [|b|z|q|s|l|f];
    try (split; [|split; [|split]];
         [ split; [discriminate|intros (? & ? & ? & E & _); discriminate E]
         | split; [discriminate
                  |intros (? & ? & ? & ? & E & _); discriminate E]
         | right; right; split;
           [intros ? E; discriminate E|eexists; split; reflexivity]
         | right; right; split;
           [intros ? E; discriminate E|eexists; split; reflexivity] ]).
  pose proof (EIN_match s) as He. pose proof (SSN_match s) as Hs.
  split; [|split; [|split]].
  - destruct (re_match EIN s).
    + split; [intros _|reflexivity].
      destruct (proj1 He eq_refl) as (a & b & tail & -> & H).
      exists a, b, tail. split; [reflexivity|exact H].
    + split; [discriminate|].
      intros (a & b & tail & E & H). injection E as ->.
      assert (false = true) as F; [|discriminate F].
      apply He. exists a, b, tail. split; [reflexivity|exact H].
  - destruct (re_match SSN s).
    + split; [intros _|reflexivity].
      destruct (proj1 Hs eq_refl) as (a & b & c & tail & -> & H).
      exists a, b, c, tail. split; [reflexivity|exact H].
    + split; [discriminate|].
      intros (a & b & c & tail & E & H). injection E as ->.
      assert (false = true) as F; [|discriminate F].
      apply Hs. exists a, b, c, tail. split; [reflexivity|exact H].
  - destruct (re_match EIN s); [left; reflexivity|].
    right; left. exists s. split; reflexivity.
  - destruct (re_match SSN s); [left; reflexivity|].
    right; left. exists s. split; reflexivity.
Qed.

Lemma match_seq (a b : regex) (k : string -> bool) (s : string) :
  match_from (Seq a b) k s = match_from a (match_from b k) s.
Proof. reflexivity. Qed.

Lemma match_eps (k : string -> bool) (s : string) :
  match_from Eps k s = k s.
Proof. reflexivity. Qed.

Lemma match_opt (a : regex) (k : string -> bool) (s : string) :
  match_from (Opt a) k s = match_from a k s || k s.
Proof. reflexivity. Qed.

Lemma match_chr (p : ascii -> bool) (k : string -> bool) (s : string) :
  match_from (Chr p) k s = true ->
  exists c s', s = String c s' /\ p c = true /\ k s' = true.
Proof.
  destruct s as [|c s']; cbn; [discriminate|].
  intros E. apply andb_prop in E. exists c, s'. tauto.
Qed.

Lemma isdigit_d (c : ascii) : d c = true -> isdigit c = true.
Proof. unfold isdigit. intros ->. reflexivity. Qed.

Lemma filter_isdigit_digit (c : ascii) (s : string) :
  d c = true -> filter_isdigit (String c s) = String c (filter_isdigit s).
Proof. intros H. cbn [filter_isdigit]. now rewrite (isdigit_d c H). Qed.

Lemma sep_cases (c : ascii) :
  (Ascii.eqb c "-" || Ascii.eqb c ".") = true
  -> c = "-"%char \/ c = "."%char.
Proof.
  intros H. apply orb_prop in H. destruct H as [H|H];
    apply Ascii.eqb_eq in H; auto.
Qed.

(** Every way in which the matcher gets through a pattern: a sequence is
    split, an optional part is taken or left, a character is read. *)
Ltac paths E :=
  repeat first
    [ rewrite match_seq in E
    | rewrite match_eps in E
    | rewrite match_opt in E; apply orb_prop in E; destruct E as [E|E]
    | let c := fresh "c" in
      let s := fresh "s" in
      let H := fresh "H" in
      apply match_chr in E; destruct E as (c & s & -> & H & E) ].

(** A number that matches the pattern has ten digits, or eleven with the
    country code. *)
Lemma PHONE_digits (phone : string) :
  re_match PHONE phone = true ->
  String.length (filter_isdigit phone) = 10%nat
  \/ String.length (filter_isdigit phone) = 11%nat.
Proof.
  unfold re_match, PHONE, sep, lit. cbn [seq times]. intros E.
  paths E.
  all: apply match_dollar in E; destruct E as [-> | ->].
  all: repeat match goal with
         | H : Ascii.eqb _ _ = true |- _ => apply Ascii.eqb_eq in H; subst
         | H : (Ascii.eqb _ _ || Ascii.eqb _ _) = true |- _ =>
             apply sep_cases in H; destruct H; subst
         end.
  all: repeat match goal with
         | H : d ?c = true |- context [filter_isdigit (String ?c _)] =>
             rewrite (filter_isdigit_digit c _ H)
         | |- context [filter_isdigit (String "+" ?s)] =>
             change (filter_isdigit (String "+" s)) with (filter_isdigit s)
         | |- context [filter_isdigit (String "-" ?s)] =>
             change (filter_isdigit (String "-" s)) with (filter_isdigit s)
         | |- context [filter_isdigit (String "." ?s)] =>
             change (filter_isdigit (String "." s)) with (filter_isdigit s)
         | |- context [filter_isdigit (String "1" ?s)] =>
             change (filter_isdigit (String "1" s))
               with (String "1" (filter_isdigit s))
         end.
  all: cbn; auto.
Qed.

(** X28.  [validate_phone] returns [True] exactly for the numbers that
    match the pattern.  A match has 10 or 11 digits, so the count of the
    digits, which is checked first, never refuses a number that the
    pattern accepts: it only decides which of the two messages a refused
    number gets.  The function never returns [False]. *)
Theorem validate_phone_accepts_what_the_pattern_matches (phone : string) :
  (validate_phone phone = Return true <-> re_match PHONE phone = true)
  /\ (re_match PHONE phone = true ->
      (PHONE_MIN_DIGITS <= String.length (filter_isdigit phone)
       <= PHONE_MAX_DIGITS)%nat)
  /\ (validate_phone phone
      = Raise (ValidationException "Invalid phone number length") ->
      re_match PHONE phone = false)
  /\ (validate_phone phone = Return true
      \/ validate_phone phone
         = Raise (ValidationException "Invalid phone number length")
      \/ validate_phone phone
         = Raise (ValidationException "Invalid phone number format")).
Proof.
  assert (Hd : re_match PHONE phone = true ->
               (PHONE_MIN_DIGITS <= String.length (filter_isdigit phone)
                <= PHONE_MAX_DIGITS)%nat).
  { intros E. unfold PHONE_MIN_DIGITS, PHONE_MAX_DIGITS.
    destruct (PHONE_digits phone E) as [-> | ->]; lia. }
  unfold validate_phone.
  destruct (re_match PHONE phone) eqn:E.
  - destruct (Hd eq_refl) as [Hmin Hmax].
    apply Nat.leb_le in Hmin. apply Nat.leb_le in Hmax.
    rewrite Hmin, Hmax. cbn [andb negb].
    split; [split; reflexivity|]. split; [exact Hd|].
    split; [discriminate|left; reflexivity].
  - split.
    { split; [|discriminate].
      destruct (negb (_ && _)); cbn [negb]; discriminate. }
    split; [discriminate|]. split; [reflexivity|].
    destruct (negb (_ && _)); cbn [negb]; [right; left|right; right];
      reflexivity.
Qed.

(** The loop of [create_validation_model] comes to its end only over
    field specifications that are dictionaries. *)
Lemma field_definitions_return (items : list (string * json.value))
    (definitions : list (string * field_definition)) :
  field_definitions items = Return definitions ->
  Forall (fun item => exists spec, snd item = json.Dict spec) items
  /\ map fst definitions = map fst items.
Proof.
  revert definitions.
  induction items as [|[name spec] items IH]; intros definitions.
  - intros E. injection E as <-. split; constructor.
  - cbn [field_definitions].
    destruct spec as [|b|z|q|s|l|fields]; try discriminate.
    destruct (pattern_is_named _) as [named|e]; [|discriminate].
    destruct (field_definitions items) as [defs|e]; [|discriminate].
    intros E. injection E as <-.
    destruct (IH defs eq_refl) as [Hall Hkeys].
    split.
    + constructor; [eexists; reflexivity|exact Hall].
    + cbn [map fst]. now rewrite Hkeys.
Qed.

(** X29.  [validate_document_data] needs a dictionary of dictionaries as
    its rules.  Called with the data alone it raises [TypeError]; with
    rules that are not a dictionary, a string such as an event name
    included, it raises the [AttributeError] of [field_specs.items()],
    which its handler does not turn into a [ValidationException]; and it
    returns only [True], only for rules that are a dictionary whose
    values are dictionaries, one field definition for each, and only when
    the model built from them accepts the data. *)
Theorem validate_document_data_needs_a_dictionary_of_rules
    (lib : Libraries) (document_data : json.dict) :
  validate_document_data lib document_data None
  = Raise (OtherException "TypeError"
             "validate_document_data() missing 1 required positional argument: 'validation_rules'")
  /\ (forall rules,
        (forall items, rules <> json.Dict items) ->
        validate_document_data lib document_data (Some rules)
        = Raise (AttributeError rules "items")
        /\ type_name (AttributeError rules "items") = "AttributeError"
        /\ is_CustomException (AttributeError rules "items") = false)
  /\ (forall event,
        validate_document_data lib document_data (Some (json.Str event))
        = Raise (OtherException "AttributeError"
                   "'str' object has no attribute 'items'"))
  /\ (forall rules b,
        validate_document_data lib document_data (Some rules) = Return b ->
        b = true
        /\ exists items definitions,
             rules = json.Dict items
             /\ Forall (fun item => exists spec, snd item = json.Dict spec)
                  items
             /\ field_definitions items = Return definitions
             /\ map fst definitions = map fst items
             /\ create_and_validate lib definitions document_data
                = ModelValid).
Proof.
  split; [reflexivity|]. split; [|split].
  - intros rules H.
    destruct rules as [|b|z|q|s|l|items];
      try (split; [reflexivity|split; reflexivity]).
    now destruct (H items).
  - reflexivity.
  - intros rules b. unfold validate_document_data, create_validation_model.
    destruct rules as [|b'|z|q|s|l|items]; try discriminate.
    destruct (field_definitions items) as [definitions|e] eqn:Ed;
      [|discriminate].
    destruct (create_and_validate lib definitions document_data) eqn:Ev;
      try discriminate.
    destruct (when_present "ein" _ _); [|discriminate].
    destruct (when_present "ssn" _ _); [|discriminate].
    destruct (when_present "revenue" _ _); [|discriminate].
    intros E. injection E as <-. split; [reflexivity|].
    destruct (field_definitions_return items definitions Ed) as [Hall Hk].
    exists items, definitions. repeat split; assumption.
Qed.

End Validation.

(* ------------------------------------------------------------------ *)
(** ** The dispatch and the pipeline with the repository's validation *)

Section Repository.

Import models_webhook webhook_env wire.
Local Open Scope Z_scope.

Variable lib : utils_validation.Libraries.

(** [validate_document_data(payload, webhook.event)]: the event is a
    string, [create_validation_model] asks it for its [items], and the
    [AttributeError] is not the [ValidationError] that the handler of
    [validate_document_data] catches. *)
Lemma validate_payload_raises (payload : json.dict) (event : string) :
  repository.validate_payload lib payload event = Raise repository.no_items.
Proof. reflexivity. Qed.

(** [validate_document_data(document.to_dict())]: the second argument is
    missing. *)
Lemma validate_document_raises (document : models_document.Document) :
  repository.validate_document lib document
  = Raise repository.missing_argument.
Proof. reflexivity. Qed.

Lemma repository_webhook_raises (env : Env) :
  repository.webhook lib env ->
  forall payload event,
    validate_document_data env payload event = Raise repository.no_items.
Proof.
  intros H payload event. rewrite H. apply validate_payload_raises.
Qed.

(** One call of [trigger_webhook] in the repository. *)
Lemma repository_trigger (env : Env) (webhook : Webhook)
    (payload : json.dict) (w : World) :
  repository.webhook lib env ->
  exists webhook',
    webhook_service.trigger_webhook env webhook payload w
    = (({| requests := requests w; slept := slept w + 10;
           requeued := requeued w |}, webhook'),
       Raise (RetryError repository.no_items))
    /\ same_identity webhook webhook'
    /\ retry_count webhook' = retry_count webhook
    /\ delivered_at webhook' = delivered_at webhook
    /\ status webhook' = "failed"%string
    /\ json.get "last_error" (metadata webhook')
       = Some (json.Dict
                 [ ("timestamp"%string, json.Str (utcnow_isoformat env));
                   ("error"%string,
                     json.Str "'str' object has no attribute 'items'") ]).
Proof.
  intros H.
  destruct (trigger_webhook_raises env webhook payload w repository.no_items
              (or_introl (repository_webhook_raises env H payload
                            (event webhook)))
              eq_refl)
    as (webhook' & Ht & Hid & Hrc & Hst & Hmd & Hat).
  exists webhook'.
  split; [exact Ht|]. split; [exact Hid|]. split; [exact Hrc|].
  split; [exact Hat|]. split; [exact Hst|exact Hmd].
Qed.

(** One execution of [process_webhook_event] in the repository. *)
Lemma repository_task (env : Env) (retries : nat) (payload : json.dict)
    (w : World) (webhook : Webhook) :
  repository.webhook lib env ->
  exists webhook',
    webhook_tasks.process_webhook_event env retries payload w (Some webhook)
    = (w, Some webhook', false)
    /\ same_identity webhook webhook'
    /\ retry_count webhook' = retry_count webhook
    /\ delivered_at webhook' = delivered_at webhook
    /\ status webhook' = "failed"%string
    /\ metadata webhook'
       = [ ("error"%string, json.Str "Payload validation failed");
           ("details"%string,
             json.Str "'str' object has no attribute 'items'");
           ("timestamp"%string, json.Str (utcnow_isoformat env)) ].
Proof.
  intros H. unfold webhook_tasks.process_webhook_event.
  rewrite (repository_webhook_raises env H payload (event webhook)).
  eexists. split; [reflexivity|]. repeat split.
Qed.

(** Consecutive calls of [trigger_webhook] in the repository. *)
Lemma repository_trigger_calls (env : Env) (payloads : list json.dict) :
  repository.webhook lib env ->
  forall (w : World) (webhook : Webhook),
  exists w' webhook',
    dispatch.trigger_calls env payloads w webhook
    = (w', webhook',
       map (fun _ => Raise (RetryError repository.no_items)) payloads)
    /\ requests w' = requests w
    /\ slept w' = slept w + 10 * Z.of_nat (length payloads)
    /\ requeued w' = requeued w
    /\ retry_count webhook' = retry_count webhook
    /\ delivered webhook' = delivered webhook
    /\ (payloads <> [] -> status webhook' = "failed"%string).
Proof.
  intros H. induction payloads as [|payload payloads IH]; intros w webhook.
  - exists w, webhook. cbn [dispatch.trigger_calls map length Z.of_nat].
    repeat split; try reflexivity; try lia. intros E. now destruct E.
  - destruct (repository_trigger env webhook payload w H)
      as (wh1 & Ht & Hid & Hrc & _ & Hst & _).
    cbn [dispatch.trigger_calls map]. rewrite Ht.
    destruct (IH {| requests := requests w; slept := slept w + 10;
                    requeued := requeued w |} wh1)
      as (w' & wh' & Hc & Hrq & Hsl & Hq & Hrc' & Hd & Hst').
    rewrite Hc. exists w', wh'. split; [reflexivity|].
    cbn [requests slept requeued] in Hrq, Hsl, Hq.
    split; [exact Hrq|]. split.
    { rewrite Hsl. cbn [length]. lia. }
    split; [exact Hq|]. split; [congruence|]. split.
    { rewrite Hd. apply Hid. }
    intros _. destruct payloads as [|p' ps].
    + cbn [dispatch.trigger_calls] in Hc. injection Hc as _ <-. exact Hst.
    + apply Hst'. discriminate.
Qed.

(** C3 (the code departs from it).  In the repository a call of
    [trigger_webhook] never gets as far as a POST: payload validation
    raises at each of the three attempts of the call, and that failure is
    not counted.  So three consecutive trigger calls on a webhook as
    registered, whatever the endpoint would do, all fail with tenacity's
    [RetryError], send nothing, and leave [retry_count] at 0, not 3, with
    the status [failed]; the task fails in the same way, counts nothing
    either and re-queues nothing. *)
Theorem C3_failed_trigger_calls_are_not_counted
    (env : Env) (id application_id event url : string)
    (metadata : json.dict) (p1 p2 p3 : json.dict) (retries : nat)
    (w : World) :
  repository.webhook lib env ->
  let webhook :=
    webhook_service.register_webhook id application_id event url metadata in
  (exists w' webhook',
     dispatch.trigger_calls env [p1; p2; p3] w webhook
     = (w', webhook',
        [ Raise (RetryError repository.no_items);
          Raise (RetryError repository.no_items);
          Raise (RetryError repository.no_items) ])
     /\ requests w' = requests w
     /\ slept w' = slept w + 30
     /\ requeued w' = requeued w
     /\ retry_count webhook' = 0
     /\ status webhook' = "failed"%string)
  /\ (exists webhook',
        webhook_tasks.process_webhook_event env retries p1 w (Some webhook)
        = (w, Some webhook', false)
        /\ retry_count webhook' = 0
        /\ status webhook' = "failed"%string).
Proof.
  intros H webhook. split.
  - destruct (repository_trigger_calls env [p1; p2; p3] H w webhook)
      as (w' & wh' & Hc & Hrq & Hsl & Hq & Hrc & _ & Hst).
    exists w', wh'. split; [exact Hc|]. split; [exact Hrq|].
    split; [rewrite Hsl; reflexivity|]. split; [exact Hq|].
    split; [rewrite Hrc; reflexivity|]. apply Hst. discriminate.
  - destruct (repository_task env retries p1 w webhook H)
      as (wh' & Ht & _ & Hrc & _ & Hst & _).
    exists wh'. split; [exact Ht|]. split; [rewrite Hrc; reflexivity|exact Hst].
Qed.

(** What registration and update make of [retry_count]. *)
Lemma register_webhook_retry_count (renv : webhook_registry.Env)
    (webhook_data : webhook_registry.WebhookCreate)
    (probes probes' : list webhook_registry.Probe) (webhook : Webhook)
    (r : result Webhook) :
  webhook_registry.register_webhook renv webhook_data probes
  = (probes', Some webhook, r) ->
  retry_count webhook = 0.
Proof.
  unfold webhook_registry.register_webhook.
  destruct (webhook_registry.probe renv _ probes) as [p [[]|e]];
    [|discriminate].
  destruct (webhook_registry.db_commit renv) as [[]|e]; [|discriminate].
  intros E. injection E as _ <- _. reflexivity.
Qed.

Lemma update_webhook_retry_count (renv : webhook_registry.Env)
    (webhook_id : string) (webhook_data : webhook_registry.WebhookCreate)
    (probes probes' : list webhook_registry.Probe)
    (webhook webhook' : Webhook) (r : result Webhook) :
  webhook_registry.update_webhook renv webhook_id webhook_data probes
    (Some webhook)
  = (probes', Some webhook', r) ->
  retry_count webhook' = retry_count webhook \/ retry_count webhook' = 0.
Proof.
  unfold webhook_registry.update_webhook.
  destruct (negb _).
  - destruct (webhook_registry.probe renv _ probes) as [p [[]|e]].
    + destruct (webhook_registry.db_commit renv) as [[]|e];
        intros E; injection E as _ <- _; [right|left]; reflexivity.
    + intros E; injection E as _ <- _. left. reflexivity.
  - destruct (webhook_registry.db_commit renv) as [[]|e];
      intros E; injection E as _ <- _; left; reflexivity.
Qed.

Lemma reachable_retry_count (webhook : Webhook) :
  dispatch.reachable lib webhook -> retry_count webhook = 0.
Proof.
  induction 1 as [renv data probes probes' webhook Hreg
                 |renv wid data probes probes' webhook webhook' r _ IH Hupd
                 |env payload w w' webhook webhook' r Henv _ IH Htrig
                 |env retries payload w w' webhook webhook' b Henv _ IH Htask].
  - exact (register_webhook_retry_count _ _ _ _ _ _ Hreg).
  - destruct (update_webhook_retry_count _ _ _ _ _ _ _ _ Hupd) as [E|E];
      congruence.
  - destruct (repository_trigger env webhook payload w Henv)
      as (wh & Ht & _ & Hrc & _).
    rewrite Ht in Htrig. injection Htrig as _ <- _. congruence.
  - destruct (repository_task env retries payload w webhook Henv)
      as (wh & Ht & _ & Hrc & _).
    rewrite Ht in Htask. injection Htask as _ <- . congruence.
Qed.

(** C4.  Every webhook record that the repository's dispatch can reach
    has [retry_count <= MAX_RETRIES]: registration stores 0, an update
    keeps the count or resets it to 0, and [trigger_webhook] and
    [process_webhook_event] both leave the count of any record as it is,
    because payload validation raises before either of their increments
    is reached.  So the count of a reachable record is 0, and both
    operations preserve the bound. *)
Theorem C4_retry_count_within_MAX_RETRIES :
  (forall webhook : Webhook,
     dispatch.reachable lib webhook ->
     retry_count webhook = 0
     /\ retry_count webhook <= Z.of_nat webhook_service.MAX_RETRIES
     /\ retry_count webhook <= Z.of_nat webhook_tasks.MAX_RETRIES)
  /\ (forall (env : Env) (webhook : Webhook) (payload : json.dict)
             (w : World),
        repository.webhook lib env ->
        retry_count
          (snd (fst (webhook_service.trigger_webhook env webhook payload w)))
        = retry_count webhook)
  /\ (forall (env : Env) (retries : nat) (payload : json.dict) (w : World)
             (webhook : Webhook),
        repository.webhook lib env ->
        exists webhook',
          webhook_tasks.process_webhook_event env retries payload w
            (Some webhook)
          = (w, Some webhook', false)
          /\ retry_count webhook' = retry_count webhook).
Proof.
  split; [|split].
  - intros webhook H. pose proof (reachable_retry_count webhook H) as E.
    split; [exact E|]. rewrite E. split; cbn; lia.
  - intros env webhook payload w Henv.
    destruct (repository_trigger env webhook payload w Henv)
      as (wh & -> & _ & Hrc & _).
    exact Hrc.
  - intros env retries payload w webhook Henv.
    destruct (repository_task env retries payload w webhook Henv)
      as (wh & Ht & _ & Hrc & _).
    exists wh. split; assumption.
Qed.

(** C9 (the code departs from it).  In the repository [trigger_webhook]
    posts nothing: payload validation raises in each of the three
    attempts before the token is signed and the request is built, the
    call sleeps twice and ends in tenacity's [RetryError].  The request
    that lines 163-203 build does have the stated body and headers, for
    whatever validation would let an attempt through (last conjunct), but
    no webhook that is triggered receives it. *)
Theorem C9_trigger_webhook_posts_nothing (env : Env) (webhook : Webhook)
    (payload : json.dict) (w : World) :
  repository.webhook lib env ->
  requests (fst (fst (webhook_service.trigger_webhook env webhook payload w)))
  = requests w
  /\ snd (webhook_service.trigger_webhook env webhook payload w)
     = Raise (RetryError repository.no_items)
  /\ slept (fst (fst (webhook_service.trigger_webhook env webhook payload w)))
     = slept w + 10
  /\ (forall (env0 : Env) (webhook0 : Webhook) (payload0 : json.dict)
             (w0 : World),
        exists new,
          requests (fst (fst (webhook_service.trigger_webhook env0 webhook0
                                payload0 w0)))
          = requests w0 ++ new
          /\ Forall (wire_request env0 webhook0 payload0) new).
Proof.
  intros H.
  destruct (repository_trigger env webhook payload w H) as (wh & -> & _).
  cbn [fst snd requests slept]. repeat split.
  intros env0 webhook0 payload0 w0.
  unfold webhook_service.trigger_webhook, webhook_service.retry.
  destruct (retry_loop_sends env0 payload0 webhook0
              (webhook_service.MAX_RETRIES - 1) w0 webhook0
              (same_identity_refl webhook0))
    as (new & sl & wh' & r & -> & _ & Hnew & _).
  exists new. cbn [fst requests]. split; [reflexivity|exact Hnew].
Qed.

(** C10 (the code departs from it).  In the repository no delivery
    succeeds, whatever the endpoint would answer, a 2xx included:
    [trigger_webhook] never returns [True], it raises [RetryError] and
    leaves the status [failed] and [delivered_at] as it was, and
    [process_webhook_event] returns [False] with the status [failed], so
    the [delivered] flag is never set.  The frame half of the statement
    holds of the code: [trigger_webhook] writes [delivered] on no path,
    the flag is [False] after registration, and the task sets it exactly
    when it returns [True]. *)
Theorem C10_delivery_never_succeeds (env : Env) (webhook : Webhook)
    (payload : json.dict) (retries : nat) (w : World) :
  repository.webhook lib env ->
  (exists w' webhook',
     webhook_service.trigger_webhook env webhook payload w
     = ((w', webhook'), Raise (RetryError repository.no_items))
     /\ requests w' = requests w
     /\ status webhook' = "failed"%string
     /\ delivered_at webhook' = delivered_at webhook
     /\ delivered webhook' = delivered webhook)
  /\ (exists webhook',
        webhook_tasks.process_webhook_event env retries payload w
          (Some webhook)
        = (w, Some webhook', false)
        /\ status webhook' = "failed"%string
        /\ delivered_at webhook' = delivered_at webhook
        /\ delivered webhook' = delivered webhook)
  /\ (forall (env0 : Env) (webhook0 : Webhook) (payload0 : json.dict)
             (w0 : World),
        delivered
          (snd (fst (webhook_service.trigger_webhook env0 webhook0 payload0
                       w0)))
        = delivered webhook0)
  /\ (forall id application_id event url metadata,
        delivered (webhook_service.register_webhook id application_id event
                     url metadata) = false)
  /\ (forall (env0 : Env) (retries0 : nat) (payload0 : json.dict)
             (w0 w' : World) (webhook0 webhook' : Webhook) (b : bool),
        webhook_tasks.process_webhook_event env0 retries0 payload0 w0
          (Some webhook0)
        = (w', Some webhook', b) ->
        delivered webhook' = b || delivered webhook0).
Proof.
  intros H. split; [|split; [|split; [|split]]].
  - destruct (repository_trigger env webhook payload w H)
      as (wh & Ht & Hid & _ & Hat & Hst & _).
    do 2 eexists. split; [exact Ht|]. cbn [requests].
    split; [reflexivity|]. split; [exact Hst|]. split; [exact Hat|].
    apply Hid.
  - destruct (repository_task env retries payload w webhook H)
      as (wh & Ht & Hid & _ & Hat & Hst & _).
    exists wh. split; [exact Ht|]. split; [exact Hst|].
    split; [exact Hat|]. apply Hid.
  - exact trigger_webhook_keeps_delivered.
  - reflexivity.
  - exact task_delivered_flag.
Qed.

(** [process_document] in the repository: the first statement of its
    [try] raises, the handler wraps the exception and rolls back. *)
Lemma repository_process_document (env : ocr_env.Env)
    (db : models_document.Store) (d : models_document.Document) :
  repository.ocr lib env ->
  models_document.row db = Some d ->
  ocr_service.process_document env db
  = (db, Raise repository.processing_failed).
Proof.
  intros H Hrow. unfold ocr_service.process_document. rewrite Hrow.
  unfold ocr_service.process_document_body. rewrite H. reflexivity.
Qed.

(** One execution of [ocr_task] in the repository: the status
    [processing] is committed, [process_document] fails, and the handler
    commits [retry_pending]. *)
Lemma repository_ocr_task (env : ocr_env.Env) (retries : nat)
    (db : models_document.Store) (d : models_document.Document) :
  repository.ocr lib env ->
  models_document.row db = Some d ->
  exists d1 d2,
    ocr_tasks.ocr_task env retries db
    = (models_document.commit d2 (models_document.commit d1 db),
       ocr_tasks.self_retry retries repository.processing_failed
         (ocr_tasks.RETRY_DELAY * 2 ^ Z.of_nat retries)
         ocr_tasks.MAX_RETRIES)
    /\ models_document.status d1 = "processing"%string
    /\ models_document.status d2 = "retry_pending"%string
    /\ models_document.id d2 = models_document.id d
    /\ models_document.storage_path d2 = models_document.storage_path d
    /\ models_document.confidence_score d2
       = models_document.confidence_score d.
Proof.
  intros H Hrow.
  unfold ocr_tasks.ocr_task, ocr_tasks.ocr_task_try. rewrite Hrow.
  set (d1 := ocr_tasks.with_status_metadata "processing" _ d).
  rewrite (repository_process_document env
             (models_document.commit d1 db) d1 H eq_refl).
  cbn [is_ValueError_or_KeyError repository.processing_failed
       models_document.row models_document.commit ocr_tasks.RETRY_BACKOFF].
  do 2 eexists. split; [reflexivity|]. repeat split.
Qed.

(** X26.  In the repository [process_document] fails for every document
    that exists: its first statement calls [validate_document_data] with
    one argument, the [TypeError] is wrapped into a [CustomException] with
    the code [PROCESSING_ERROR], and the session is rolled back.  A queued
    [ocr_task] therefore runs four times, committing [processing] and
    [retry_pending] each time, and fails; [on_failure] stores the status
    [failed], and the storage path and the score stay what they were. *)
Theorem ocr_pipeline_fails_in_the_repository
    (envs : nat -> ocr_env.Env) (db : models_document.Store)
    (d : models_document.Document) :
  (forall n, repository.ocr lib (envs n)) ->
  models_document.row db = Some d ->
  ocr_service.process_document (envs 0%nat) db
  = (db, Raise repository.processing_failed)
  /\ exists db' final,
       ocr_tasks.run_ocr_task 4 envs 0 db
       = (db', Some (Raise repository.processing_failed))
       /\ map models_document.status (models_document.commits db')
          = (map models_document.status (models_document.commits db)
             ++ [ "processing"%string; "retry_pending"%string;
                  "processing"%string; "retry_pending"%string;
                  "processing"%string; "retry_pending"%string;
                  "processing"%string; "retry_pending"%string;
                  "failed"%string ])%list
       /\ models_document.row db' = Some final
       /\ models_document.status final = "failed"%string
       /\ models_document.storage_path final
          = models_document.storage_path d
       /\ models_document.confidence_score final
          = models_document.confidence_score d.
Proof.
  intros H Hrow. split.
  - exact (repository_process_document (envs 0%nat) db d (H 0%nat) Hrow).
  - destruct (repository_ocr_task (envs 0%nat) 0 db d (H 0%nat) Hrow)
      as (a1 & a2 & E0 & Ha1 & Ha2 & _ & Hp0 & Hs0).
    set (db0 := models_document.commit a2 (models_document.commit a1 db))
      in E0.
    destruct (repository_ocr_task (envs 1%nat) 1 db0 a2 (H 1%nat) eq_refl)
      as (b1 & b2 & E1 & Hb1 & Hb2 & _ & Hp1 & Hs1).
    set (db1 := models_document.commit b2 (models_document.commit b1 db0))
      in E1.
    destruct (repository_ocr_task (envs 2%nat) 2 db1 b2 (H 2%nat) eq_refl)
      as (c1 & c2 & E2 & Hc1 & Hc2 & _ & Hp2 & Hs2).
    set (db2 := models_document.commit c2 (models_document.commit c1 db1))
      in E2.
    destruct (repository_ocr_task (envs 3%nat) 3 db2 c2 (H 3%nat) eq_refl)
      as (e1 & e2 & E3 & He1 & He2 & _ & Hp3 & Hs3).
    cbn [ocr_tasks.run_ocr_task].
    rewrite E0. cbn [ocr_tasks.self_retry ocr_tasks.MAX_RETRIES Nat.ltb
                     Nat.leb Nat.add].
    rewrite E1. cbn [ocr_tasks.self_retry ocr_tasks.MAX_RETRIES Nat.ltb
                     Nat.leb Nat.add].
    rewrite E2. cbn [ocr_tasks.self_retry ocr_tasks.MAX_RETRIES Nat.ltb
                     Nat.leb Nat.add].
    rewrite E3. cbn [ocr_tasks.self_retry ocr_tasks.MAX_RETRIES Nat.ltb
                     Nat.leb Nat.add].
    do 2 eexists. split; [reflexivity|].
    subst db2 db1 db0.
    cbn [ocr_tasks.on_failure models_document.row models_document.commit
         models_document.commits].
    split.
    { rewrite !map_app. cbn [map].
      cbn [ocr_tasks.with_status_metadata models_document.status].
      rewrite Ha1, Ha2, Hb1, Hb2, Hc1, Hc2, He1, He2.
      rewrite <- !app_assoc. reflexivity. }
    split; [reflexivity|].
    cbn [ocr_tasks.with_status_metadata models_document.status
         models_document.storage_path models_document.confidence_score].
    split; [reflexivity|]. split; congruence.
Qed.

End Repository.

Section RepositoryExamples.

Import models_webhook webhook_env wire.
Local Open Scope Z_scope.

Lemma C3_failed_trigger_calls_are_not_counted_witness :
  (exists w' webhook',
     dispatch.trigger_calls (examples.webhook_env examples.dead_endpoint)
       [examples.event_payload; examples.event_payload;
        examples.event_payload]
       initial_world examples.hook
     = (w', webhook',
        [ Raise (RetryError repository.no_items);
          Raise (RetryError repository.no_items);
          Raise (RetryError repository.no_items) ])
     /\ requests w' = requests initial_world
     /\ slept w' = slept initial_world + 30
     /\ requeued w' = requeued initial_world
     /\ retry_count webhook' = 0
     /\ status webhook' = "failed"%string)
  /\ (exists webhook',
        webhook_tasks.process_webhook_event
          (examples.webhook_env examples.dead_endpoint) 0
          examples.event_payload initial_world (Some examples.hook)
        = (initial_world, Some webhook', false)
        /\ retry_count webhook' = 0
        /\ status webhook' = "failed"%string).
Proof.
  apply (C3_failed_trigger_calls_are_not_counted examples.libraries
           (examples.webhook_env examples.dead_endpoint)
           "wh-1" "app-1" "document.uploaded" "https://example.org/hook" []
           examples.event_payload examples.event_payload
           examples.event_payload 0 initial_world).
  intros payload event. reflexivity.
Defined.


Lemma C4_retry_count_within_MAX_RETRIES_witness :
  exists webhook,
    webhook_tasks.process_webhook_event
      (examples.webhook_env examples.dead_endpoint) 0 examples.event_payload
      webhook_env.initial_world (Some examples.hook)
    = (webhook_env.initial_world, Some webhook, false)
    /\ models_webhook.retry_count webhook = 0%Z
    /\ (models_webhook.retry_count webhook
        <= Z.of_nat webhook_service.MAX_RETRIES)%Z.
Proof.
  eexists. split; [reflexivity|].
  refine ((fun H => conj (proj1 H) (proj1 (proj2 H)))
            (proj1 (C4_retry_count_within_MAX_RETRIES examples.libraries)
               _ _)).
  apply (dispatch.processed examples.libraries
           (examples.webhook_env examples.dead_endpoint) 0
           examples.event_payload webhook_env.initial_world
           webhook_env.initial_world examples.hook _ false).
  - intros payload event. reflexivity.
  - eapply (dispatch.registered examples.libraries examples.registry_env
              examples.hook_data [] _ examples.hook).
    reflexivity.
  - reflexivity.
Defined.

Lemma C9_trigger_webhook_posts_nothing_witness :
  webhook_env.requests
    (fst (fst (webhook_service.trigger_webhook
                 (examples.webhook_env examples.live_endpoint)
                 examples.hook examples.event_payload
                 webhook_env.initial_world)))
  = []
  /\ snd (webhook_service.trigger_webhook
            (examples.webhook_env examples.live_endpoint)
            examples.hook examples.event_payload webhook_env.initial_world)
     = Raise (RetryError repository.no_items).
Proof.
  destruct (C9_trigger_webhook_posts_nothing examples.libraries
              (examples.webhook_env examples.live_endpoint) examples.hook
              examples.event_payload webhook_env.initial_world)
    as (Hreq & Hres & _).
  - intros payload event. reflexivity.
  - split; [exact Hreq|exact Hres].
Defined.

Lemma C10_delivery_never_succeeds_witness :
  (exists w' webhook',
     webhook_service.trigger_webhook
       (examples.webhook_env examples.live_endpoint) examples.hook
       examples.event_payload webhook_env.initial_world
     = ((w', webhook'), Raise (RetryError repository.no_items))
     /\ models_webhook.status webhook' = "failed"%string
     /\ models_webhook.delivered_at webhook' = None
     /\ models_webhook.delivered webhook' = false)
  /\ (exists webhook',
        webhook_tasks.process_webhook_event
          (examples.webhook_env examples.live_endpoint) 0
          examples.event_payload webhook_env.initial_world
          (Some examples.hook)
        = (webhook_env.initial_world, Some webhook', false)
        /\ models_webhook.status webhook' = "failed"%string
        /\ models_webhook.delivered webhook' = false).
Proof.
  destruct (C10_delivery_never_succeeds examples.libraries
              (examples.webhook_env examples.live_endpoint) examples.hook
              examples.event_payload 0 webhook_env.initial_world)
    as ((w' & wh & Ht & _ & Hst & Hat & Hd)
        & (wh2 & Ht2 & Hst2 & _ & Hd2) & _).
  - intros payload event. reflexivity.
  - split.
    + exists w', wh. repeat split; assumption.
    + exists wh2. repeat split; assumption.
Defined.

Lemma ocr_pipeline_fails_in_the_repository_witness :
  ocr_service.process_document examples.invoice_env
    (models_document.store_of (Some examples.invoice_document))
  = (models_document.store_of (Some examples.invoice_document),
     Raise repository.processing_failed)
  /\ exists db' final,
       ocr_tasks.run_ocr_task 4 (fun _ => examples.invoice_env) 0
         (models_document.store_of (Some examples.invoice_document))
       = (db', Some (Raise repository.processing_failed))
       /\ map models_document.status (models_document.commits db')
          = [ "processing"; "retry_pending"; "processing"; "retry_pending";
              "processing"; "retry_pending"; "processing"; "retry_pending";
              "failed" ]%string
       /\ models_document.row db' = Some final
       /\ models_document.status final = "failed"%string
       /\ models_document.storage_path final = "/uploads/invoice.png"%string
       /\ models_document.confidence_score final = None.
Proof.
  apply (ocr_pipeline_fails_in_the_repository examples.libraries
           (fun _ => examples.invoice_env)
           (models_document.store_of (Some examples.invoice_document))
           examples.invoice_document).
  - intros n document. reflexivity.
  - reflexivity.
Defined.

End RepositoryExamples.
